(** * vclusterops: the operation layer of the cluster administration library

    A shallow embedding of the Go sources

      - [vclusterops/cluster_op.go]            (host results, [opBase], quorum,
                                                sensitive-field masking)
      - [vclusterops/https_find_subcluster_op.go]
      - [vclusterops/nma_delete_dir_op.go]
      - [vclusterops/nma_network_profile_op.go]
      - the scrutinize tarball op and the catalog bootstrap op

    Go maps that are only read and written by key are [gmap]s.  A Go map is a
    reference: where two struct values can share one map (the configuration
    parameters of the bootstrap request bodies) the maps live in an explicit
    store and the structs hold locations.  A [range] over a map yields its
    entries in an order the runtime picks; the loops below take that order as
    a list, and the theorems hold for every such list. *)

From Stdlib Require Import ZArith NArith Ascii DecimalString.
From stdpp Require Import gmap strings list fin_maps sorting.

Local Open Scope string_scope.
Set Warnings "-register-all".

(* ===================================================================== *)
(** * Go [error] values *)
(* ===================================================================== *)

Module GoErrors.

(** The three shapes of error value the sources build:
    [errors.New] / [fmt.Errorf] without [%w], [fmt.Errorf] whose format ends
    in [%w], and [errors.Join]. *)
Inductive errorValue : Type :=
| errorString (msg : string)
| wrapError (msg : string) (inner : errorValue)
| joinError (errs : list errorValue).

(** A value of interface type [error]: [None] is [nil]. *)
Abbreviation error := (option errorValue).

(** [errors.Join]: drops nil arguments, returns nil when nothing is left. *)
Definition Join (errs : list error) : error :=
  match omap id errs with
  | [] => None
  | es => Some (joinError es)
  end.

(** [errors.Unwrap] of a [%w] error. *)
Definition Unwrap (e : errorValue) : error :=
  match e with
  | wrapError _ inner => Some inner
  | _ => None
  end.

(** The text [Error()] returns. *)
Fixpoint Error (e : errorValue) : string :=
  match e with
  | errorString msg => msg
  | wrapError msg inner => msg ++ Error inner
  | joinError es =>
      (fix sep (l : list errorValue) : string :=
         match l with
         | [] => ""
         | [x] => Error x
         | x :: l' => Error x ++ String "010"%char (sep l')
         end) es
  end.

End GoErrors.
Export GoErrors.

(* ===================================================================== *)
(** * cluster_op.go: host results *)
(* ===================================================================== *)

(** [type resultStatus int] *)
Definition resultStatus := Z.
Definition SUCCESS : resultStatus := 0%Z.
Definition FAILURE : resultStatus := 1%Z.
Definition EXCEPTION : resultStatus := 2%Z.

Definition GetMethod := "GET".
Definition PutMethod := "PUT".
Definition PostMethod := "POST".
Definition DeleteMethod := "DELETE".

Definition NMAVersion1 := "v1/".
Definition HTTPVersion1 := "v1/".
Definition NMACurVersion := NMAVersion1.
Definition HTTPCurVersion := HTTPVersion1.

Definition SuccessResult := "SUCCESS".
Definition FailureResult := "FAILURE".
Definition ExceptionResult := "FAILURE".

Definition SuccessCode : Z := 200.
Definition MultipleChoiceCode : Z := 300.
Definition UnauthorizedCode : Z := 401.
Definition InternalErrorCode : Z := 500.

Record hostHTTPResult : Type := mkHostHTTPResult {
  status : resultStatus;
  statusCode : Z;
  host : string;
  content : string;
  err : error
}.

Definition isUnauthorizedRequest (hostResult : hostHTTPResult) : bool :=
  bool_decide (statusCode hostResult = UnauthorizedCode).

Definition isSuccess (hostResult : hostHTTPResult) : bool :=
  bool_decide (statusCode hostResult = SuccessCode).

Definition isInternalError (hostResult : hostHTTPResult) : bool :=
  bool_decide (statusCode hostResult = InternalErrorCode).

Definition isPassing (hostResult : hostHTTPResult) : bool :=
  match err hostResult with
  | None => true
  | Some _ => false
  end.


Definition isFailing (hostResult : hostHTTPResult) : bool :=
  bool_decide (status hostResult = FAILURE).

Definition isException (hostResult : hostHTTPResult) : bool :=
  bool_decide (status hostResult = EXCEPTION).

Definition getStatusString (st : resultStatus) : string :=
  if bool_decide (st = FAILURE) then FailureResult
  else if bool_decide (st = EXCEPTION) then ExceptionResult
  else SuccessResult.

(* ===================================================================== *)
(** * cluster_op.go: quorum *)
(* ===================================================================== *)

(** Go's [uint] on a 64-bit platform: arithmetic is modulo [2^64]. *)
Definition uintModulus : N := (2 ^ 64)%N.
Definition uintAdd (a b : N) : N := ((a + b) mod uintModulus)%N.

(** [hasQuorum]; the [PrintError] of the failing branch only writes to the
    log. *)
Definition hasQuorum (hostCount primaryNodeCount : N) : bool :=
  let quorumCount := (uintAdd primaryNodeCount 1 / 2)%N in
  if (hostCount <? quorumCount)%N then false else true.

(** The count the comment above [hasQuorum] documents:
    "quorumCount = (1/2 * number of primary nodes) + 1". *)
Definition documentedQuorumCount (primaryNodeCount : N) : N :=
  (primaryNodeCount / 2 + 1)%N.

(* ===================================================================== *)
(** * Library functions the sources call *)
(* ===================================================================== *)

(** [strings.ToLower] and the string encoder of [encoding/json] (quoting,
    escaping, coercion to valid UTF-8) belong to the Go standard library. *)
Class GoLib : Type := {
  ToLower : string → string;
  jsonQuote : string → string
}.

(** [util.GetJSONLogErrors(responseContent, &responseObj, opName, logger)]
    decodes a response into the object behind [responseObj]; there is one
    decoder per target type.  [inl] carries the returned error, [inr] the
    decoded object. *)
Class JSONTarget (T : Type) : Type := {
  GetJSONLogErrors : string → string → errorValue + T
}.

(* ===================================================================== *)
(** * The store of Go maps that struct values share *)
(* ===================================================================== *)

Definition loc := positive.
(** A [map[string]string] value: [None] is the nil map. *)
Abbreviation mapRef := (option loc).
Abbreviation store := (gmap loc (gmap string string)).

(** Reading through a map value: a nil map reads as empty. *)
Definition deref (σ : store) (r : mapRef) : gmap string string :=
  match r with
  | None => ∅
  | Some l => default ∅ (σ !! l)
  end.

(* ===================================================================== *)
(** * cluster_op.go: sensitive fields in request bodies *)
(* ===================================================================== *)

Module Sensitive.

Record sensitiveFields : Type := mkSensitiveFields {
  DBPassword : string;
  AWSAccessKeyID : string;
  AWSSecretAccessKey : string;
  Parameters : mapRef
}.

Definition maskedValue := "******".

Definition sensitiveKeyParams : gmap string bool :=
  list_to_map [("awsauth", true); ("awssessiontoken", true);
               ("gcsauth", true); ("azurestoragecredentials", true)].

(** Indexing a [map[string]bool] gives [false] for an absent key. *)
Definition isSensitiveKey (keyLowerCase : string) : bool :=
  default false (sensitiveKeyParams !! keyLowerCase).

Section Masking.
Context `{GoLib}.

(** One pass of the body of [for key := range maskedData.Parameters]. *)
Definition maskKey (m : gmap string string) (key : string) : gmap string string :=
  let keyLowerCase := ToLower key in
  if isSensitiveKey keyLowerCase then <[key := maskedValue]> m else m.

(** The loop, over the keys in the order [range] yields them. *)
Definition maskParameters (keys : list string) (m : gmap string string)
  : gmap string string :=
  foldl maskKey m keys.

(** [maskSensitiveInfo] has a pointer receiver: it overwrites three fields of
    the struct it is called on, and writes through the [Parameters] map, which
    every struct holding the same map sees.  The keys are taken in the order
    of [map_to_list]; [maskParameters_all] below shows that every other order
    gives the same map. *)
Definition maskSensitiveInfo (σ : store) (maskedData : sensitiveFields)
  : store * sensitiveFields :=
  let σ' :=
    match Parameters maskedData with
    | None => σ
    | Some l =>
        match σ !! l with
        | None => σ
        | Some m => <[l := maskParameters (map_to_list m).*1 m]> σ
        end
    end in
  (σ', {| DBPassword := maskedValue;
          AWSAccessKeyID := maskedValue;
          AWSSecretAccessKey := maskedValue;
          Parameters := Parameters maskedData |}).

End Masking.

End Sensitive.

(* ===================================================================== *)
(** * Requests, [opBase] and the execution context *)
(* ===================================================================== *)

Record semVer : Type := mkSemVer { Ver : string }.

Record httpsCerts : Type := mkHttpsCerts {
  key : string;
  cert : string;
  caCert : string
}.

(** Modelled from the spec: the type [hostHTTPRequest] is declared in another
    file of the package; "HostHTTPRequest: {method, endpoint path, query
    parameters, request body, optional credentials, optional TLS material}",
    with the field names the operations assign. *)
Record hostHTTPRequest : Type := mkHostHTTPRequest {
  Method : string;
  Endpoint : string;
  QueryParams : gmap string string;
  RequestData : string;
  Username : string;
  Password : option string;
  UseCertsInOptions : bool;
  Certs : httpsCerts
}.

(** [hostHTTPRequest{}] *)
Definition zeroHostHTTPRequest : hostHTTPRequest :=
  {| Method := ""; Endpoint := ""; QueryParams := ∅; RequestData := "";
     Username := ""; Password := None; UseCertsInOptions := false;
     Certs := {| key := ""; cert := ""; caCert := "" |} |}.

Definition setMethod (r : hostHTTPRequest) (m : string) : hostHTTPRequest :=
  {| Method := m; Endpoint := Endpoint r; QueryParams := QueryParams r;
     RequestData := RequestData r; Username := Username r;
     Password := Password r; UseCertsInOptions := UseCertsInOptions r;
     Certs := Certs r |}.

Definition setEndpoint (r : hostHTTPRequest) (e : string) : hostHTTPRequest :=
  {| Method := Method r; Endpoint := e; QueryParams := QueryParams r;
     RequestData := RequestData r; Username := Username r;
     Password := Password r; UseCertsInOptions := UseCertsInOptions r;
     Certs := Certs r |}.

Definition setQueryParams (r : hostHTTPRequest) (q : gmap string string)
  : hostHTTPRequest :=
  {| Method := Method r; Endpoint := Endpoint r; QueryParams := q;
     RequestData := RequestData r; Username := Username r;
     Password := Password r; UseCertsInOptions := UseCertsInOptions r;
     Certs := Certs r |}.

Definition setRequestData (r : hostHTTPRequest) (d : string) : hostHTTPRequest :=
  {| Method := Method r; Endpoint := Endpoint r; QueryParams := QueryParams r;
     RequestData := d; Username := Username r;
     Password := Password r; UseCertsInOptions := UseCertsInOptions r;
     Certs := Certs r |}.

Definition setCredentials (r : hostHTTPRequest) (u : string) (p : option string)
  : hostHTTPRequest :=
  {| Method := Method r; Endpoint := Endpoint r; QueryParams := QueryParams r;
     RequestData := RequestData r; Username := u;
     Password := p; UseCertsInOptions := UseCertsInOptions r;
     Certs := Certs r |}.

Definition setCerts (r : hostHTTPRequest) (c : httpsCerts) : hostHTTPRequest :=
  {| Method := Method r; Endpoint := Endpoint r; QueryParams := QueryParams r;
     RequestData := RequestData r; Username := Username r;
     Password := Password r; UseCertsInOptions := true;
     Certs := c |}.

(** Modelled from the spec: [buildNMAEndpoint] and [buildHTTPSEndpoint] are
    methods of [hostHTTPRequest] declared in another file of the package; "path
    is a versioned endpoint (v1/<resource>)". *)
Definition buildNMAEndpoint (r : hostHTTPRequest) (url : string) : hostHTTPRequest :=
  setEndpoint r (NMACurVersion ++ url).

Definition buildHTTPSEndpoint (r : hostHTTPRequest) (url : string) : hostHTTPRequest :=
  setEndpoint r (HTTPCurVersion ++ url).

(** Modelled from the spec: the type [clusterHTTPRequest] is declared in
    another file of the package; "ClusterHTTPRequest: mapping from host to
    HostHTTPRequest, plus operation name and a version tag", and the result
    map the operations range over.  [RequestCollection] is [None] for the nil
    map of the zero value; [ResultCollection] lists the entries of the result
    map in the order [range] yields them. *)
Record clusterHTTPRequest : Type := mkClusterHTTPRequest {
  Name : string;
  SemVar : semVer;
  RequestCollection : option (gmap string hostHTTPRequest);
  ResultCollection : list (string * hostHTTPResult)
}.

(** [clusterHTTPRequest{}] *)
Definition zeroClusterHTTPRequest : clusterHTTPRequest :=
  {| Name := ""; SemVar := {| Ver := "" |};
     RequestCollection := None; ResultCollection := [] |}.

(** [opBase]; the logger only receives text and is left out. *)
Record opBase : Type := mkOpBase {
  name : string;
  hosts : list string;
  clusterHTTPRequestOf : clusterHTTPRequest;
  skipExecute : bool
}.

Definition withRequest (op : opBase) (c : clusterHTTPRequest) : opBase :=
  {| name := name op; hosts := hosts op; clusterHTTPRequestOf := c;
     skipExecute := skipExecute op |}.

Definition withRequestCollection (op : opBase)
  (rc : option (gmap string hostHTTPRequest)) : opBase :=
  withRequest op
    {| Name := Name (clusterHTTPRequestOf op);
       SemVar := SemVar (clusterHTTPRequestOf op);
       RequestCollection := rc;
       ResultCollection := ResultCollection (clusterHTTPRequestOf op) |}.


Definition getName (op : opBase) : string := name op.

Definition setClusterHTTPRequestName (op : opBase) : opBase :=
  withRequest op
    {| Name := name op;
       SemVar := SemVar (clusterHTTPRequestOf op);
       RequestCollection := RequestCollection (clusterHTTPRequestOf op);
       ResultCollection := ResultCollection (clusterHTTPRequestOf op) |}.

Definition setVersionToSemVar (op : opBase) : opBase :=
  withRequest op
    {| Name := Name (clusterHTTPRequestOf op);
       SemVar := {| Ver := "1.0.0" |};
       RequestCollection := RequestCollection (clusterHTTPRequestOf op);
       ResultCollection := ResultCollection (clusterHTTPRequestOf op) |}.

Definition setupBasicInfo (op : opBase) : opBase :=
  let op := withRequest op zeroClusterHTTPRequest in
  let op := withRequestCollection op (Some ∅) in
  let op := setClusterHTTPRequestName op in
  setVersionToSemVar op.

Definition isSkipExecute (op : opBase) : bool := skipExecute op.

(** The result of a statement that can hit a run-time panic (here: an
    assignment into a nil map). *)
Inductive outcome (A : Type) : Type :=
| Done (a : A)
| Panic.
Arguments Done {A} a.
Arguments Panic {A}.

(** [RequestCollection[host] = request] *)
Definition assignRequest (op : opBase) (host : string) (request : hostHTTPRequest)
  : outcome opBase :=
  match RequestCollection (clusterHTTPRequestOf op) with
  | None => Panic
  | Some rc => Done (withRequestCollection op (Some (<[host := request]> rc)))
  end.

(** [loadCertsIfNeeded]: every stored request gets the certificates; the
    result is the same for every order of the [range]. *)
Definition loadCertsIfNeeded (op : opBase) (certs : httpsCerts)
  (findCertsInOptions : bool) : opBase * error :=
  if negb findCertsInOptions then (op, None)
  else
    match RequestCollection (clusterHTTPRequestOf op) with
    | None =>
        (op, Some (errorString ("[" ++ name op ++ "] has not set up a http request")))
    | Some rc =>
        if bool_decide (size rc = 0) then
          (op, Some (errorString ("[" ++ name op ++ "] has not set up a http request")))
        else
          (withRequestCollection op (Some ((λ request, setCerts request certs) <$> rc)),
           None)
    end.

Definition parseAndCheckResponse {T : Type} `{JSONTarget T}
  (op : opBase) (host responseContent : string) : errorValue + T :=
  GetJSONLogErrors responseContent (name op).

(** [type opResponseMap map[string]string] *)
Abbreviation opResponseMap := (gmap string string).

Definition parseAndCheckMapResponse `{JSONTarget opResponseMap}
  (op : opBase) (host responseContent : string) : errorValue + opResponseMap :=
  parseAndCheckResponse op host responseContent.

(* ===================================================================== *)
(** * http_request_dispatcher.go and cluster_op_engine_context.go *)
(* ===================================================================== *)

(** Modelled from the spec: the adapters and the pool are declared in another
    file of the package; "AdapterPool: mapping from host to connection adapter",
    an adapter being built for one host, for plain requests or with the file a
    download is written to. *)
Record adapter : Type := mkAdapter {
  adapterHost : string;
  downloadPath : option string
}.

Record requestDispatcher : Type := mkDispatcher {
  connections : gmap string adapter
}.

Module Dispatcher.

(** [setup]: a fresh connection map with one adapter per host. *)
Definition setup (dispatcher : requestDispatcher) (hosts : list string)
  : requestDispatcher :=
  {| connections :=
       foldl (λ conns host,
                <[host := {| adapterHost := host; downloadPath := None |}]> conns)
             ∅ hosts |}.

(** [setupForDownload]: adds to the connection map of the pool. *)
Definition setupForDownload (dispatcher : requestDispatcher) (hosts : list string)
  (hostToFilePathsMap : gmap string string) : requestDispatcher :=
  {| connections :=
       foldl (λ conns host,
                <[host := {| adapterHost := host;
                             downloadPath :=
                               Some (default "" (hostToFilePathsMap !! host)) |}]>
                  conns)
             (connections dispatcher) hosts |}.

End Dispatcher.

(** nma_network_profile_op.go *)
Record NetworkProfile : Type := mkNetworkProfile {
  npName : string;
  Address : string;
  Subnet : string;
  Netmask : string;
  Broadcast : string
}.

(** [opEngineExecContext].  The fields [nmaVDatabase], [nodesInfo],
    [startupCommandMap] and [restorePoints] have types declared in other files
    of the package and no function below reads or writes them. *)
Record opEngineExecContext : Type := mkExecContext {
  dispatcher : requestDispatcher;
  networkProfiles : option (gmap string NetworkProfile);
  upHosts : list string;
  upScInfo : gmap string string;
  upHostsToSandboxes : gmap string string;
  defaultSCName : string;
  hostsWithLatestCatalog : list string;
  primaryHostsWithLatestCatalog : list string;
  dbInfo : string
}.

(** [makeOpEngineExecContext]: the zero value with a new dispatcher. *)
Definition makeOpEngineExecContext : opEngineExecContext :=
  {| dispatcher := {| connections := ∅ |};
     networkProfiles := None;
     upHosts := [];
     upScInfo := ∅;
     upHostsToSandboxes := ∅;
     defaultSCName := "";
     hostsWithLatestCatalog := [];
     primaryHostsWithLatestCatalog := [];
     dbInfo := "" |}.

Definition withDispatcher (ctx : opEngineExecContext) (d : requestDispatcher)
  : opEngineExecContext :=
  {| dispatcher := d;
     networkProfiles := networkProfiles ctx;
     upHosts := upHosts ctx;
     upScInfo := upScInfo ctx;
     upHostsToSandboxes := upHostsToSandboxes ctx;
     defaultSCName := defaultSCName ctx;
     hostsWithLatestCatalog := hostsWithLatestCatalog ctx;
     primaryHostsWithLatestCatalog := primaryHostsWithLatestCatalog ctx;
     dbInfo := dbInfo ctx |}.

Definition withNetworkProfiles (ctx : opEngineExecContext)
  (np : option (gmap string NetworkProfile)) : opEngineExecContext :=
  {| dispatcher := dispatcher ctx;
     networkProfiles := np;
     upHosts := upHosts ctx;
     upScInfo := upScInfo ctx;
     upHostsToSandboxes := upHostsToSandboxes ctx;
     defaultSCName := defaultSCName ctx;
     hostsWithLatestCatalog := hostsWithLatestCatalog ctx;
     primaryHostsWithLatestCatalog := primaryHostsWithLatestCatalog ctx;
     dbInfo := dbInfo ctx |}.

Definition withDefaultSCName (ctx : opEngineExecContext) (n : string)
  : opEngineExecContext :=
  {| dispatcher := dispatcher ctx;
     networkProfiles := networkProfiles ctx;
     upHosts := upHosts ctx;
     upScInfo := upScInfo ctx;
     upHostsToSandboxes := upHostsToSandboxes ctx;
     defaultSCName := n;
     hostsWithLatestCatalog := hostsWithLatestCatalog ctx;
     primaryHostsWithLatestCatalog := primaryHostsWithLatestCatalog ctx;
     dbInfo := dbInfo ctx |}.

(** What an operation writes to the log while it processes results: which
    host's response it looked at, and which host's content it decoded. *)
Inductive logEvent : Type :=
| LogResponse (host : string)
| LogParse (host : string).

(* ===================================================================== *)
(** * https_find_subcluster_op.go *)
(* ===================================================================== *)

Record opHTTPSBase : Type := mkOpHTTPSBase {
  useHTTPPassword : bool;
  httpsPassword : option string;
  userName : string
}.

Record SubclusterInfo : Type := mkSubclusterInfo {
  SCName : string;
  IsDefault : bool
}.

Record SCResp : Type := mkSCResp {
  SCInfoList : list SubclusterInfo
}.

Module HTTPSFindSubclusterOp.

Record t : Type := mk {
  base : opBase;
  httpsBase : opHTTPSBase;
  scName : string;
  ignoreNotFound : bool
}.

Definition withBase (op : t) (b : opBase) : t :=
  {| base := b; httpsBase := httpsBase op; scName := scName op;
     ignoreNotFound := ignoreNotFound op |}.

Definition setupClusterHTTPRequest (op : t) (hosts : list string)
  : outcome (t * error) :=
  (fix loop (b : opBase) (hosts : list string) : outcome (t * error) :=
     match hosts with
     | [] => Done (withBase op b, None)
     | host :: rest =>
         let httpRequest := zeroHostHTTPRequest in
         let httpRequest := setMethod httpRequest GetMethod in
         let httpRequest := buildHTTPSEndpoint httpRequest "subclusters" in
         let httpRequest :=
           if useHTTPPassword (httpsBase op)
           then setCredentials httpRequest (userName (httpsBase op))
                               (httpsPassword (httpsBase op))
           else httpRequest in
         match assignRequest b host httpRequest with
         | Panic => Panic
         | Done b' => loop b' rest
         end
     end) (base op) hosts.

Definition prepare (op : t) (execContext : opEngineExecContext)
  : outcome (t * opEngineExecContext * error) :=
  let execContext :=
    withDispatcher execContext
      (Dispatcher.setup (dispatcher execContext) (hosts (base op))) in
  match setupClusterHTTPRequest op (hosts (base op)) with
  | Panic => Panic
  | Done (op', e) => Done (op', execContext, e)
  end.

(** The inner loop over [scResp.SCInfoList], with its [break]. *)
Fixpoint scanSubclusters (op : t) (l : list SubclusterInfo)
  (foundNamedSc foundDefaultSc : bool) (execContext : opEngineExecContext)
  : bool * bool * opEngineExecContext :=
  match l with
  | [] => (foundNamedSc, foundDefaultSc, execContext)
  | scInfo :: l' =>
      let foundNamedSc :=
        if bool_decide (SCName scInfo = scName op) then true else foundNamedSc in
      let '(foundDefaultSc, execContext) :=
        if IsDefault scInfo
        then (true, withDefaultSCName execContext (SCName scInfo))
        else (foundDefaultSc, execContext) in
      if foundNamedSc && foundDefaultSc
      then (foundNamedSc, foundDefaultSc, execContext)
      else scanSubclusters op l' foundNamedSc foundDefaultSc execContext
  end.

Definition parseError (op : t) (host : string) (e : errorValue) : errorValue :=
  wrapError ("[" ++ name (base op) ++ "] fail to parse result on host " ++ host
             ++ ", details: ") e.

Definition notExistError (op : t) : errorValue :=
  errorString ("[" ++ name (base op) ++ "] subcluster '" ++ scName op
               ++ "' does not exist in the database").

Definition noDefaultError (op : t) : errorValue :=
  errorString ("[" ++ name (base op)
               ++ "] cannot find a default subcluster in the database").

Section WithDecoder.
Context `{JSONTarget SCResp}.

(** The loop of [processResult] from a given loop state: the errors joined so
    far, the execution context and the log. *)
Fixpoint processResultFrom (op : t) (allErrs : error)
  (execContext : opEngineExecContext) (log : list logEvent)
  (results : list (string * hostHTTPResult))
  : error * opEngineExecContext * list logEvent :=
  match results with
  | [] => (allErrs, execContext, log)
  | (host, result) :: rest =>
      let log := (log ++ [LogResponse host])%list in
      if isUnauthorizedRequest result then
        (err result, execContext, log)
      else if negb (isPassing result) then
        processResultFrom op (Join [allErrs; err result]) execContext log rest
      else
        let log := (log ++ [LogParse host])%list in
        match parseAndCheckResponse (base op) host (content result) with
        | inl e =>
            (Join [allErrs; Some (parseError op host e)], execContext, log)
        | inr scResp =>
            let '(foundNamedSc, foundDefaultSc, execContext) :=
              scanSubclusters op (SCInfoList scResp) false false execContext in
            if negb (bool_decide (scName op = "")) && negb (ignoreNotFound op)
               && negb foundNamedSc
            then (Join [allErrs; Some (notExistError op)], execContext, log)
            else if negb foundDefaultSc
            then (Join [allErrs; Some (noDefaultError op)], execContext, log)
            else (None, execContext, log)
        end
  end.

Definition processResult (op : t) (execContext : opEngineExecContext)
  : error * opEngineExecContext * list logEvent :=
  processResultFrom op None execContext []
    (ResultCollection (clusterHTTPRequestOf (base op))).

End WithDecoder.

End HTTPSFindSubclusterOp.

(* ===================================================================== *)
(** * nma_delete_dir_op.go *)
(* ===================================================================== *)

(** Modelled from the spec: the coordination database and its nodes are
    declared in another file of the package; "per-node metadata (catalog path,
    storage locations, ports, addresses)", with the field names the
    operations read. *)
Record VCoordinationNode : Type := mkVNode {
  vnName : string;
  vnAddress : string;
  vnCatalogPath : string;
  vnStorageLocations : list string;
  vnDepotPath : string;
  vnPort : Z
}.

(** The zero value, which indexing [HostNodeMap] gives for an absent host. *)
Definition zeroVCoordinationNode : VCoordinationNode :=
  {| vnName := ""; vnAddress := ""; vnCatalogPath := "";
     vnStorageLocations := []; vnDepotPath := ""; vnPort := 0 |}.

Record VCoordinationDatabase : Type := mkVdb {
  vdbName : string;
  HostList : list string;
  HostNodeMap : gmap string VCoordinationNode;
  UseDepot : bool;
  DepotPrefix : string;
  CatalogPrefix : string;
  DataPrefix : string;
  LicensePathOnNode : string;
  vdbNumShards : Z;
  CommunalStorageLocation : string;
  AwsIDKey : string;
  AwsSecretKey : string
}.

(** JSON text of the values whose encoding needs no library support. *)
Definition jsonBool (b : bool) : string := if b then "true" else "false".
Definition jsonInt (z : Z) : string := NilZero.string_of_int (Z.to_int z).
Definition jsonObject (members : list string) : string :=
  "{" ++ String.concat "," members ++ "}".
Definition jsonArray (elements : list string) : string :=
  "[" ++ String.concat "," elements ++ "]".

Module NMADeleteDirectoriesOp.

Record t : Type := mk {
  base : opBase;
  hostRequestBodyMap : gmap string string
}.

Definition withBase (op : t) (b : opBase) : t :=
  {| base := b; hostRequestBodyMap := hostRequestBodyMap op |}.

Record deleteDirParams : Type := mkParams {
  Directories : list string;
  ForceDelete : bool;
  Sandbox : bool
}.

Section WithLib.
Context `{GoLib}.
(** [filepath.Join] of two elements. *)
Context (filepathJoin : string → string → string).

(** [json.Marshal(p)]; [Directories] is never the nil slice here. *)
Definition marshalParams (p : deleteDirParams) : string :=
  jsonObject
    [ jsonQuote "directories" ++ ":" ++ jsonArray (map jsonQuote (Directories p));
      jsonQuote "force_delete" ++ ":" ++ jsonBool (ForceDelete p);
      jsonQuote "sandbox" ++ ":" ++ jsonBool (Sandbox p) ].

Definition buildParams (vdb : VCoordinationDatabase) (forceDelete : bool)
  (vnode : VCoordinationNode) : deleteDirParams :=
  let dirs := [vnCatalogPath vnode] in
  let dirs := (dirs ++ vnStorageLocations vnode)%list in
  let dirs :=
    if UseDepot vdb
    then (dirs ++ [vnDepotPath vnode; filepathJoin (DepotPrefix vdb) (vdbName vdb)])%list
    else dirs in
  let dbCatalogPath := filepathJoin (CatalogPrefix vdb) (vdbName vdb) in
  let dbDataPath := filepathJoin (DataPrefix vdb) (vdbName vdb) in
  let dirs := (dirs ++ [dbCatalogPath; dbDataPath])%list in
  {| Directories := dirs; ForceDelete := forceDelete; Sandbox := false |}.

(** [buildRequestBody]: marshalling cannot fail on these types, so the error
    is always nil. *)
Definition buildRequestBody (op : t) (vdb : VCoordinationDatabase)
  (forceDelete : bool) : t * error :=
  ({| base := base op;
      hostRequestBodyMap :=
        foldl (λ m hv, <[hv.1 := marshalParams (buildParams vdb forceDelete hv.2)]> m)
              ∅ (map_to_list (HostNodeMap vdb)) |},
   None).

Definition makeNMADeleteDirectoriesOp (vdb : VCoordinationDatabase)
  (forceDelete : bool) : t * error :=
  let op :=
    {| base := {| name := "NMADeleteDirectoriesOp"; hosts := HostList vdb;
                  clusterHTTPRequestOf := zeroClusterHTTPRequest;
                  skipExecute := false |};
       hostRequestBodyMap := ∅ |} in
  buildRequestBody op vdb forceDelete.

End WithLib.

Definition setupClusterHTTPRequest (op : t) (hosts : list string)
  : outcome (t * error) :=
  (fix loop (b : opBase) (hosts : list string) : outcome (t * error) :=
     match hosts with
     | [] => Done (withBase op b, None)
     | host :: rest =>
         let httpRequest := zeroHostHTTPRequest in
         let httpRequest := setMethod httpRequest PostMethod in
         let httpRequest := buildNMAEndpoint httpRequest "directories/delete" in
         let httpRequest :=
           setRequestData httpRequest
                          (default "" (hostRequestBodyMap op !! host)) in
         match assignRequest b host httpRequest with
         | Panic => Panic
         | Done b' => loop b' rest
         end
     end) (base op) hosts.

Definition prepare (op : t) (execContext : opEngineExecContext)
  : outcome (t * opEngineExecContext * error) :=
  let execContext :=
    withDispatcher execContext
      (Dispatcher.setup (dispatcher execContext) (hosts (base op))) in
  match setupClusterHTTPRequest op (hosts (base op)) with
  | Panic => Panic
  | Done (op', e) => Done (op', execContext, e)
  end.

Section WithDecoder.
Context `{JSONTarget opResponseMap}.

Fixpoint processResultFrom (op : t) (allErrs : error)
  (results : list (string * hostHTTPResult)) : error :=
  match results with
  | [] => allErrs
  | (host, result) :: rest =>
      if isPassing result then
        match parseAndCheckMapResponse (base op) host (content result) with
        | inl e => processResultFrom op (Join [allErrs; Some e]) rest
        | inr _ => processResultFrom op allErrs rest
        end
      else
        processResultFrom op (Join [allErrs; err result]) rest
  end.

Definition processResult (op : t) (_ : opEngineExecContext) : error :=
  processResultFrom op None (ResultCollection (clusterHTTPRequestOf (base op))).

End WithDecoder.

End NMADeleteDirectoriesOp.

(* ===================================================================== *)
(** * The scrutinize tarball op *)
(* ===================================================================== *)

Module NMAGetScrutinizeTarOp.

(** [ScrutinizeOpBase] is declared in another file of the package; these are the
    fields [makeNMAGetScrutinizeTarOp] fills. *)
Record t : Type := mk {
  base : opBase;
  id : string;
  batch : string;
  hostNodeNameMap : gmap string string;
  httpMethod : string
}.

Definition tarballError (op : t) (host : string) (e : errorValue) : errorValue :=
  wrapError ("failed to retrieve tarball batch " ++ batch op ++ " on host "
             ++ host ++ ", details ") e.

Fixpoint processResultFrom (op : t) (allErrs : error)
  (results : list (string * hostHTTPResult)) : error :=
  match results with
  | [] => allErrs
  | (host, result) :: rest =>
      if isPassing result then
        processResultFrom op allErrs rest
      else if isInternalError result then
        (* PrintWarning "Failed to tar batch ... Skipping." *)
        processResultFrom op allErrs rest
      else
        match err result with
        | Some e =>
            processResultFrom op (Join [allErrs; Some (tarballError op host e)]) rest
        | None => processResultFrom op allErrs rest
        end
  end.

Definition processResult (op : t) (_ : opEngineExecContext) : error :=
  processResultFrom op None (ResultCollection (clusterHTTPRequestOf (base op))).

End NMAGetScrutinizeTarOp.

(* ===================================================================== *)
(** * nma_network_profile_op.go *)
(* ===================================================================== *)

(** Functions of the [util] package that the operations call. *)
Class UtilPkg : Type := {
  CheckMissingFields : NetworkProfile → error;
  ValidateUsernameAndPassword : string → bool → string → error
}.

Module NMANetworkProfileOp.

Record t : Type := mk {
  base : opBase
}.

Definition withBase (op : t) (b : opBase) : t := {| base := b |}.

Definition makeNMANetworkProfileOp (hosts : list string) : t :=
  {| base := {| name := "NMANetworkProfileOp"; hosts := hosts;
                clusterHTTPRequestOf := zeroClusterHTTPRequest;
                skipExecute := false |} |}.

Definition setupClusterHTTPRequest (op : t) (hosts : list string)
  : outcome (t * error) :=
  (fix loop (b : opBase) (hosts : list string) : outcome (t * error) :=
     match hosts with
     | [] => Done (withBase op b, None)
     | host :: rest =>
         let httpRequest := zeroHostHTTPRequest in
         let httpRequest := setMethod httpRequest GetMethod in
         let httpRequest := buildNMAEndpoint httpRequest "network-profiles" in
         let httpRequest :=
           setQueryParams httpRequest {[ "broadcast-hint" := host ]} in
         match assignRequest b host httpRequest with
         | Panic => Panic
         | Done b' => loop b' rest
         end
     end) (base op) hosts.

Definition prepare (op : t) (execContext : opEngineExecContext)
  : outcome (t * opEngineExecContext * error) :=
  let execContext :=
    withDispatcher execContext
      (Dispatcher.setup (dispatcher execContext) (hosts (base op))) in
  match setupClusterHTTPRequest op (hosts (base op)) with
  | Panic => Panic
  | Done (op', e) => Done (op', execContext, e)
  end.

Section WithDecoder.
Context `{JSONTarget NetworkProfile} `{UtilPkg}.

Definition parseResponse (op : t) (host resultContent : string)
  : errorValue + NetworkProfile :=
  match parseAndCheckResponse (base op) host resultContent with
  | inl e => inl e
  | inr responseObj =>
      match CheckMissingFields responseObj with
      | Some e => inl e
      | None => inr responseObj
      end
  end.

Definition parseError (op : t) (host : string) (e : errorValue) : errorValue :=
  wrapError ("[" ++ name (base op) ++ "] fail to parse network profile on host "
             ++ host ++ ", details: ") e.

Fixpoint processResultFrom (op : t) (allErrs : error)
  (allNetProfiles : gmap string NetworkProfile)
  (execContext : opEngineExecContext)
  (results : list (string * hostHTTPResult)) : error * opEngineExecContext :=
  match results with
  | [] =>
      (* save network profiles to execContext *)
      (allErrs, withNetworkProfiles execContext (Some allNetProfiles))
  | (host, result) :: rest =>
      if isPassing result then
        match parseResponse op host (content result) with
        | inl e => (Some (parseError op host e), execContext)
        | inr profile =>
            processResultFrom op allErrs (<[host := profile]> allNetProfiles)
                              execContext rest
        end
      else
        processResultFrom op (Join [allErrs; err result]) allNetProfiles
                          execContext rest
  end.

Definition processResult (op : t) (execContext : opEngineExecContext)
  : error * opEngineExecContext :=
  processResultFrom op None ∅ execContext
    (ResultCollection (clusterHTTPRequestOf (base op))).

End WithDecoder.

End NMANetworkProfileOp.

(** [makeHTTPSFindSubclusterOp], with [validateAndSetUsernameAndPassword]. *)
Definition validateAndSetUsernameAndPassword `{UtilPkg} (opb : opHTTPSBase)
  (opName : string) (useHTTPPassword' : bool) (userName' : string)
  (httpsPassword' : option string) : opHTTPSBase * error :=
  let opb := {| useHTTPPassword := useHTTPPassword';
                httpsPassword := httpsPassword opb;
                userName := userName opb |} in
  if useHTTPPassword opb then
    match ValidateUsernameAndPassword opName (useHTTPPassword opb) userName' with
    | Some e => (opb, Some e)
    | None =>
        ({| useHTTPPassword := useHTTPPassword opb;
            httpsPassword := httpsPassword';
            userName := userName' |}, None)
    end
  else (opb, None).

Definition makeHTTPSFindSubclusterOp `{UtilPkg} (hosts : list string)
  (useHTTPPassword' : bool) (userName' : string) (httpsPassword' : option string)
  (scName' : string) (ignoreNotFound' : bool)
  : HTTPSFindSubclusterOp.t * error :=
  let b := {| name := "HTTPSFindSubclusterOp"; hosts := hosts;
              clusterHTTPRequestOf := zeroClusterHTTPRequest;
              skipExecute := false |} in
  let '(opb, e) :=
    validateAndSetUsernameAndPassword
      {| useHTTPPassword := false; httpsPassword := None; userName := "" |}
      (name b) useHTTPPassword' userName' httpsPassword' in
  ({| HTTPSFindSubclusterOp.base := b;
      HTTPSFindSubclusterOp.httpsBase := opb;
      HTTPSFindSubclusterOp.scName := scName';
      HTTPSFindSubclusterOp.ignoreNotFound := ignoreNotFound' |}, e).

(* ===================================================================== *)
(** * The catalog bootstrap op *)
(* ===================================================================== *)

(** [vstruct.NullableBool], of the [vstruct] package. *)
Inductive NullableBool : Type := NotSet | False' | True'.
Definition ToBool (b : NullableBool) : bool :=
  match b with True' => true | _ => false end.

(** Modelled from the spec: the options of create-database are declared
    in another file of the package; the collaborator layer "supplies ... per-node
    metadata ... and credentials".  The fields are those [setupRequestBody]
    reads; the pointer fields are allocated by the options factory and hold
    the values below. *)
Record VCreateDatabaseOptions : Type := mkOptions {
  ConfigurationParameters : mapRef;
  optLargeCluster : Z;
  P2p : bool;
  optSpreadLogging : bool;
  optSpreadLoggingLevel : Z;
  optIpv6 : NullableBool;
  optPassword : string
}.

Module NMABootstrapCatalogOp.

(** [bootstrapCatalogRequestData] declares [Parameters] itself and embeds the
    sensitive fields, which declare [Parameters] too.  A selector
    [x.Parameters] and the JSON member "parameters" both denote the field at
    the shallower depth, that is [Parameters] below; the embedded one is
    [Sensitive.Parameters (SensitiveFields x)]. *)
Record bootstrapCatalogRequestData : Type := mkData {
  DBName : string;
  Host : string;
  NodeName : string;
  CatalogPath : string;
  StorageLocation : string;
  PortNumber : Z;
  Parameters : mapRef;
  ControlAddr : string;
  BroadcastAddr : string;
  LicenseKey : string;
  ControlPort : string;
  LargeCluster : Z;
  NetworkingMode : string;
  SpreadLogging : bool;
  SpreadLoggingLevel : Z;
  Ipv6 : bool;
  NumShards : Z;
  CommunalStorageURL : string;
  SensitiveFields : Sensitive.sensitiveFields
}.

(** [bootstrapCatalogRequestData{}] *)
Definition zeroData : bootstrapCatalogRequestData :=
  {| DBName := ""; Host := ""; NodeName := ""; CatalogPath := "";
     StorageLocation := ""; PortNumber := 0; Parameters := None;
     ControlAddr := ""; BroadcastAddr := ""; LicenseKey := "";
     ControlPort := ""; LargeCluster := 0; NetworkingMode := "";
     SpreadLogging := false; SpreadLoggingLevel := 0; Ipv6 := false;
     NumShards := 0; CommunalStorageURL := "";
     SensitiveFields :=
       {| Sensitive.DBPassword := ""; Sensitive.AWSAccessKeyID := "";
          Sensitive.AWSSecretAccessKey := ""; Sensitive.Parameters := None |} |}.

Definition withBroadcastAddr (d : bootstrapCatalogRequestData) (a : string)
  : bootstrapCatalogRequestData :=
  {| DBName := DBName d; Host := Host d; NodeName := NodeName d;
     CatalogPath := CatalogPath d; StorageLocation := StorageLocation d;
     PortNumber := PortNumber d; Parameters := Parameters d;
     ControlAddr := ControlAddr d; BroadcastAddr := a;
     LicenseKey := LicenseKey d; ControlPort := ControlPort d;
     LargeCluster := LargeCluster d; NetworkingMode := NetworkingMode d;
     SpreadLogging := SpreadLogging d;
     SpreadLoggingLevel := SpreadLoggingLevel d; Ipv6 := Ipv6 d;
     NumShards := NumShards d; CommunalStorageURL := CommunalStorageURL d;
     SensitiveFields := SensitiveFields d |}.

Definition withSensitiveFields (d : bootstrapCatalogRequestData)
  (sf : Sensitive.sensitiveFields) : bootstrapCatalogRequestData :=
  {| DBName := DBName d; Host := Host d; NodeName := NodeName d;
     CatalogPath := CatalogPath d; StorageLocation := StorageLocation d;
     PortNumber := PortNumber d; Parameters := Parameters d;
     ControlAddr := ControlAddr d; BroadcastAddr := BroadcastAddr d;
     LicenseKey := LicenseKey d; ControlPort := ControlPort d;
     LargeCluster := LargeCluster d; NetworkingMode := NetworkingMode d;
     SpreadLogging := SpreadLogging d;
     SpreadLoggingLevel := SpreadLoggingLevel d; Ipv6 := Ipv6 d;
     NumShards := NumShards d; CommunalStorageURL := CommunalStorageURL d;
     SensitiveFields := sf |}.

Record t : Type := mk {
  base : opBase;
  hostRequestBodyMap : gmap string bootstrapCatalogRequestData;
  marshaledRequestBodyMap : gmap string string
}.

Definition withBase (op : t) (b : opBase) : t :=
  {| base := b; hostRequestBodyMap := hostRequestBodyMap op;
     marshaledRequestBodyMap := marshaledRequestBodyMap op |}.

Section WithLib.
Context `{GoLib}.

(** [encoding/json] writes the members of a map sorted by key. *)
Definition keyLe (a b : string * string) : Prop := String.leb a.1 b.1 = true.
#[local] Instance keyLe_dec a b : Decision (keyLe a b).
Proof. unfold keyLe. apply _. Defined.

Definition marshalMap (σ : store) (r : mapRef) : string :=
  match r with
  | None => "null"
  | Some _ =>
      jsonObject
        (map (λ kv, jsonQuote kv.1 ++ ":" ++ jsonQuote kv.2)
             (merge_sort keyLe (map_to_list (deref σ r))))
  end.

(** [json.Marshal] of a request body, in the store it is called in: the
    fields in declaration order, those of the embedded struct in its place,
    the embedded "parameters" hidden by the struct's own. *)
Definition marshal (σ : store) (d : bootstrapCatalogRequestData) : string :=
  jsonObject
    [ jsonQuote "db_name" ++ ":" ++ jsonQuote (DBName d);
      jsonQuote "host" ++ ":" ++ jsonQuote (Host d);
      jsonQuote "node_name" ++ ":" ++ jsonQuote (NodeName d);
      jsonQuote "catalog_path" ++ ":" ++ jsonQuote (CatalogPath d);
      jsonQuote "storage_location" ++ ":" ++ jsonQuote (StorageLocation d);
      jsonQuote "port_number" ++ ":" ++ jsonInt (PortNumber d);
      jsonQuote "parameters" ++ ":" ++ marshalMap σ (Parameters d);
      jsonQuote "control_addr" ++ ":" ++ jsonQuote (ControlAddr d);
      jsonQuote "broadcast_addr" ++ ":" ++ jsonQuote (BroadcastAddr d);
      jsonQuote "license_key" ++ ":" ++ jsonQuote (LicenseKey d);
      jsonQuote "spread_port" ++ ":" ++ jsonQuote (ControlPort d);
      jsonQuote "large_cluster" ++ ":" ++ jsonInt (LargeCluster d);
      jsonQuote "networking_mode" ++ ":" ++ jsonQuote (NetworkingMode d);
      jsonQuote "spread_logging" ++ ":" ++ jsonBool (SpreadLogging d);
      jsonQuote "spread_logging_level" ++ ":" ++ jsonInt (SpreadLoggingLevel d);
      jsonQuote "ipv6" ++ ":" ++ jsonBool (Ipv6 d);
      jsonQuote "num_shards" ++ ":" ++ jsonInt (NumShards d);
      jsonQuote "communal_storage" ++ ":" ++ jsonQuote (CommunalStorageURL d);
      jsonQuote "db_password" ++ ":"
        ++ jsonQuote (Sensitive.DBPassword (SensitiveFields d));
      jsonQuote "aws_access_key_id" ++ ":"
        ++ jsonQuote (Sensitive.AWSAccessKeyID (SensitiveFields d));
      jsonQuote "aws_secret_access_key" ++ ":"
        ++ jsonQuote (Sensitive.AWSSecretAccessKey (SensitiveFields d)) ].

(** The body [setupRequestBody] builds for one host. *)
Definition bootstrapDataFor (vdb : VCoordinationDatabase)
  (options : VCreateDatabaseOptions) (host : string) (vnode : VCoordinationNode)
  (storageLocation : string) : bootstrapCatalogRequestData :=
  {| DBName := vdbName vdb;
     Host := host;
     NodeName := vnName vnode;
     CatalogPath := vnCatalogPath vnode;
     StorageLocation := storageLocation;
     PortNumber := vnPort vnode;
     Parameters := ConfigurationParameters options;
     ControlAddr := vnAddress vnode;
     BroadcastAddr := "";
     LicenseKey := LicensePathOnNode vdb;
     ControlPort := "";
     LargeCluster := optLargeCluster options;
     NetworkingMode := if P2p options then "pt2pt" else "broadcast";
     SpreadLogging := optSpreadLogging options;
     SpreadLoggingLevel := optSpreadLoggingLevel options;
     Ipv6 := ToBool (optIpv6 options);
     NumShards := vdbNumShards vdb;
     CommunalStorageURL := CommunalStorageLocation vdb;
     SensitiveFields :=
       {| Sensitive.DBPassword := optPassword options;
          Sensitive.AWSAccessKeyID := AwsIDKey vdb;
          Sensitive.AWSSecretAccessKey := AwsSecretKey vdb;
          Sensitive.Parameters := None |} |}.

(** [setupRequestBody].  Indexing [HostNodeMap] with a host it does not hold
    gives the zero node, which has no storage location, so the loop returns the
    error for that host. *)
Definition setupRequestBody (op : t) (vdb : VCoordinationDatabase)
  (options : VCreateDatabaseOptions) : t * error :=
  (fix loop (bodies : gmap string bootstrapCatalogRequestData)
            (hosts : list string) : t * error :=
     let op' := {| base := base op; hostRequestBodyMap := bodies;
                   marshaledRequestBodyMap := marshaledRequestBodyMap op |} in
     match hosts with
     | [] => (op', None)
     | host :: rest =>
         let vnode := default zeroVCoordinationNode (HostNodeMap vdb !! host) in
         match vnStorageLocations vnode with
         | [] =>
             (op', Some (errorString ("[" ++ name (base op)
                                      ++ "] the storage locations is empty")))
         | storageLocation :: _ =>
             loop (<[host := bootstrapDataFor vdb options host vnode
                                              storageLocation]> bodies) rest
         end
     end) ∅ (hosts (base op)).

Definition MakeNMABootstrapCatalogOp (name' : string)
  (vdb : VCoordinationDatabase) (options : VCreateDatabaseOptions)
  (bootstrapHosts : list string) : t * error :=
  let nmaBootstrapCatalogOp :=
    {| base := {| name := name'; hosts := bootstrapHosts;
                  clusterHTTPRequestOf := zeroClusterHTTPRequest;
                  skipExecute := false |};
       hostRequestBodyMap := ∅;
       marshaledRequestBodyMap := ∅ |} in
  setupRequestBody nmaBootstrapCatalogOp vdb options.

(** The state of the loop of [updateRequestBody]: the store of shared maps,
    the op, and [maskedRequestBodyMap], the copy that is logged. *)
Definition updateState : Type :=
  store * t * gmap string bootstrapCatalogRequestData.

(** One pass of the loop body. *)
Definition updateOne (st : updateState) (hp : string * NetworkProfile)
  : updateState :=
  let '(σ, op, maskedRequestBodyMap) := st in
  let '(host, profile) := hp in
  let requestBody := default zeroData (hostRequestBodyMap op !! host) in
  let requestBody := withBroadcastAddr requestBody (Broadcast profile) in
  let bodies := <[host := requestBody]> (hostRequestBodyMap op) in
  let dataBytes := marshal σ (default zeroData (bodies !! host)) in
  let marshaled := <[host := dataBytes]> (marshaledRequestBodyMap op) in
  (* mask sensitive data for logs *)
  let maskedData := requestBody in
  let '(σ', sf) := Sensitive.maskSensitiveInfo σ (SensitiveFields maskedData) in
  let maskedData := withSensitiveFields maskedData sf in
  (σ',
   {| base := base op; hostRequestBodyMap := bodies;
      marshaledRequestBodyMap := marshaled |},
   <[host := maskedData]> maskedRequestBodyMap).

(** The loop, over the network profiles in the order [range] yields them. *)
Definition updateRequestBodyOver (σ : store) (op : t)
  (profiles : list (string * NetworkProfile)) : updateState :=
  foldl updateOne
        (σ, {| base := base op; hostRequestBodyMap := hostRequestBodyMap op;
               marshaledRequestBodyMap := ∅ |}, ∅)
        profiles.

(** [updateRequestBody]; marshalling cannot fail on these types, and the
    returned error is nil on every path. *)
Definition updateRequestBody (σ : store) (op : t)
  (execContext : opEngineExecContext) : updateState :=
  updateRequestBodyOver σ op
    (map_to_list (default ∅ (networkProfiles execContext))).

End WithLib.

Definition setupClusterHTTPRequest (op : t) (hosts : list string) : t :=
  let b := withRequest (base op) zeroClusterHTTPRequest in
  let b := withRequestCollection b (Some ∅) in
  let b := setVersionToSemVar b in
  withBase op
    (foldl (λ b host,
              let httpRequest := zeroHostHTTPRequest in
              let httpRequest := setMethod httpRequest PostMethod in
              let httpRequest := buildNMAEndpoint httpRequest "catalog/bootstrap" in
              let httpRequest :=
                setRequestData httpRequest
                  (default "" (marshaledRequestBodyMap op !! host)) in
              withRequestCollection b
                (Some (<[host := httpRequest]>
                         (default ∅ (RequestCollection (clusterHTTPRequestOf b))))))
           b hosts).

(** [ClusterOpResult], as its three constructors are used:
    [MakeClusterOpResultPass], [MakeClusterOpResultFail] and
    [MakeClusterOpResultException]. *)
Inductive ClusterOpResult : Type := ResultPass | ResultFail | ResultException.

(** [Prepare].  [updateRequestBody] returns nil on each of its paths, so the
    exception branch is never taken. *)
Definition Prepare `{GoLib} (σ : store) (op : t)
  (execContext : opEngineExecContext)
  : store * t * opEngineExecContext * ClusterOpResult :=
  let '(σ', op', _) := updateRequestBody σ op execContext in
  let execContext :=
    withDispatcher execContext
      (Dispatcher.setup (dispatcher execContext) (hosts (base op'))) in
  (σ', setupClusterHTTPRequest op' (hosts (base op')), execContext, ResultPass).

Section WithDecoder.
Context `{JSONTarget opResponseMap}.

(** One pass of the loop of [processResult] over the flag [success]. *)
Definition checkHost (op : t) (success : bool) (hr : string * hostHTTPResult)
  : bool :=
  let '(host, result) := hr in
  if isPassing result then
    match parseAndCheckMapResponse (base op) host (content result) with
    | inl _ => false
    | inr responseMap =>
        let code := responseMap !! "bootstrap_catalog_return_code" in
        let success := if code is None then false else success in
        if bool_decide (default "" code = "0") then success else false
    end
  else false.

Definition processResult (op : t) (_ : opEngineExecContext) : ClusterOpResult :=
  if foldl (checkHost op) true (ResultCollection (clusterHTTPRequestOf (base op)))
  then ResultPass
  else ResultFail.

End WithDecoder.

End NMABootstrapCatalogOp.

(* ===================================================================== *)
(** * The subcluster commands *)
(* ===================================================================== *)

Module Commands.

Section WithCmdBase.
(** The command value with its options, and the three methods of [CmdBase]
    that [validateParse] calls in turn; each may change the command and
    returns an error. *)
Context {Cmd : Type}.
Context (getCertFilesFromCertPaths ValidateParseBaseOptions setDBPassword
         : Cmd → Cmd * error).

(** [CmdStopSubcluster.validateParse] *)
Definition stopValidateParse (c : Cmd) : Cmd * error :=
  let '(c, e) := getCertFilesFromCertPaths c in
  match e with
  | Some _ => (c, e)
  | None =>
      let '(c, e) := ValidateParseBaseOptions c in
      match e with
      | Some _ => (c, e)
      | None => setDBPassword c
      end
  end.

(** [CmdRemoveSubcluster.validateParse] *)
Definition removeValidateParse (c : Cmd) : Cmd * error :=
  let '(c, e) := getCertFilesFromCertPaths c in
  match e with
  | Some _ => (c, e)
  | None =>
      let '(c, e) := ValidateParseBaseOptions c in
      match e with
      | Some _ => (c, None)
      | None => setDBPassword c
      end
  end.

End WithCmdBase.

End Commands.

(* ===================================================================== *)
(** * Plain instances of the library interfaces *)
(* ===================================================================== *)

Module Sample.

Definition lowerAscii (c : ascii) : ascii :=
  let n := nat_of_ascii c in
  if (65 <=? n)%nat && (n <=? 90)%nat then ascii_of_nat (n + 32) else c.

Fixpoint lowerString (s : string) : string :=
  match s with
  | EmptyString => EmptyString
  | String c s' => String (lowerAscii c) (lowerString s')
  end.

Definition quoteChar : ascii := ascii_of_nat 34.

(** [strings.ToLower] and the JSON string encoder on text made of ASCII
    letters, digits and punctuation that needs no escape. *)
Definition goLib : GoLib :=
  {| ToLower := lowerString;
     jsonQuote := λ s, String quoteChar (s ++ String quoteChar "") |}.

(** Modelled from the spec: [util.CheckMissingFields] is outside the sources
    at hand; "any field the operation depends on must be checked for
    presence/non-empty -- a well-formed-but-incomplete payload is treated as a
    parse failure". *)
Definition checkMissingFields (p : NetworkProfile) : error :=
  if bool_decide (npName p = "") || bool_decide (Address p = "")
     || bool_decide (Subnet p = "") || bool_decide (Netmask p = "")
     || bool_decide (Broadcast p = "")
  then Some (errorString "unexpected or missing fields in response object")
  else None.

Definition utilPkg : UtilPkg :=
  {| CheckMissingFields := checkMissingFields;
     ValidateUsernameAndPassword :=
       λ opName useHTTPPassword userName,
         if useHTTPPassword && bool_decide (userName = "")
         then Some (errorString ("[" ++ opName ++ "] should always provide a username"))
         else None |}.

Definition unmarshalError (opName : string) : errorValue :=
  wrapError ("[" ++ opName ++ "] fail to unmarshal the response content, details: ")
            (errorString "invalid character").

(** A decoder for the subcluster list in a compact notation: the content
    [d:NAME] lists the default subcluster [NAME] followed by [sc1], the
    content [n:NAME] lists [NAME] alone, not default. *)
Definition decodeSCResp : JSONTarget SCResp :=
  {| GetJSONLogErrors := λ responseContent opName,
       match responseContent with
       | String "d" (String ":" n) =>
           inr {| SCInfoList := [ {| SCName := n; IsDefault := true |};
                                  {| SCName := "sc1"; IsDefault := false |} ] |}
       | String "n" (String ":" n) =>
           inr {| SCInfoList := [ {| SCName := n; IsDefault := false |} ] |}
       | _ => inl (unmarshalError opName)
       end |}.

(** A decoder for network profiles: the content is taken as the name of the
    interface and as its broadcast address; the content [partial] decodes to a
    profile without a netmask, and the empty content is not JSON. *)
Definition decodeNetworkProfile : JSONTarget NetworkProfile :=
  {| GetJSONLogErrors := λ responseContent opName,
       if bool_decide (responseContent = "") then inl (unmarshalError opName)
       else inr {| npName := responseContent; Address := "192.168.100.1";
                   Subnet := "192.168.0.0/16";
                   Netmask := if bool_decide (responseContent = "partial")
                              then "" else "255.255.0.0";
                   Broadcast := responseContent |} |}.

(** A decoder for map responses: the empty content is not JSON, any other
    content decodes to the one-entry map from it to [deleted]. *)
Definition decodeMap : JSONTarget opResponseMap :=
  {| GetJSONLogErrors := λ responseContent opName,
       if bool_decide (responseContent = "") then inl (unmarshalError opName)
       else inr {[ responseContent := "deleted" ]} |}.

(** Three hosts and some results. *)
Definition hostA := "10.20.30.40".
Definition hostB := "10.20.30.41".
Definition hostC := "10.20.30.42".

Definition passingResult (h body : string) : hostHTTPResult :=
  {| status := SUCCESS; statusCode := 200; host := h; content := body;
     err := None |}.

Definition failingResult (h : string) (code : Z) (msg : string) : hostHTTPResult :=
  {| status := FAILURE; statusCode := code; host := h; content := "";
     err := Some (errorString msg) |}.

Definition unauthorizedResult (h : string) : hostHTTPResult :=
  failingResult h 401 "401 Unauthorized".

Definition internalErrorResult (h : string) : hostHTTPResult :=
  failingResult h 500 "500 Internal Server Error".

Definition timeoutResult (h : string) : hostHTTPResult :=
  {| status := EXCEPTION; statusCode := 0; host := h; content := "";
     err := Some (errorString "context deadline exceeded") |}.

(** The base of an op that has been prepared for hosts A, B and C and holds
    the given results. *)
Definition baseWithResults (opName : string)
  (results : list (string * hostHTTPResult)) : opBase :=
  {| name := opName; hosts := [hostA; hostB; hostC];
     clusterHTTPRequestOf :=
       {| Name := opName; SemVar := {| Ver := "1.0.0" |};
          RequestCollection := Some ∅; ResultCollection := results |};
     skipExecute := false |}.

Definition findOp (scName' : string) (ignoreNotFound' : bool)
  (results : list (string * hostHTTPResult)) : HTTPSFindSubclusterOp.t :=
  {| HTTPSFindSubclusterOp.base := baseWithResults "HTTPSFindSubclusterOp" results;
     HTTPSFindSubclusterOp.httpsBase :=
       {| useHTTPPassword := false; httpsPassword := None; userName := "" |};
     HTTPSFindSubclusterOp.scName := scName';
     HTTPSFindSubclusterOp.ignoreNotFound := ignoreNotFound' |}.

Definition tarOp (results : list (string * hostHTTPResult))
  : NMAGetScrutinizeTarOp.t :=
  {| NMAGetScrutinizeTarOp.base := baseWithResults "NMAGetScrutinizeTarOp" results;
     NMAGetScrutinizeTarOp.id := "VerticaScrutinize.20240101";
     NMAGetScrutinizeTarOp.batch := "system";
     NMAGetScrutinizeTarOp.hostNodeNameMap := ∅;
     NMAGetScrutinizeTarOp.httpMethod := GetMethod |}.

Definition deleteOp (results : list (string * hostHTTPResult))
  : NMADeleteDirectoriesOp.t :=
  {| NMADeleteDirectoriesOp.base := baseWithResults "NMADeleteDirectoriesOp" results;
     NMADeleteDirectoriesOp.hostRequestBodyMap := ∅ |}.

Definition profileOp (results : list (string * hostHTTPResult))
  : NMANetworkProfileOp.t :=
  {| NMANetworkProfileOp.base := baseWithResults "NMANetworkProfileOp" results |}.

(** The subcluster list the content [d:default_subcluster] decodes to. *)
Definition subclusters : list SubclusterInfo :=
  [ {| SCName := "default_subcluster"; IsDefault := true |};
    {| SCName := "sc1"; IsDefault := false |} ].

(** A database of two nodes, options whose configuration parameters are the
    map at location 1, and a store in which that map holds a credential. *)
Definition node (n h : string) : VCoordinationNode :=
  {| vnName := n; vnAddress := h; vnCatalogPath := "/data/db/" ++ n ++ "_catalog";
     vnStorageLocations := ["/data/db/" ++ n ++ "_data"];
     vnDepotPath := "/depot/db/" ++ n ++ "_depot"; vnPort := 5433 |}.

Definition vdb : VCoordinationDatabase :=
  {| vdbName := "db"; HostList := [hostA; hostB];
     HostNodeMap := {[ hostA := node "v_db_node0001" hostA;
                       hostB := node "v_db_node0002" hostB ]};
     UseDepot := true; DepotPrefix := "/depot"; CatalogPrefix := "/data";
     DataPrefix := "/data"; LicensePathOnNode := "/tmp/license.key";
     vdbNumShards := 4; CommunalStorageLocation := "s3://bucket/db";
     AwsIDKey := "AKIAEXAMPLE"; AwsSecretKey := "aws-secret" |}.

Definition options : VCreateDatabaseOptions :=
  {| ConfigurationParameters := Some 1%positive; optLargeCluster := 0;
     P2p := true; optSpreadLogging := false; optSpreadLoggingLevel := 0;
     optIpv6 := NotSet; optPassword := "db-secret" |}.

Definition parameterStore : store :=
  {[ 1%positive := {[ "AWSAuth" := "key:secret"; "MaxClientSessions" := "100" ]} ]}.

Definition profileOf (h : string) : NetworkProfile :=
  {| npName := "eth0"; Address := h; Subnet := "10.20.30.0/24";
     Netmask := "255.255.255.0"; Broadcast := "10.20.30.255" |}.

Definition contextWithProfiles : opEngineExecContext :=
  withNetworkProfiles makeOpEngineExecContext
    (Some {[ hostA := profileOf hostA; hostB := profileOf hostB ]}).

End Sample.

(* ===================================================================== *)
(** * Vocabulary of the properties *)
(* ===================================================================== *)

(** [occursIn e E]: the error [e] is [E] or is reached from [E] through
    [errors.Join] members and [%w] wrapping, the chain [errors.Is] follows. *)
Inductive occursIn (e : errorValue) : errorValue → Prop :=
| occurs_here : occursIn e e
| occurs_join es x : x ∈ es → occursIn e x → occursIn e (joinError es)
| occurs_wrap msg x : occursIn e x → occursIn e (wrapError msg x).

(** The accumulator after joining the errors [es] onto [acc], one
    [allErrs = errors.Join(allErrs, err)] at a time. *)
Definition joinAll (acc : error) (es : list errorValue) : error :=
  foldl (λ a e, Join [a; Some e]) acc es.

(** The errors carried by the failing results of a collection, in order. *)
Definition failingErrors (results : list (string * hostHTTPResult))
  : list errorValue :=
  omap (λ hr, err hr.2) results.

(** A result after which the loop goes on to the next host: it did not pass
    and is not unauthorized. *)
Definition continues (hr : string * hostHTTPResult) : Prop :=
  isUnauthorizedRequest hr.2 = false ∧ isPassing hr.2 = false.

Section MaskingVocabulary.
Context `{GoLib}.
Import Sensitive.

(** What masking does to the value stored under a key. *)
Definition maskedEntry (key value : string) : string :=
  if isSensitiveKey (ToLower key) then maskedValue else value.

End MaskingVocabulary.

Section ContributionVocabulary.
Context `{JSONTarget opResponseMap} `{JSONTarget NetworkProfile} `{UtilPkg}.

(** What one host adds to the joined error of the delete-directories op. *)
Definition deleteContribution (op : NMADeleteDirectoriesOp.t) (hr : string * hostHTTPResult)
  : list errorValue :=
  if isPassing hr.2 then
    match parseAndCheckMapResponse (NMADeleteDirectoriesOp.base op) hr.1 (content hr.2) with
    | inl e => [e]
    | inr _ => []
    end
  else option_list (err hr.2).

(** What one host adds to the joined error of the scrutinize op. *)
Definition tarContribution (op : NMAGetScrutinizeTarOp.t) (hr : string * hostHTTPResult)
  : list errorValue :=
  if isPassing hr.2 then []
  else if isInternalError hr.2 then []
  else match err hr.2 with
       | Some e => [NMAGetScrutinizeTarOp.tarballError op hr.1 e]
       | None => []
       end.

(** A passing result whose content does not give a complete profile. *)
Definition failsToParse (op : NMANetworkProfileOp.t) (hr : string * hostHTTPResult) : Prop :=
  isPassing hr.2 = true ∧ ∃ e, NMANetworkProfileOp.parseResponse op hr.1 (content hr.2) = inl e.

(** A passing result that gives no profile, with the error [e] that says so:
    either the decoder returns [e] on its content, or the decoder gives a
    profile on which [CheckMissingFields] returns [e]. *)
Definition rejectedWith (op : NMANetworkProfileOp.t) (hr : string * hostHTTPResult)
  (e : errorValue) : Prop :=
  isPassing hr.2 = true
  ∧ (GetJSONLogErrors (T := NetworkProfile) (content hr.2)
       (name (NMANetworkProfileOp.base op)) = inl e
     ∨ ∃ responseObj : NetworkProfile,
         GetJSONLogErrors (content hr.2) (name (NMANetworkProfileOp.base op))
         = inr responseObj
         ∧ CheckMissingFields responseObj = Some e).

Definition rejected (op : NMANetworkProfileOp.t) (hr : string * hostHTTPResult)
  : Prop :=
  ∃ e, rejectedWith op hr e.

(** A passing result whose content the decoder turns into the profile [p],
    in which [CheckMissingFields] finds nothing missing. *)
Definition acceptedAs (op : NMANetworkProfileOp.t) (hr : string * hostHTTPResult)
  (p : NetworkProfile) : Prop :=
  isPassing hr.2 = true
  ∧ GetJSONLogErrors (content hr.2) (name (NMANetworkProfileOp.base op)) = inr p
  ∧ CheckMissingFields p = None.

(** The profiles of the passing results, added to [m] in order. *)
Definition collectProfiles (op : NMANetworkProfileOp.t) (m : gmap string NetworkProfile)
  (results : list (string * hostHTTPResult)) : gmap string NetworkProfile :=
  foldl (λ m hr,
           if isPassing hr.2 then
             match NMANetworkProfileOp.parseResponse op hr.1 (content hr.2) with
             | inr profile => <[hr.1 := profile]> m
             | inl _ => m
             end
           else m)
        m results.

End ContributionVocabulary.

(** The entry of the request collection for a host, if there is one. *)
Definition requestFor (b : opBase) (host : string) : option hostHTTPRequest :=
  RequestCollection (clusterHTTPRequestOf b) ≫= (λ rc, rc !! host).

(** The loop the three [setupClusterHTTPRequest] share: one assignment per
    host of the list, of the request [mk] builds for it. *)
Fixpoint assignAll (mk : string → hostHTTPRequest) (b : opBase)
  (hosts : list string) : outcome opBase :=
  match hosts with
  | [] => Done b
  | host :: rest =>
      match assignRequest b host (mk host) with
      | Panic => Panic
      | Done b' => assignAll mk b' rest
      end
  end.

Section Lifecycle.
Context {Op : Type}.
Context (baseOf : Op → opBase) (withBaseOf : Op → opBase → Op).
Context (prepareOf : Op → opEngineExecContext
                     → outcome (Op * opEngineExecContext * error)).


End Lifecycle.

(** The request each [setupClusterHTTPRequest] builds for a host. *)
Definition findRequest (op : HTTPSFindSubclusterOp.t) (_ : string)
  : hostHTTPRequest :=
  let httpRequest := zeroHostHTTPRequest in
  let httpRequest := setMethod httpRequest GetMethod in
  let httpRequest := buildHTTPSEndpoint httpRequest "subclusters" in
  if useHTTPPassword (HTTPSFindSubclusterOp.httpsBase op)
  then setCredentials httpRequest
         (userName (HTTPSFindSubclusterOp.httpsBase op))
         (httpsPassword (HTTPSFindSubclusterOp.httpsBase op))
  else httpRequest.

Definition deleteRequest (op : NMADeleteDirectoriesOp.t) (host : string)
  : hostHTTPRequest :=
  let httpRequest := zeroHostHTTPRequest in
  let httpRequest := setMethod httpRequest PostMethod in
  let httpRequest := buildNMAEndpoint httpRequest "directories/delete" in
  setRequestData httpRequest
    (default "" (NMADeleteDirectoriesOp.hostRequestBodyMap op !! host)).

Definition profileRequest (_ : NMANetworkProfileOp.t) (host : string)
  : hostHTTPRequest :=
  let httpRequest := zeroHostHTTPRequest in
  let httpRequest := setMethod httpRequest GetMethod in
  let httpRequest := buildNMAEndpoint httpRequest "network-profiles" in
  setQueryParams httpRequest {[ "broadcast-hint" := host ]}.


(** Loading certificates after a [prepare] that follows the set-up of the
    basic info: it fails exactly for an empty host list, and otherwise every
    listed host's request carries the certificates. *)
Definition certsNeedHosts {Op : Type} (baseOf : Op → opBase)
  (withBaseOf : Op → opBase → Op)
  (prepareOf : Op → opEngineExecContext
               → outcome (Op * opEngineExecContext * error)) : Prop :=
  ∀ op ctx op' ctx' e certs,
    prepareOf (withBaseOf op (setupBasicInfo (baseOf op))) ctx
    = Done (op', ctx', e) →
    let loaded := loadCertsIfNeeded (baseOf op') certs true in
    (loaded.2 = None ↔ hosts (baseOf op) ≠ [])
    ∧ (loaded.2 ≠ None → loaded.1 = baseOf op')
    ∧ (∀ h, h ∈ hosts (baseOf op) →
            ∃ req, requestFor loaded.1 h = Some req
                   ∧ UseCertsInOptions req = true ∧ Certs req = certs).

Section BootstrapVocabulary.
Import NMABootstrapCatalogOp.

(** No stored body holds a map in its embedded [Parameters] field. *)
Definition embeddedNil (bodies : gmap string bootstrapCatalogRequestData) : Prop :=
  ∀ host d, bodies !! host = Some d →
            Sensitive.Parameters (SensitiveFields d) = None.

(** The masked sensitive fields of a body. *)
Definition maskedFields (d : bootstrapCatalogRequestData)
  : Sensitive.sensitiveFields :=
  {| Sensitive.DBPassword := "******";
     Sensitive.AWSAccessKeyID := "******";
     Sensitive.AWSSecretAccessKey := "******";
     Sensitive.Parameters := Sensitive.Parameters (SensitiveFields d) |}.

(** The body of a host as [updateRequestBody] stores and marshals it. *)
Definition unmaskedBody (op : t) (host : string) (profile : NetworkProfile)
  : bootstrapCatalogRequestData :=
  withBroadcastAddr (default zeroData (hostRequestBodyMap op !! host))
                    (Broadcast profile).

End BootstrapVocabulary.

(* ===================================================================== *)
(** * Properties: quorum arithmetic *)
(* ===================================================================== *)

Section Quorum.
Local Open Scope N_scope.

Lemma uintAdd_small (a b : N) : a + b < uintModulus → uintAdd a b = a + b.
Proof. intros Hlt. unfold uintAdd. by apply N.mod_small. Qed.

(** What the code computes: below the wrap-around of [uint], the threshold is
    half the primary count rounded up. *)
Lemma hasQuorum_threshold (hostCount primaryNodeCount : N) :
  primaryNodeCount + 1 < uintModulus →
  hasQuorum hostCount primaryNodeCount = true
  ↔ (primaryNodeCount + 1) / 2 ≤ hostCount.
Proof.
  intros Hlt. unfold hasQuorum. rewrite uintAdd_small by done.
  destruct (N.ltb_spec hostCount ((primaryNodeCount + 1) / 2)); split;
    intros; try done; lia.
Qed.

(** For an odd number of primaries the threshold is the documented one. *)
Lemma hasQuorum_odd (hostCount k : N) :
  2 * k + 2 < uintModulus →
  hasQuorum hostCount (2 * k + 1) = true
  ↔ documentedQuorumCount (2 * k + 1) ≤ hostCount.
Proof.
  intros Hlt. rewrite hasQuorum_threshold by lia.
  unfold documentedQuorumCount.
  replace (2 * k + 1 + 1) with ((k + 1) * 2) by lia.
  rewrite N.div_mul by done.
  replace (2 * k + 1) with (1 + k * 2) by lia.
  rewrite N.div_add by done. simpl. reflexivity.
Qed.

(** For an even number of primaries it is one less than documented. *)
Lemma hasQuorum_even (hostCount k : N) :
  2 * k + 1 < uintModulus →
  hasQuorum hostCount (2 * k) = true ↔ k ≤ hostCount.
Proof.
  intros Hlt. rewrite hasQuorum_threshold by lia.
  replace (2 * k + 1) with (1 + k * 2) by lia.
  rewrite N.div_add by done. simpl. reflexivity.
Qed.

(** C1 -- [hasQuorum hostCount primaryNodeCount] is specified to hold
    exactly when [hostCount >= floor(primaryNodeCount/2) + 1], which is also
    what the comment above the function documents.  The code evaluated at two
    hosts and four primaries: it answers [true], while the documented count is
    three. *)
Theorem hasQuorum_four_primaries :
  hasQuorum 2 4 = true
  ∧ documentedQuorumCount 4 = 3
  ∧ ¬ (documentedQuorumCount 4 ≤ 2).
Proof. split; [reflexivity | split; [reflexivity | vm_compute; congruence]]. Qed.

(** C4 -- with five primaries [hasQuorum] holds exactly from three hosts on,
    with one primary exactly from one host on, and with no primary for every
    host count. *)
Theorem hasQuorum_examples (hostCount : N) :
  (hasQuorum hostCount 5 = true ↔ 3 ≤ hostCount)
  ∧ (hasQuorum hostCount 1 = true ↔ 1 ≤ hostCount)
  ∧ hasQuorum hostCount 0 = true.
Proof.
  split; [| split].
  - rewrite hasQuorum_threshold by (vm_compute; reflexivity).
    change ((5 + 1) / 2) with 3. reflexivity.
  - rewrite hasQuorum_threshold by (vm_compute; reflexivity).
    change ((1 + 1) / 2) with 1. reflexivity.
  - apply hasQuorum_threshold; [vm_compute; reflexivity |].
    change ((0 + 1) / 2) with 0. lia.
Qed.

End Quorum.

(* ===================================================================== *)
(** * Properties: classification of host results *)
(* ===================================================================== *)

Section Classification.

Lemma isUnauthorizedRequest_iff (r : hostHTTPResult) :
  isUnauthorizedRequest r = true ↔ statusCode r = 401%Z.
Proof. unfold isUnauthorizedRequest. by rewrite bool_decide_eq_true. Qed.

Lemma isInternalError_iff (r : hostHTTPResult) :
  isInternalError r = true ↔ statusCode r = 500%Z.
Proof. unfold isInternalError. by rewrite bool_decide_eq_true. Qed.

Lemma isPassing_iff (r : hostHTTPResult) :
  isPassing r = true ↔ err r = None.
Proof. unfold isPassing. destruct (err r); split; congruence. Qed.

Lemma isPassing_false_iff (r : hostHTTPResult) :
  isPassing r = false ↔ ∃ e, err r = Some e.
Proof.
  unfold isPassing. destruct (err r) as [e|]; split; try done.
  - eauto.
  - by intros [e He].
Qed.




End Classification.

(* ===================================================================== *)
(** * Properties: masking of sensitive fields *)
(* ===================================================================== *)

Section MaskingProperties.
Context `{GoLib}.
Import Sensitive.

Lemma isSensitiveKey_iff (s : string) :
  isSensitiveKey s = true
  ↔ s = "awsauth" ∨ s = "awssessiontoken" ∨ s = "gcsauth"
    ∨ s = "azurestoragecredentials".
Proof.
  unfold isSensitiveKey, sensitiveKeyParams. simpl.
  destruct (decide (s = "awsauth")) as [->|H1]; [by intuition |].
  destruct (decide (s = "awssessiontoken")) as [->|H2]; [by intuition |].
  destruct (decide (s = "gcsauth")) as [->|H3]; [by intuition |].
  destruct (decide (s = "azurestoragecredentials")) as [->|H4]; [by intuition |].
  rewrite !lookup_insert_ne by done. rewrite lookup_empty. simpl.
  split; [done | intuition].
Qed.

Lemma maskKey_lookup (m : gmap string string) (key k : string) :
  is_Some (m !! key) →
  maskKey m key !! k
  = (λ v, if decide (k = key) then maskedEntry k v else v) <$> m !! k.
Proof.
  intros [v Hv]. unfold maskKey, maskedEntry.
  destruct (decide (k = key)) as [->|Hne].
  - destruct (isSensitiveKey (ToLower key)).
    + by rewrite lookup_insert_eq, Hv.
    + by rewrite Hv.
  - destruct (isSensitiveKey (ToLower key)).
    + rewrite lookup_insert_ne by done. by destruct (m !! k).
    + by destruct (m !! k).
Qed.

Lemma maskKey_is_Some (m : gmap string string) (key k : string) :
  is_Some (m !! key) → is_Some (maskKey m key !! k) ↔ is_Some (m !! k).
Proof.
  intros Hkey. rewrite maskKey_lookup by done.
  by rewrite fmap_is_Some.
Qed.

(** The loop over any list of keys of the map: the entries under the listed
    keys are masked, nothing else changes. *)
Lemma maskParameters_lookup (keys : list string) (m : gmap string string)
  (k : string) :
  (∀ key, key ∈ keys → is_Some (m !! key)) →
  maskParameters keys m !! k
  = (λ v, if decide (k ∈ keys) then maskedEntry k v else v) <$> m !! k.
Proof.
  unfold maskParameters. revert m.
  induction keys as [|key keys IH]; intros m Hkeys; cbn [foldl].
  - destruct (m !! k) as [v|]; cbn [fmap option_fmap option_map]; [| done].
    by rewrite decide_False by apply not_elem_of_nil.
  - rewrite IH.
    + rewrite maskKey_lookup by (apply Hkeys; left).
      destruct (m !! k) as [v|]; cbn [fmap option_fmap option_map]; [| done].
      f_equal.
      destruct (decide (k = key)) as [->|Hne].
      * rewrite (decide_True (P := key ∈ key :: keys)) by left.
        unfold maskedEntry.
        destruct (isSensitiveKey (ToLower key)); by destruct (decide (key ∈ keys)).
      * destruct (decide (k ∈ keys)) as [Hin|Hnin].
        -- by rewrite decide_True by (by right).
        -- rewrite decide_False; [done |].
           intros Hin. apply elem_of_cons in Hin as [?|?]; done.
    + intros key' Hin. apply maskKey_is_Some; [apply Hkeys; left |].
      apply Hkeys. by right.
Qed.

(** The loop over all keys of the map, in whatever order [range] yields
    them, masks every entry. *)
Lemma maskParameters_all (keys : list string) (m : gmap string string) :
  keys ≡ₚ (map_to_list m).*1 →
  maskParameters keys m = map_imap (λ k v, Some (maskedEntry k v)) m.
Proof.
  intros Hperm. apply map_eq. intros k.
  assert (Hin : ∀ key, key ∈ keys ↔ is_Some (m !! key)).
  { intros key. rewrite Hperm. split.
    - intros [[k' v] [-> Hin]]%list_elem_of_fmap.
      apply elem_of_map_to_list in Hin. simpl. eauto.
    - intros [v Hv]. apply list_elem_of_fmap. exists (key, v).
      split; [done |]. by apply elem_of_map_to_list. }
  rewrite maskParameters_lookup by (intros ?; apply Hin).
  rewrite map_lookup_imap.
  destruct (m !! k) as [v|] eqn:Hk; simpl; [| done].
  rewrite decide_True; [done |]. apply Hin. by rewrite Hk.
Qed.

Lemma maskedEntry_idemp (k v : string) :
  maskedEntry k (maskedEntry k v) = maskedEntry k v.
Proof. unfold maskedEntry. by destruct (isSensitiveKey (ToLower k)). Qed.

Lemma maskAll_idemp (m : gmap string string) :
  let mask := map_imap (λ k v, Some (maskedEntry k v)) in
  mask (mask m) = mask m.
Proof.
  simpl. apply map_eq. intros k. rewrite !map_lookup_imap.
  destruct (m !! k) as [v|]; simpl; [| done].
  by rewrite maskedEntry_idemp.
Qed.

(** The store after [maskSensitiveInfo], entry by entry. *)
Lemma maskSensitiveInfo_store (σ : store) (sf : sensitiveFields) (l : loc) :
  (maskSensitiveInfo σ sf).1 !! l
  = if decide (Parameters sf = Some l)
    then map_imap (λ k v, Some (maskedEntry k v)) <$> σ !! l
    else σ !! l.
Proof.
  unfold maskSensitiveInfo. simpl.
  destruct (Parameters sf) as [l'|]; [| by rewrite decide_False].
  destruct (decide (Some l' = Some l)) as [[= ->]|Hne].
  - destruct (σ !! l) as [m|] eqn:Hl; simpl.
    + rewrite lookup_insert_eq. f_equal. by apply maskParameters_all.
    + done.
  - destruct (σ !! l') as [m|] eqn:Hl'; [| done].
    rewrite lookup_insert_ne; [done | congruence].
Qed.

(** Masking a struct whose embedded map is nil leaves the store alone. *)
Lemma maskSensitiveInfo_nil_parameters (σ : store) (sf : sensitiveFields) :
  Parameters sf = None → (maskSensitiveInfo σ sf).1 = σ.
Proof. intros Hnil. unfold maskSensitiveInfo. by rewrite Hnil. Qed.

(** C9 -- masking twice gives what masking once gives, for the struct and for
    the store its map lives in; the three credential fields hold the
    placeholder; no map in the store gains or loses a key; the entries of the
    [Parameters] map whose lower-cased key is on the deny-list hold the
    placeholder and the other entries, like every other map, are as before. *)
Theorem maskSensitiveInfo_idempotent_same_keys
  (σ : store) (sf : sensitiveFields) :
  let σ1 := (maskSensitiveInfo σ sf).1 in
  let sf1 := (maskSensitiveInfo σ sf).2 in
  maskSensitiveInfo σ1 sf1 = (σ1, sf1)
  ∧ DBPassword sf1 = "******"
  ∧ AWSAccessKeyID sf1 = "******"
  ∧ AWSSecretAccessKey sf1 = "******"
  ∧ Parameters sf1 = Parameters sf
  ∧ (∀ l, dom <$> σ1 !! l = dom <$> σ !! l)
  ∧ (∀ k, deref σ1 (Parameters sf) !! k
          = (λ v, if isSensitiveKey (ToLower k) then "******" else v)
              <$> deref σ (Parameters sf) !! k)
  ∧ (∀ l, Parameters sf ≠ Some l → σ1 !! l = σ !! l)
  ∧ (∀ s, isSensitiveKey s = true
          ↔ s = "awsauth" ∨ s = "awssessiontoken" ∨ s = "gcsauth"
            ∨ s = "azurestoragecredentials").
Proof.
  intros σ1 sf1.
  assert (Hsf1 : Parameters sf1 = Parameters sf) by reflexivity.
  split; [| repeat split; try reflexivity].
  - apply injective_projections; [| reflexivity].
    cbn [fst]. apply map_eq. intros l.
    rewrite maskSensitiveInfo_store. rewrite Hsf1.
    subst σ1. rewrite maskSensitiveInfo_store.
    destruct (decide (Parameters sf = Some l)); [| done].
    destruct (σ !! l) as [m|]; simpl; [| done].
    f_equal. apply maskAll_idemp.
  - intros l. subst σ1. rewrite maskSensitiveInfo_store.
    destruct (decide (Parameters sf = Some l)); [| done].
    destruct (σ !! l) as [m|]; simpl; [| done].
    f_equal. apply set_eq. intros k. rewrite !elem_of_dom.
    rewrite map_lookup_imap. by destruct (m !! k).
  - intros k. subst σ1. unfold deref.
    destruct (Parameters sf) as [l|] eqn:Hp; [| by rewrite lookup_empty].
    rewrite maskSensitiveInfo_store, Hp, decide_True by done.
    destruct (σ !! l) as [m|]; simpl; [| by rewrite lookup_empty].
    rewrite map_lookup_imap. by destruct (m !! k).
  - intros l Hne. subst σ1. rewrite maskSensitiveInfo_store.
    by rewrite decide_False.
  - apply isSensitiveKey_iff.
  - apply isSensitiveKey_iff.
Qed.

End MaskingProperties.

(* ===================================================================== *)
(** * Properties: joined errors *)
(* ===================================================================== *)

Section JoinedErrors.

Lemma Join_nil_l (e : errorValue) : Join [None; Some e] = Some (joinError [e]).
Proof. reflexivity. Qed.

Lemma Join_some_l (a e : errorValue) :
  Join [Some a; Some e] = Some (joinError [a; e]).
Proof. reflexivity. Qed.

Lemma Join_nil_r (a : error) : Join [a; None] = Join [a].
Proof. by destruct a. Qed.

Lemma Join_is_Some (a : error) (e : errorValue) : is_Some (Join [a; Some e]).
Proof. destruct a; eauto. Qed.

Lemma Join_occurs_new (a : error) (e : errorValue) :
  ∃ E, Join [a; Some e] = Some E ∧ occursIn e E.
Proof.
  destruct a as [x|]; eexists; (split; [reflexivity |]).
  - eapply occurs_join; [| apply occurs_here]. set_solver.
  - eapply occurs_join; [| apply occurs_here]. set_solver.
Qed.

Lemma Join_occurs_old (a e x : errorValue) :
  occursIn x a → ∃ E, Join [Some a; Some e] = Some E ∧ occursIn x E.
Proof.
  intros Hx. eexists. split; [reflexivity |].
  eapply occurs_join; [| exact Hx]. set_solver.
Qed.

Lemma joinAll_keeps (es : list errorValue) (a x : errorValue) :
  occursIn x a → ∃ E, joinAll (Some a) es = Some E ∧ occursIn x E.
Proof.
  revert a. induction es as [|e es IH]; intros a Hx; simpl.
  - eauto.
  - destruct (Join_occurs_old a e x Hx) as (E & HE & HxE).
    unfold joinAll in *. cbn [foldl]. rewrite HE. by apply IH.
Qed.

Lemma joinAll_occurs (es : list errorValue) (acc : error) (x : errorValue) :
  x ∈ es → ∃ E, joinAll acc es = Some E ∧ occursIn x E.
Proof.
  revert acc. induction es as [|e es IH]; intros acc Hin.
  - by apply elem_of_nil in Hin.
  - apply elem_of_cons in Hin as [->|Hin].
    + destruct (Join_occurs_new acc e) as (E & HE & HxE).
      unfold joinAll. cbn [foldl]. rewrite HE. by apply joinAll_keeps.
    + unfold joinAll. cbn [foldl]. by apply IH.
Qed.

Lemma joinAll_app (acc : error) (es es' : list errorValue) :
  joinAll acc (es ++ es')%list = joinAll (joinAll acc es) es'.
Proof. unfold joinAll. by rewrite foldl_app. Qed.

Lemma joinAll_nil_inv (es : list errorValue) (acc : error) :
  joinAll acc es = None → acc = None ∧ es = [].
Proof.
  destruct es as [|e es]; [done |]. intros Hnil. exfalso.
  unfold joinAll in Hnil. cbn [foldl] in Hnil.
  destruct (Join_is_Some acc e) as [E HE]. rewrite HE in Hnil.
  destruct (joinAll_keeps es E E (occurs_here E)) as (E' & HE' & _).
  unfold joinAll in HE'. congruence.
Qed.

End JoinedErrors.

(* ===================================================================== *)
(** * Properties: [processResult] of the delete-directories and scrutinize ops *)
(* ===================================================================== *)

Lemma elem_of_failingErrors host (r : hostHTTPResult) e results :
  (host, r) ∈ results → err r = Some e → e ∈ failingErrors results.
Proof.
  intros Hin He. unfold failingErrors. apply list_elem_of_omap.
  exists (host, r). by split.
Qed.

Lemma failingErrors_cons host (r : hostHTTPResult) results :
  failingErrors ((host, r) :: results)
  = (option_list (err r) ++ failingErrors results)%list.
Proof. unfold failingErrors. simpl. by destruct (err r). Qed.

Section DeleteDirectories.
Context `{JSONTarget opResponseMap}.
Import NMADeleteDirectoriesOp.

Lemma delete_processResultFrom (op : t) (acc : error) results :
  processResultFrom op acc results
  = joinAll acc (concat (map (deleteContribution op) results)).
Proof.
  revert acc. induction results as [|[host r] rs IH]; intros acc; [done |].
  cbn [processResultFrom map concat]. rewrite joinAll_app.
  unfold deleteContribution at 1. cbn [fst snd].
  destruct (isPassing r) eqn:Hp.
  - destruct (parseAndCheckMapResponse (base op) host (content r)); apply IH.
  - apply isPassing_false_iff in Hp as [e He]. rewrite He. apply IH.
Qed.

Lemma delete_failing_host_joined (op : t) ctx host (r : hostHTTPResult) e :
  (host, r) ∈ ResultCollection (clusterHTTPRequestOf (base op)) →
  err r = Some e →
  ∃ E, processResult op ctx = Some E ∧ occursIn e E.
Proof.
  intros Hin He. unfold processResult. rewrite delete_processResultFrom.
  apply joinAll_occurs. apply list_elem_of_In, in_concat.
  exists (deleteContribution op (host, r)). split.
  - apply in_map. by apply list_elem_of_In.
  - unfold deleteContribution. cbn [fst snd].
    assert (isPassing r = false) as -> by (apply isPassing_false_iff; eauto).
    rewrite He. by left.
Qed.

End DeleteDirectories.

Section Scrutinize.
Import NMAGetScrutinizeTarOp.

Lemma tar_processResultFrom (op : t) (acc : error) results :
  processResultFrom op acc results
  = joinAll acc (concat (map (tarContribution op) results)).
Proof.
  revert acc. induction results as [|[host r] rs IH]; intros acc; [done |].
  cbn [processResultFrom map concat]. rewrite joinAll_app.
  unfold tarContribution at 1. cbn [fst snd].
  destruct (isPassing r); [apply IH |].
  destruct (isInternalError r); [apply IH |].
  destruct (err r); apply IH.
Qed.

Lemma tar_failing_host_joined (op : t) ctx host (r : hostHTTPResult) e :
  (host, r) ∈ ResultCollection (clusterHTTPRequestOf (base op)) →
  err r = Some e →
  statusCode r ≠ 500%Z →
  ∃ E, processResult op ctx = Some E ∧ occursIn e E.
Proof.
  intros Hin He Hcode. unfold processResult. rewrite tar_processResultFrom.
  destruct (joinAll_occurs
              (concat (map (tarContribution op)
                           (ResultCollection (clusterHTTPRequestOf (base op)))))
              None (tarballError op host e)) as (E & HE & Hocc).
  - apply list_elem_of_In, in_concat.
    exists (tarContribution op (host, r)). split.
    + apply in_map. by apply list_elem_of_In.
    + unfold tarContribution. cbn [fst snd].
      assert (isPassing r = false) as -> by (apply isPassing_false_iff; eauto).
      assert (isInternalError r = false) as ->.
      { apply not_true_iff_false. by rewrite isInternalError_iff. }
      rewrite He. by left.
  - exists E. split; [done |].
    clear HE. remember (tarballError op host e) as w eqn:Hw.
    induction Hocc as [|es x Hx Hocc IH|msg x Hocc IH].
    + subst w. apply occurs_wrap, occurs_here.
    + eapply occurs_join; [exact Hx | by apply IH].
    + apply occurs_wrap. by apply IH.
Qed.

(** Hosts that fail with an internal server error add nothing. *)
Lemma tar_internal_errors_skipped (op : t) ctx :
  Forall (λ hr, isPassing hr.2 = true ∨ isInternalError hr.2 = true)
         (ResultCollection (clusterHTTPRequestOf (base op))) →
  processResult op ctx = None.
Proof.
  intros Hall. unfold processResult. rewrite tar_processResultFrom.
  replace (concat _) with (@nil errorValue); [done |].
  symmetry. induction Hall as [|[host r] rs Hhd Htl IH]; [done |].
  cbn [map concat]. rewrite IH. unfold tarContribution. cbn [fst snd] in *.
  destruct (isPassing r); [done |].
  destruct Hhd as [? | ->]; done.
Qed.

End Scrutinize.

(* ===================================================================== *)
(** * Properties: [processResult] of the network profile op *)
(* ===================================================================== *)

Section NetworkProfiles.
Context `{JSONTarget NetworkProfile} `{UtilPkg}.
Import NMANetworkProfileOp.

#[local] Instance failsToParse_dec op hr : Decision (failsToParse op hr).
Proof.
  unfold failsToParse.
  destruct (isPassing hr.2); [| right; by intros [? _]].
  destruct (parseResponse op hr.1 (content hr.2)) as [e|p].
  - left. eauto.
  - right. intros [_ [e He]]. done.
Defined.

Lemma np_all_parse (op : t) acc m ctx results :
  Forall (λ hr, ¬ failsToParse op hr) results →
  processResultFrom op acc m ctx results
  = (joinAll acc (failingErrors results),
     withNetworkProfiles ctx (Some (collectProfiles op m results))).
Proof.
  intros Hall. revert acc m.
  induction Hall as [|[host r] rs Hhd Htl IH]; intros acc m; [done |].
  cbn [processResultFrom]. rewrite failingErrors_cons, joinAll_app.
  unfold collectProfiles. cbn [foldl fst snd]. fold (collectProfiles op).
  unfold failsToParse in Hhd. cbn [fst snd] in Hhd.
  destruct (isPassing r) eqn:Hp.
  - apply isPassing_iff in Hp as He. rewrite He.
    destruct (parseResponse op host (content r)) as [e|p].
    + exfalso. apply Hhd. eauto.
    + apply IH.
  - apply isPassing_false_iff in Hp as [e He]. rewrite He. apply IH.
Qed.

Lemma np_parse_failure (op : t) acc m ctx results :
  Exists (failsToParse op) results →
  ∃ host r e,
    (host, r) ∈ results ∧ isPassing r = true
    ∧ parseResponse op host (content r) = inl e
    ∧ processResultFrom op acc m ctx results = (Some (parseError op host e), ctx).
Proof.
  revert acc m. induction results as [|[host r] rs IH]; intros acc m Hex.
  - by apply Exists_nil in Hex.
  - destruct (decide (failsToParse op (host, r))) as [[Hp [e He]]|Hok].
    + cbn [fst snd] in Hp, He. exists host, r, e.
      split; [left |]. split; [done |]. split; [done |].
      cbn [processResultFrom]. by rewrite Hp, He.
    + apply Exists_cons in Hex as [Hhd|Htl]; [done |].
      assert (Hstep : ∃ acc' m', processResultFrom op acc m ctx ((host, r) :: rs)
                                 = processResultFrom op acc' m' ctx rs).
      { cbn [processResultFrom]. destruct (isPassing r) eqn:Hp; [| eauto].
        destruct (parseResponse op host (content r)) as [e|p] eqn:He; [| eauto].
        exfalso. apply Hok. split; cbn [fst snd]; eauto. }
      destruct Hstep as (acc' & m' & ->).
      destruct (IH acc' m' Htl) as (h' & r' & e' & Hin & Hp' & He' & Hres).
      exists h', r', e'. split; [by right | done].
Qed.

Lemma collectProfiles_absent (op : t) m results host :
  host ∉ results.*1 → collectProfiles op m results !! host = m !! host.
Proof.
  revert m. induction results as [|[h r] rs IH]; intros m Hnin; [done |].
  apply not_elem_of_cons in Hnin as [Hne Hnin]. cbn [fst] in Hne.
  unfold collectProfiles. cbn [foldl fst snd].
  fold (collectProfiles op). 
  destruct (isPassing r); [| by apply IH].
  destruct (parseResponse op h (content r)); [by apply IH |].
  unfold collectProfiles in IH. rewrite IH by done. by rewrite lookup_insert_ne.
Qed.

Lemma collectProfiles_present (op : t) m results host (r : hostHTTPResult) p :
  NoDup results.*1 → (host, r) ∈ results → isPassing r = true →
  parseResponse op host (content r) = inr p →
  collectProfiles op m results !! host = Some p.
Proof.
  revert m. induction results as [|[h r'] rs IH]; intros m Hnd Hin Hp He.
  - by apply elem_of_nil in Hin.
  - cbn [fmap list_fmap fst] in Hnd. apply NoDup_cons in Hnd as [Hnin Hnd].
    unfold collectProfiles. cbn [foldl fst snd].
    apply elem_of_cons in Hin as [[= <- <-]|Hin].
    + rewrite Hp, He.
      pose proof (collectProfiles_absent op (<[host := p]> m) rs host Hnin) as Ha.
      unfold collectProfiles in Ha. rewrite Ha. apply lookup_insert_eq.
    + unfold collectProfiles in IH. by apply IH.
Qed.

Lemma collectProfiles_origin (op : t) m results host p :
  collectProfiles op m results !! host = Some p →
  m !! host = Some p
  ∨ ∃ r, (host, r) ∈ results ∧ isPassing r = true
         ∧ parseResponse op host (content r) = inr p.
Proof.
  revert m. induction results as [|[h r] rs IH]; intros m Hl; [by left |].
  unfold collectProfiles in Hl. cbn [foldl fst snd] in Hl.
  apply IH in Hl as [Hl|(r' & Hin & Hp & He)].
  - destruct (isPassing r) eqn:Hp; [| by left].
    destruct (parseResponse op h (content r)) as [e|q] eqn:He; [by left |].
    destruct (decide (h = host)) as [->|Hne].
    + rewrite lookup_insert_eq in Hl. injection Hl as ->.
      right. exists r. split; [left | done].
    + rewrite lookup_insert_ne in Hl by done. by left.
  - right. exists r'. split; [by right | done].
Qed.

Lemma parseResponse_inl (op : t) (host resultContent : string) (e : errorValue) :
  parseResponse op host resultContent = inl e
  ↔ GetJSONLogErrors (T := NetworkProfile) resultContent (name (base op)) = inl e
    ∨ ∃ responseObj : NetworkProfile,
        GetJSONLogErrors resultContent (name (base op)) = inr responseObj
        ∧ CheckMissingFields responseObj = Some e.
Proof.
  unfold parseResponse, parseAndCheckResponse.
  destruct (GetJSONLogErrors resultContent (name (base op))) as [e'|obj].
  - split.
    + intros [= ->]. by left.
    + intros [[= ->]|(obj & [=] & _)]. done.
  - destruct (CheckMissingFields obj) as [e'|] eqn:Hcheck.
    + split.
      * intros [= ->]. right. by exists obj.
      * intros [[=]|(obj' & [= <-] & Hc)]. congruence.
    + split; [done |].
      intros [[=]|(obj' & [= <-] & Hc)]. congruence.
Qed.

Lemma parseResponse_inr (op : t) (host resultContent : string)
  (p : NetworkProfile) :
  parseResponse op host resultContent = inr p
  ↔ GetJSONLogErrors resultContent (name (base op)) = inr p
    ∧ CheckMissingFields p = None.
Proof.
  unfold parseResponse, parseAndCheckResponse.
  destruct (GetJSONLogErrors resultContent (name (base op))) as [e'|obj].
  - split; [done | by intros [[=] _]].
  - destruct (CheckMissingFields obj) as [e'|] eqn:Hcheck.
    + split; [done |]. intros [[= <-] Hc]. congruence.
    + split.
      * intros [= <-]. done.
      * by intros [[= <-] _].
Qed.

Lemma rejected_failsToParse (op : t) (hr : string * hostHTTPResult) :
  rejected op hr ↔ failsToParse op hr.
Proof.
  unfold rejected, rejectedWith, failsToParse. split.
  - intros (e & Hp & He). split; [done |]. exists e. by apply parseResponse_inl.
  - intros (Hp & e & He). exists e. split; [done |].
    by apply (parseResponse_inl op hr.1).
Qed.

Lemma not_rejected_Forall (op : t) (results : list (string * hostHTTPResult)) :
  Forall (λ hr, ¬ rejected op hr) results
  ↔ Forall (λ hr, ¬ failsToParse op hr) results.
Proof.
  apply Forall_iff. intros hr. by rewrite rejected_failsToParse.
Qed.

(** The loop stops at the first passing host that gives no profile. *)
Lemma np_first_failure (op : t) acc m ctx results :
  Exists (failsToParse op) results →
  ∃ pre host r rest e,
    results = (pre ++ (host, r) :: rest)%list
    ∧ Forall (λ hr, ¬ failsToParse op hr) pre
    ∧ isPassing r = true
    ∧ parseResponse op host (content r) = inl e
    ∧ processResultFrom op acc m ctx results = (Some (parseError op host e), ctx).
Proof.
  revert acc m. induction results as [|[host r] rs IH]; intros acc m Hex.
  - by apply Exists_nil in Hex.
  - destruct (decide (failsToParse op (host, r))) as [[Hp [e He]]|Hok].
    + cbn [fst snd] in Hp, He. exists [], host, r, rs, e.
      split; [done |]. split; [constructor |]. split; [done |].
      split; [done |]. cbn [processResultFrom]. by rewrite Hp, He.
    + apply Exists_cons in Hex as [Hhd|Htl]; [done |].
      assert (Hstep : ∃ acc' m', processResultFrom op acc m ctx ((host, r) :: rs)
                                 = processResultFrom op acc' m' ctx rs).
      { cbn [processResultFrom]. destruct (isPassing r) eqn:Hp; [| eauto].
        destruct (parseResponse op host (content r)) as [e|p] eqn:He; [| eauto].
        exfalso. apply Hok. split; cbn [fst snd]; eauto. }
      destruct Hstep as (acc' & m' & ->).
      destruct (IH acc' m' Htl)
        as (pre & h' & r' & rest & e' & -> & Hpre & Hp' & He' & Hres).
      exists ((host, r) :: pre), h', r', rest, e'.
      split; [done |]. split; [by constructor |]. done.
Qed.

(** C10 -- a passing host gives no profile when the decoder returns an error
    on its content, or when [CheckMissingFields] returns one on the decoded
    profile.  Either some host of the collection is such a host or none is.
    If some is, [processResult] stops at the first of them in the order of
    the loop and returns that error, wrapped, and the execution context is as
    it was (its [networkProfiles] too, nil for a new context), whatever the
    hosts before gave.  If none is, the context gets the map of the decoded
    profiles -- one for each passing host, each decoded from that host's
    content and complete -- and the errors of the hosts that did not pass are
    joined and returned. *)
Theorem networkProfiles_all_or_nothing (op : t) (ctx : opEngineExecContext) :
  let results := ResultCollection (clusterHTTPRequestOf (base op)) in
  (Exists (rejected op) results ∨ Forall (λ hr, ¬ rejected op hr) results)
  ∧ (Exists (rejected op) results →
     ∃ pre host r rest e,
       results = (pre ++ (host, r) :: rest)%list
       ∧ Forall (λ hr, ¬ rejected op hr) pre
       ∧ rejectedWith op (host, r) e
       ∧ processResult op ctx
         = (Some (wrapError ("[" ++ name (base op)
                             ++ "] fail to parse network profile on host "
                             ++ host ++ ", details: ") e), ctx)
       ∧ networkProfiles (processResult op ctx).2 = networkProfiles ctx)
  ∧ (Forall (λ hr, ¬ rejected op hr) results →
     ∃ profiles,
       processResult op ctx
       = (joinAll None (failingErrors results),
          withNetworkProfiles ctx (Some profiles))
       ∧ (∀ host p,
            profiles !! host = Some p →
            ∃ r, (host, r) ∈ results ∧ acceptedAs op (host, r) p)
       ∧ (NoDup results.*1 →
          ∀ host r,
            (host, r) ∈ results → isPassing r = true →
            ∃ p, acceptedAs op (host, r) p ∧ profiles !! host = Some p)
       ∧ (∀ host r e,
            (host, r) ∈ results → err r = Some e →
            ∃ E, (processResult op ctx).1 = Some E ∧ occursIn e E)).
Proof.
  intros results. split; [| split].
  - destruct (decide (Exists (failsToParse op) results)) as [Hex|Hnex].
    + left. eapply Exists_impl; [exact Hex |].
      intros hr. apply rejected_failsToParse.
    + right. apply not_rejected_Forall. apply Forall_forall.
      intros hr Hin Hf. apply Hnex. apply Exists_exists. eauto.
  - intros Hex. unfold processResult. fold results.
    assert (Hex' : Exists (failsToParse op) results).
    { eapply Exists_impl; [exact Hex |]. intros hr. apply rejected_failsToParse. }
    destruct (np_first_failure op None ∅ ctx results Hex')
      as (pre & host & r & rest & e & Hsplit & Hpre & Hp & He & Hres).
    exists pre, host, r, rest, e.
    split; [done |]. split; [by apply not_rejected_Forall |].
    split; [split; [done | by apply (parseResponse_inl op host)] |].
    rewrite Hres. done.
  - intros Hall. apply not_rejected_Forall in Hall.
    exists (collectProfiles op ∅ results).
    assert (Hres : processResult op ctx
                   = (joinAll None (failingErrors results),
                      withNetworkProfiles ctx
                        (Some (collectProfiles op ∅ results)))).
    { unfold processResult. fold results. by apply np_all_parse. }
    split; [done |]. split; [| split].
    + intros host p Hl.
      apply collectProfiles_origin in Hl as [Hl|(r & Hin & Hp & He)].
      * by rewrite lookup_empty in Hl.
      * exists r. split; [done |]. split; [done |].
        by apply (parseResponse_inr op host).
    + intros Hnd host r Hin Hp.
      destruct (parseResponse op host (content r)) as [e|p] eqn:He.
      * exfalso. rewrite Forall_forall in Hall.
        apply (Hall (host, r) Hin). split; cbn [fst snd]; eauto.
      * exists p. split.
        -- split; [done |]. by apply (parseResponse_inr op host).
        -- by eapply collectProfiles_present.
    + intros host r e Hin He. rewrite Hres. cbn [fst].
      apply joinAll_occurs. by eapply elem_of_failingErrors.
Qed.

End NetworkProfiles.

(* ===================================================================== *)
(** * Properties: [processResult] of the find-subcluster op *)
(* ===================================================================== *)

Section FindSubcluster.
Context `{JSONTarget SCResp}.
Import HTTPSFindSubclusterOp.

Lemma processResultFrom_continues (op : t) acc ctx log pre rest :
  Forall continues pre →
  processResultFrom op acc ctx log (pre ++ rest)%list
  = processResultFrom op (joinAll acc (failingErrors pre)) ctx
      (log ++ map LogResponse pre.*1)%list rest.
Proof.
  intros Hall. revert acc log.
  induction Hall as [|[host r] pre [Hu Hp] Htl IH]; intros acc log.
  - cbn. by rewrite app_nil_r.
  - cbn [fst snd] in Hu, Hp.
    cbn [app processResultFrom]. rewrite Hu, Hp. cbn [negb].
    rewrite IH, failingErrors_cons, joinAll_app.
    apply isPassing_false_iff in Hp as [e He]. rewrite He.
    cbn [fmap list_fmap map fst]. by rewrite <- app_assoc.
Qed.

(** The scan finds the named subcluster exactly when the list has it. *)
Lemma scan_foundNamed (op : t) l fn fd ctx :
  (scanSubclusters op l fn fd ctx).1.1 = true
  ↔ fn = true ∨ ∃ e, e ∈ l ∧ SCName e = scName op.
Proof.
  revert fn fd ctx. induction l as [|x l IH]; intros fn fd ctx.
  - cbn. split; [by left | intros [?|(e & Hin & _)]; [done |]].
    by apply elem_of_nil in Hin.
  - cbn [scanSubclusters].
    set (fn' := if bool_decide (SCName x = scName op) then true else fn).
    assert (Hfn' : fn' = true ↔ fn = true ∨ SCName x = scName op).
    { subst fn'. case_bool_decide; [| by intuition].
      split; [by right | done]. }
    destruct (IsDefault x).
    + destruct (fn' && true) eqn:Hb.
      * cbn. rewrite andb_true_r in Hb. split; [| done]. intros _.
        apply Hfn' in Hb as [?|?]; [by left | right].
        exists x. split; [left | done].
      * rewrite IH, Hfn'. split.
        -- intros [[?|?]|(e & Hin & He)]; [by left | right | right].
           ++ exists x. split; [left | done].
           ++ exists e. split; [by right | done].
        -- intros [?|(e & Hin & He)]; [by left; left |].
           apply elem_of_cons in Hin as [->|Hin]; [by left; right |].
           right. eauto.
    + destruct (fn' && fd) eqn:Hb.
      * cbn. apply andb_true_iff in Hb as [Hb _]. split; [| done]. intros _.
        apply Hfn' in Hb as [?|?]; [by left | right].
        exists x. split; [left | done].
      * rewrite IH, Hfn'. split.
        -- intros [[?|?]|(e & Hin & He)]; [by left | right | right].
           ++ exists x. split; [left | done].
           ++ exists e. split; [by right | done].
        -- intros [?|(e & Hin & He)]; [by left; left |].
           apply elem_of_cons in Hin as [->|Hin]; [by left; right |].
           right. eauto.
Qed.

(** The scan finds a default subcluster exactly when the list has one. *)
Lemma scan_foundDefault (op : t) l fn fd ctx :
  (scanSubclusters op l fn fd ctx).1.2 = true
  ↔ fd = true ∨ ∃ d, d ∈ l ∧ IsDefault d = true.
Proof.
  revert fn fd ctx. induction l as [|x l IH]; intros fn fd ctx.
  - cbn. split; [by left | intros [?|(e & Hin & _)]; [done |]].
    by apply elem_of_nil in Hin.
  - cbn [scanSubclusters].
    set (fn' := if bool_decide (SCName x = scName op) then true else fn).
    destruct (IsDefault x) eqn:Hx.
    + destruct (fn' && true) eqn:Hb.
      * cbn. split; [| done]. intros _. right. exists x. split; [left | done].
      * rewrite IH. split; [| by intros; left].
        intros _. right. exists x. split; [left | done].
    + destruct (fn' && fd) eqn:Hb.
      * cbn. apply andb_true_iff in Hb as [_ Hb]. split; [by left | done].
      * rewrite IH. split.
        -- intros [?|(d & Hin & Hd)]; [by left | right].
           exists d. split; [by right | done].
        -- intros [?|(d & Hin & Hd)]; [by left |].
           apply elem_of_cons in Hin as [->|Hin]; [congruence |].
           right. eauto.
Qed.

(** The scan leaves the context alone or stores the name of a default
    subcluster of the list. *)
Lemma scan_context (op : t) l fn fd ctx :
  (scanSubclusters op l fn fd ctx).2 = ctx
  ∨ ∃ d, d ∈ l ∧ IsDefault d = true
         ∧ (scanSubclusters op l fn fd ctx).2 = withDefaultSCName ctx (SCName d).
Proof.
  revert fn fd ctx. induction l as [|x l IH]; intros fn fd ctx; [by left |].
  cbn [scanSubclusters].
  set (fn' := if bool_decide (SCName x = scName op) then true else fn).
  destruct (IsDefault x) eqn:Hx.
  - right. destruct (fn' && true).
    + exists x. split; [left | done].
    + destruct (IH fn' true (withDefaultSCName ctx (SCName x)))
        as [->|(d & Hin & Hd & ->)].
      * exists x. split; [left | done].
      * exists d. split; [by right | done].
  - destruct (fn' && fd); [by left |].
    destruct (IH fn' fd ctx) as [->|(d & Hin & Hd & ->)]; [by left |].
    right. exists d. split; [by right | done].
Qed.

(** With no default found before, a found default means a stored name. *)
Lemma scan_default_stored (op : t) l fn ctx :
  (scanSubclusters op l fn false ctx).1.2 = true →
  ∃ d, d ∈ l ∧ IsDefault d = true
       ∧ (scanSubclusters op l fn false ctx).2 = withDefaultSCName ctx (SCName d).
Proof.
  revert fn ctx. induction l as [|x l IH]; intros fn ctx; [done |].
  cbn [scanSubclusters].
  set (fn' := if bool_decide (SCName x = scName op) then true else fn).
  destruct (IsDefault x) eqn:Hx.
  - intros _. destruct (fn' && true).
    + exists x. split; [left | done].
    + destruct (scan_context op l fn' true (withDefaultSCName ctx (SCName x)))
        as [->|(d & Hin & Hd & ->)].
      * exists x. split; [left | done].
      * exists d. split; [by right | done].
  - rewrite andb_false_r. intros Hfd.
    destruct (IH fn' ctx Hfd) as (d & Hin & Hd & ->).
    exists d. split; [by right | done].
Qed.

(** C7 -- when the loop of [processResult] comes to a host whose status code
    is 401 it returns that host's error at once: whatever errors were joined
    before are left out, the execution context is as it was, the result does
    not depend on the hosts that remain, and the log has no entry for any of
    them (no response of theirs is looked at or parsed). *)
Theorem findSubcluster_unauthorized_returns_at_once
  (op : t) (ctx : opEngineExecContext) (host : string)
  (result : hostHTTPResult) (rest : list (string * hostHTTPResult)) :
  statusCode result = 401%Z →
  (∀ allErrs log,
     processResultFrom op allErrs ctx log ((host, result) :: rest)
     = (err result, ctx, (log ++ [LogResponse host])%list))
  ∧ (∀ pre,
       Forall continues pre →
       ResultCollection (clusterHTTPRequestOf (base op))
       = (pre ++ (host, result) :: rest)%list →
       processResult op ctx
       = (err result, ctx, map LogResponse (pre.*1 ++ [host])%list)).
Proof.
  intros Hcode.
  assert (Hu : isUnauthorizedRequest result = true)
    by by apply isUnauthorizedRequest_iff.
  assert (Hstep : ∀ allErrs log,
             processResultFrom op allErrs ctx log ((host, result) :: rest)
             = (err result, ctx, (log ++ [LogResponse host])%list)).
  { intros allErrs log. cbn [processResultFrom]. by rewrite Hu. }
  split; [exact Hstep |].
  intros pre Hpre Hrc. unfold processResult. rewrite Hrc.
  rewrite processResultFrom_continues by done. rewrite Hstep.
  by rewrite map_app.
Qed.

(** C6, as far as it holds -- let the loop of [processResult] come to a host
    that passes (and is not unauthorized) after hosts that all failed, and let
    its content parse to the subcluster list [L].  If [L] has a default entry,
    and the name looked for is empty, or not-found is ignored, or [L] has the
    name, the op returns nil and the context holds the name of a default entry
    of [L].  If the name is not empty, not-found is not ignored and [L] does
    not have the name, the op returns a non-nil error in which the
    does-not-exist error occurs.  Either way the log ends with this host: no
    later host is examined. *)
Theorem findSubcluster_first_answering_host
  (op : t) (ctx : opEngineExecContext)
  (pre : list (string * hostHTTPResult)) (host : string)
  (result : hostHTTPResult) (rest : list (string * hostHTTPResult))
  (L : list SubclusterInfo) :
  ResultCollection (clusterHTTPRequestOf (base op))
  = (pre ++ (host, result) :: rest)%list →
  Forall continues pre →
  isUnauthorizedRequest result = false →
  isPassing result = true →
  parseAndCheckResponse (base op) host (content result)
  = inr {| SCInfoList := L |} →
  let log := (map LogResponse pre.*1 ++ [LogResponse host; LogParse host])%list in
  ((∃ d, d ∈ L ∧ IsDefault d = true) →
   (scName op = "" ∨ ignoreNotFound op = true
    ∨ ∃ e, e ∈ L ∧ SCName e = scName op) →
   ∃ d, d ∈ L ∧ IsDefault d = true
        ∧ processResult op ctx
          = (None, withDefaultSCName ctx (SCName d), log))
  ∧ (scName op ≠ "" → ignoreNotFound op = false →
     (∀ e, e ∈ L → SCName e ≠ scName op) →
     ∃ E ctx',
       processResult op ctx = (Some E, ctx', log)
       ∧ occursIn (notExistError op) E).
Proof.
  intros Hrc Hpre Hu Hp Hparse log.
  assert (Hlog : ((([] ++ map LogResponse pre.*1) ++ [LogResponse host])
                  ++ [LogParse host])%list = log).
  { subst log. cbn [app]. by rewrite <- app_assoc. }
  unfold processResult. rewrite Hrc.
  rewrite processResultFrom_continues by done.
  cbn [processResultFrom]. rewrite Hu, Hp. cbn [negb]. rewrite Hparse.
  cbn [SCInfoList]. rewrite Hlog.
  pose proof (scan_foundNamed op L false false ctx) as Hn.
  pose proof (scan_foundDefault op L false false ctx) as Hd.
  pose proof (scan_default_stored op L false ctx) as Hs.
  destruct (scanSubclusters op L false false ctx) as [[fn fd] ctx'].
  cbn [fst snd] in Hn, Hd, Hs.
  split.
  - intros Hdef Hname.
    assert (fd = true) as -> by (apply Hd; by right).
    destruct (Hs eq_refl) as (d & Hin & Hdd & ->).
    exists d. split; [done |]. split; [done |].
    assert (negb (bool_decide (scName op = "")) && negb (ignoreNotFound op)
            && negb fn = false) as ->.
    { destruct Hname as [Hempty|[Hign|Hfound]].
      - by rewrite bool_decide_eq_true_2.
      - rewrite Hign. by rewrite andb_false_r.
      - assert (fn = true) as -> by (apply Hn; by right).
        by rewrite andb_false_r. }
    done.
  - intros Hne Hign Habsent.
    assert (fn = false) as ->.
    { apply not_true_iff_false. rewrite Hn.
      intros [?|(e & Hin & He)]; [done |]. by apply (Habsent e). }
    rewrite bool_decide_eq_false_2 by done. rewrite Hign. cbn [negb andb].
    destruct (Join_occurs_new (joinAll None (failingErrors pre))
                              (notExistError op)) as (E & -> & Hocc).
    by exists E, ctx'.
Qed.

(** When every host fails without being unauthorized the loop runs to its
    end and joins every error. *)
Lemma findSubcluster_all_fail (op : t) ctx :
  Forall continues (ResultCollection (clusterHTTPRequestOf (base op))) →
  processResult op ctx
  = (joinAll None (failingErrors
                     (ResultCollection (clusterHTTPRequestOf (base op)))),
     ctx,
     map LogResponse (ResultCollection (clusterHTTPRequestOf (base op))).*1).
Proof.
  intros Hall. unfold processResult.
  rewrite <- (app_nil_r (ResultCollection _)) at 1.
  by rewrite processResultFrom_continues.
Qed.

End FindSubcluster.

(* ===================================================================== *)
(** * Properties: which host failures reach the returned error *)
(* ===================================================================== *)

Section HostFailures.
Context `{JSONTarget opResponseMap} `{JSONTarget NetworkProfile}
        `{JSONTarget SCResp} `{UtilPkg}.

(** C3, as far as it holds -- the delete-directories op joins the error of
    every failing host.  The scrutinize op joins the (wrapped) error of every
    failing host whose status code is not 500, and skips the hosts that failed
    with an internal server error: when no other host failed it returns nil.
    The network-profile op joins the error of every failing host when no
    passing host fails to parse, and the find-subcluster op when every host
    failed without being unauthorized, the cases in which their loops run to
    the end. *)
Theorem host_failures_in_joined_error
  (del : NMADeleteDirectoriesOp.t) (tar : NMAGetScrutinizeTarOp.t)
  (np : NMANetworkProfileOp.t) (find : HTTPSFindSubclusterOp.t)
  (ctx : opEngineExecContext) :
  (∀ host r e,
     (host, r) ∈ ResultCollection
                   (clusterHTTPRequestOf (NMADeleteDirectoriesOp.base del)) →
     err r = Some e →
     ∃ E, NMADeleteDirectoriesOp.processResult del ctx = Some E ∧ occursIn e E)
  ∧ (∀ host r e,
       (host, r) ∈ ResultCollection
                     (clusterHTTPRequestOf (NMAGetScrutinizeTarOp.base tar)) →
       err r = Some e →
       statusCode r ≠ 500%Z →
       ∃ E, NMAGetScrutinizeTarOp.processResult tar ctx = Some E ∧ occursIn e E)
  ∧ (Forall (λ hr, isPassing hr.2 = true ∨ isInternalError hr.2 = true)
            (ResultCollection
               (clusterHTTPRequestOf (NMAGetScrutinizeTarOp.base tar))) →
     NMAGetScrutinizeTarOp.processResult tar ctx = None)
  ∧ (Forall (λ hr, ¬ failsToParse np hr)
            (ResultCollection
               (clusterHTTPRequestOf (NMANetworkProfileOp.base np))) →
     ∀ host r e,
       (host, r) ∈ ResultCollection
                     (clusterHTTPRequestOf (NMANetworkProfileOp.base np)) →
       err r = Some e →
       ∃ E, (NMANetworkProfileOp.processResult np ctx).1 = Some E
            ∧ occursIn e E)
  ∧ (Forall continues
            (ResultCollection
               (clusterHTTPRequestOf (HTTPSFindSubclusterOp.base find))) →
     ∀ host r e,
       (host, r) ∈ ResultCollection
                     (clusterHTTPRequestOf (HTTPSFindSubclusterOp.base find)) →
       err r = Some e →
       ∃ E, (HTTPSFindSubclusterOp.processResult find ctx).1.1 = Some E
            ∧ occursIn e E).
Proof.
  split; [| split; [| split; [| split]]].
  - intros host r e. apply delete_failing_host_joined.
  - intros host r e. apply tar_failing_host_joined.
  - apply tar_internal_errors_skipped.
  - intros Hall host r e Hin He.
    unfold NMANetworkProfileOp.processResult.
    rewrite np_all_parse by done. cbn [fst].
    apply joinAll_occurs. by eapply elem_of_failingErrors.
  - intros Hall host r e Hin He.
    rewrite findSubcluster_all_fail by done. cbn [fst].
    apply joinAll_occurs. by eapply elem_of_failingErrors.
Qed.

End HostFailures.

(* ===================================================================== *)
(** * Properties: the requests an operation holds after [prepare] *)
(* ===================================================================== *)

Section RequestsAfterPrepare.

Lemma requestFor_withRequestCollection b rc host :
  requestFor (withRequestCollection b rc) host = rc ≫= (λ m, m !! host).
Proof. reflexivity. Qed.

Lemma assignAll_spec mk b hs b' :
  assignAll mk b hs = Done b' →
  hosts b' = hosts b
  ∧ ∀ h, requestFor b' h
         = if decide (h ∈ hs) then Some (mk h) else requestFor b h.
Proof.
  revert b. induction hs as [|host rest IH]; intros b Hrun.
  - injection Hrun as <-. split; [done |]. intros h.
    by rewrite decide_False by apply not_elem_of_nil.
  - cbn [assignAll] in Hrun. unfold assignRequest in Hrun.
    destruct (RequestCollection (clusterHTTPRequestOf b)) as [rc|] eqn:Hrc;
      [| done].
    apply IH in Hrun as [Hhosts Hreq]. split; [done |].
    intros h. rewrite Hreq, requestFor_withRequestCollection.
    unfold requestFor. rewrite Hrc. cbn [mbind option_bind].
    destruct (decide (h ∈ rest)) as [Hin|Hnin].
    + by rewrite decide_True by (by right).
    + destruct (decide (h = host)) as [->|Hne].
      * rewrite decide_True by left. apply lookup_insert_eq.
      * rewrite lookup_insert_ne by done. rewrite decide_False; [done |].
        intros [?|?]%elem_of_cons; done.
Qed.

Lemma setupBasicInfo_requestFor b host :
  requestFor (setupBasicInfo b) host = None ∧ hosts (setupBasicInfo b) = hosts b.
Proof. split; [apply lookup_empty | reflexivity]. Qed.




Lemma find_setup_assignAll (op : HTTPSFindSubclusterOp.t) hs :
  HTTPSFindSubclusterOp.setupClusterHTTPRequest op hs
  = match assignAll (findRequest op) (HTTPSFindSubclusterOp.base op) hs with
    | Panic => Panic
    | Done b => Done (HTTPSFindSubclusterOp.withBase op b, None)
    end.
Proof.
  unfold HTTPSFindSubclusterOp.setupClusterHTTPRequest.
  unfold findRequest. generalize (HTTPSFindSubclusterOp.base op) as b.
  induction hs as [|host rest IH]; intros b; [done |].
  cbn [assignAll]. destruct (assignRequest b host _); [apply IH | done].
Qed.

Lemma delete_setup_assignAll (op : NMADeleteDirectoriesOp.t) hs :
  NMADeleteDirectoriesOp.setupClusterHTTPRequest op hs
  = match assignAll (deleteRequest op) (NMADeleteDirectoriesOp.base op) hs with
    | Panic => Panic
    | Done b => Done (NMADeleteDirectoriesOp.withBase op b, None)
    end.
Proof.
  unfold NMADeleteDirectoriesOp.setupClusterHTTPRequest.
  unfold deleteRequest. generalize (NMADeleteDirectoriesOp.base op) as b.
  induction hs as [|host rest IH]; intros b; [done |].
  cbn [assignAll]. destruct (assignRequest b host _); [apply IH | done].
Qed.

Lemma np_setup_assignAll (op : NMANetworkProfileOp.t) hs :
  NMANetworkProfileOp.setupClusterHTTPRequest op hs
  = match assignAll (profileRequest op) (NMANetworkProfileOp.base op) hs with
    | Panic => Panic
    | Done b => Done (NMANetworkProfileOp.withBase op b, None)
    end.
Proof.
  unfold NMANetworkProfileOp.setupClusterHTTPRequest.
  unfold profileRequest. generalize (NMANetworkProfileOp.base op) as b.
  induction hs as [|host rest IH]; intros b; [done |].
  cbn [assignAll]. destruct (assignRequest b host _); [apply IH | done].
Qed.

Lemma assignAll_total mk b hs :
  is_Some (RequestCollection (clusterHTTPRequestOf b)) →
  ∃ b', assignAll mk b hs = Done b'.
Proof.
  revert b. induction hs as [|host rest IH]; intros b [rc Hrc]; [by eexists |].
  cbn [assignAll]. unfold assignRequest. rewrite Hrc. apply IH. by eexists.
Qed.



End RequestsAfterPrepare.

(* ===================================================================== *)
(** * Properties: the bootstrap request bodies and their masked copies *)
(* ===================================================================== *)

Section Bootstrap.
Context `{GoLib}.
Import NMABootstrapCatalogOp.

Lemma setupRequestBody_embeddedNil (op : t) vdb options :
  embeddedNil (hostRequestBodyMap (setupRequestBody op vdb options).1).
Proof.
  unfold setupRequestBody.
  assert (Hinit : embeddedNil ∅) by (intros host d Hl; by rewrite lookup_empty in Hl).
  revert Hinit.
  generalize (∅ : gmap string bootstrapCatalogRequestData) as bodies.
  generalize (hosts (base op)) as hs.
  induction hs as [|host rest IH]; intros bodies Hinv; [done |].
  destruct (vnStorageLocations
              (default zeroVCoordinationNode (HostNodeMap vdb !! host)))
    as [|storageLocation others] eqn:Hsl.
  - exact Hinv.
  - apply IH. intros h d Hl.
    destruct (decide (h = host)) as [->|Hne].
    + rewrite lookup_insert_eq in Hl. by injection Hl as <-.
    + rewrite lookup_insert_ne in Hl by done. by eapply Hinv.
Qed.

Lemma zeroData_embeddedNil :
  Sensitive.Parameters (SensitiveFields zeroData) = None.
Proof. reflexivity. Qed.

(** One pass of the loop when no body holds an embedded map: the store is
    left as it is. *)
Lemma updateOne_embeddedNil σ (op : t) masked host profile :
  embeddedNil (hostRequestBodyMap op) →
  let body := unmaskedBody op host profile in
  updateOne (σ, op, masked) (host, profile)
  = (σ,
     {| base := base op;
        hostRequestBodyMap := <[host := body]> (hostRequestBodyMap op);
        marshaledRequestBodyMap :=
          <[host := marshal σ body]> (marshaledRequestBodyMap op) |},
     <[host := withSensitiveFields body (maskedFields body)]> masked)
  ∧ embeddedNil (<[host := body]> (hostRequestBodyMap op)).
Proof.
  intros Hinv body.
  assert (Hnil : Sensitive.Parameters (SensitiveFields body) = None).
  { subst body. unfold unmaskedBody.
    destruct (hostRequestBodyMap op !! host) as [d|] eqn:Hl; cbn.
    - by eapply Hinv.
    - done. }
  split.
  - unfold updateOne. fold (unmaskedBody op host profile). fold body.
    rewrite lookup_insert_eq. cbn [default].
    unfold Sensitive.maskSensitiveInfo. rewrite Hnil.
    unfold maskedFields. by rewrite Hnil.
  - intros h d Hl. destruct (decide (h = host)) as [->|Hne].
    + rewrite lookup_insert_eq in Hl. by injection Hl as <-.
    + rewrite lookup_insert_ne in Hl by done. by eapply Hinv.
Qed.

(** The loop, from any state whose bodies hold no embedded map. *)
Lemma update_loop_embeddedNil σ (op : t) masked profiles :
  embeddedNil (hostRequestBodyMap op) →
  NoDup profiles.*1 →
  ∃ op' masked',
    foldl updateOne (σ, op, masked) profiles = (σ, op', masked')
    ∧ base op' = base op
    ∧ (∀ host profile,
         (host, profile) ∈ profiles →
         hostRequestBodyMap op' !! host = Some (unmaskedBody op host profile)
         ∧ marshaledRequestBodyMap op' !! host
           = Some (marshal σ (unmaskedBody op host profile))
         ∧ masked' !! host
           = Some (withSensitiveFields (unmaskedBody op host profile)
                     (maskedFields (unmaskedBody op host profile))))
    ∧ (∀ host,
         host ∉ profiles.*1 →
         hostRequestBodyMap op' !! host = hostRequestBodyMap op !! host
         ∧ marshaledRequestBodyMap op' !! host
           = marshaledRequestBodyMap op !! host
         ∧ masked' !! host = masked !! host).
Proof.
  revert op masked.
  induction profiles as [|[h p] rest IH]; intros op masked Hinv Hnd.
  - exists op, masked. split; [done |]. split; [done |].
    split; [by intros host profile Hin%elem_of_nil | done].
  - cbn [fmap list_fmap fst] in Hnd. apply NoDup_cons in Hnd as [Hnin Hnd].
    cbn [foldl].
    destruct (updateOne_embeddedNil σ op masked h p Hinv) as [-> Hinv'].
    set (op1 := {| base := base op;
                   hostRequestBodyMap :=
                     <[h := unmaskedBody op h p]> (hostRequestBodyMap op);
                   marshaledRequestBodyMap :=
                     <[h := marshal σ (unmaskedBody op h p)]>
                       (marshaledRequestBodyMap op) |}).
    destruct (IH op1
                 (<[h := withSensitiveFields (unmaskedBody op h p)
                           (maskedFields (unmaskedBody op h p))]> masked)
                 Hinv' Hnd) as (op' & masked' & -> & Hbase & Hin & Hout).
    exists op', masked'. split; [done |]. split; [done |]. split.
    + intros host profile [[= -> ->]|Hmem]%elem_of_cons.
      * destruct (Hout h Hnin) as (Hb & Hm & Hk).
        rewrite Hb, Hm, Hk. subst op1. cbn.
        by rewrite !lookup_insert_eq.
      * destruct (Hin host profile Hmem) as (Hb & Hm & Hk).
        assert (Hne : h ≠ host).
        { intros ->. apply Hnin. apply list_elem_of_fmap.
          by exists (host, profile). }
        assert (Hsame : unmaskedBody op1 host profile
                        = unmaskedBody op host profile).
        { unfold unmaskedBody. subst op1. cbn.
          by rewrite lookup_insert_ne. }
        by rewrite Hb, Hm, Hk, Hsame.
    + intros host Hnotin. cbn [fmap list_fmap fst] in Hnotin.
      apply not_elem_of_cons in Hnotin as [Hne Hnotin].
      destruct (Hout host Hnotin) as (Hb & Hm & Hk).
      rewrite Hb, Hm, Hk. subst op1. cbn.
      by rewrite !lookup_insert_ne.
Qed.

(** C2 -- for the op [MakeNMABootstrapCatalogOp] builds, and the network
    profiles in any order [range] can yield them: [updateRequestBody] leaves
    the store of shared maps as it found it, so no masking pass reaches a map
    that is marshalled later; for every host with a profile the body stored
    is the one of the op with the broadcast address filled in, and the string
    in [marshaledRequestBodyMap] is the marshalling of that unmasked body;
    no other host gets a string; and the copy that is logged differs from the
    body in the three masked credential fields only. *)
Theorem masking_leaves_marshaled_bodies
  (name' : string) (vdb : VCoordinationDatabase)
  (options : VCreateDatabaseOptions) (bootstrapHosts : list string)
  (σ : store) (ctx : opEngineExecContext)
  (profiles : list (string * NetworkProfile)) :
  profiles ≡ₚ map_to_list (default ∅ (networkProfiles ctx)) →
  let op := (MakeNMABootstrapCatalogOp name' vdb options bootstrapHosts).1 in
  let st := updateRequestBodyOver σ op profiles in
  st.1.1 = σ
  ∧ (∀ host profile,
       (host, profile) ∈ profiles →
       hostRequestBodyMap st.1.2 !! host = Some (unmaskedBody op host profile)
       ∧ marshaledRequestBodyMap st.1.2 !! host
         = Some (marshal σ (unmaskedBody op host profile))
       ∧ st.2 !! host
         = Some (withSensitiveFields (unmaskedBody op host profile)
                   {| Sensitive.DBPassword := "******";
                      Sensitive.AWSAccessKeyID := "******";
                      Sensitive.AWSSecretAccessKey := "******";
                      Sensitive.Parameters := None |}))
  ∧ (∀ host s,
       marshaledRequestBodyMap st.1.2 !! host = Some s →
       ∃ profile, (host, profile) ∈ profiles
                  ∧ s = marshal σ (unmaskedBody op host profile)).
Proof.
  intros Hperm op st.
  assert (Hnd : NoDup profiles.*1).
  { rewrite Hperm. apply NoDup_fst_map_to_list. }
  assert (Hinv : embeddedNil (hostRequestBodyMap op)).
  { subst op. unfold MakeNMABootstrapCatalogOp.
    apply setupRequestBody_embeddedNil. }
  set (op0 := {| base := base op; hostRequestBodyMap := hostRequestBodyMap op;
                 marshaledRequestBodyMap := ∅ |}).
  destruct (update_loop_embeddedNil σ op0 ∅ profiles Hinv Hnd)
    as (op' & masked' & Hrun & _ & Hin & Hout).
  assert (Hst : st = (σ, op', masked')) by exact Hrun.
  rewrite Hst. cbn [fst snd]. split; [done |]. split.
  - intros host profile Hmem.
    destruct (Hin host profile Hmem) as (Hb & Hm & Hk).
    split; [exact Hb |]. split; [exact Hm |].
    rewrite Hk. f_equal. unfold maskedFields. f_equal. f_equal.
    change (unmaskedBody op0 host profile) with (unmaskedBody op host profile).
    unfold unmaskedBody.
    destruct (hostRequestBodyMap op !! host) as [d|] eqn:Hl; cbn.
    + by eapply Hinv.
    + done.
  - intros host s Hs.
    destruct (decide (host ∈ profiles.*1)) as [Hmem|Hnotin].
    + apply list_elem_of_fmap in Hmem as [[h profile] [-> Hmem]].
      cbn [fst] in Hs. exists profile. split; [done |].
      destruct (Hin h profile Hmem) as (_ & Hm & _).
      rewrite Hm in Hs. by injection Hs as <-.
    + destruct (Hout host Hnotin) as (_ & Hm & _).
      rewrite Hm in Hs. subst op0. cbn [marshaledRequestBodyMap] in Hs.
      by rewrite lookup_empty in Hs.
Qed.

End Bootstrap.

(* ===================================================================== *)
(** * Worked instances *)
(* ===================================================================== *)

Section Instances.
Import Sample.
#[local] Existing Instance goLib.
#[local] Existing Instance utilPkg.
#[local] Existing Instance decodeSCResp.
#[local] Existing Instance decodeNetworkProfile.
#[local] Existing Instance decodeMap.

(** C3, the part that fails -- a host of the scrutinize op fails with an
    internal server error; its error is not nil, and [processResult] returns
    nil. *)
Lemma scrutinize_internal_error_dropped :
  let r := internalErrorResult hostB in
  let op := tarOp [(hostA, passingResult hostA ""); (hostB, r)] in
  err r = Some (errorString "500 Internal Server Error")
  ∧ isInternalError r = true
  ∧ NMAGetScrutinizeTarOp.processResult op makeOpEngineExecContext = None.
Proof. repeat split. Qed.

(** C6, the part that fails -- host B passes, and its content parses to a
    list with a default entry and with the name looked for; the runtime yields
    the unauthorized host A first, and [processResult] returns the error of A
    and leaves the default subcluster name of the context empty. *)
Lemma findSubcluster_unauthorized_host_first :
  let results := [(hostA, unauthorizedResult hostA);
                  (hostB, passingResult hostB "d:default_subcluster")] in
  let op := findOp "sc1" false results in
  (∃ h r L,
     (h, r) ∈ results ∧ isPassing r = true
     ∧ parseAndCheckResponse (HTTPSFindSubclusterOp.base op) h (content r)
       = inr {| SCInfoList := L |}
     ∧ (∃ d, d ∈ L ∧ IsDefault d = true)
     ∧ (∃ e, e ∈ L ∧ SCName e = HTTPSFindSubclusterOp.scName op))
  ∧ HTTPSFindSubclusterOp.processResult op makeOpEngineExecContext
    = (Some (errorString "401 Unauthorized"), makeOpEngineExecContext,
       [LogResponse hostA])
  ∧ defaultSCName makeOpEngineExecContext = "".
Proof.
  split; [| split; reflexivity].
  exists hostB, (passingResult hostB "d:default_subcluster"), subclusters.
  split; [right; left |]. split; [reflexivity |]. split; [reflexivity |].
  split.
  - eexists. split; [left | reflexivity].
  - eexists. split; [right; left | reflexivity].
Qed.

(** C7 at three hosts: A timed out, B is unauthorized, C passed. *)
Lemma findSubcluster_unauthorized_returns_at_once_witness :
  let results := [(hostA, timeoutResult hostA);
                  (hostB, unauthorizedResult hostB);
                  (hostC, passingResult hostC "d:default_subcluster")] in
  let op := findOp "sc1" false results in
  statusCode (unauthorizedResult hostB) = 401%Z
  ∧ Forall continues [(hostA, timeoutResult hostA)]
  ∧ HTTPSFindSubclusterOp.processResult op makeOpEngineExecContext
    = (Some (errorString "401 Unauthorized"), makeOpEngineExecContext,
       [LogResponse hostA; LogResponse hostB]).
Proof.
  intros results op.
  assert (Hpre : Forall continues [(hostA, timeoutResult hostA)]).
  { repeat constructor. }
  split; [reflexivity |]. split; [exact Hpre |].
  apply (proj2 (findSubcluster_unauthorized_returns_at_once
                  op makeOpEngineExecContext hostB (unauthorizedResult hostB)
                  [(hostC, passingResult hostC "d:default_subcluster")]
                  eq_refl)
           [(hostA, timeoutResult hostA)] Hpre eq_refl).
Defined.

(** C6 at the three hosts of the end-to-end scenario, all passing with the
    same list: looking for [sc1] succeeds and stores the default name;
    looking for [sc2] fails on the first host. *)
Lemma findSubcluster_first_answering_host_witness :
  let good h := passingResult h "d:default_subcluster" in
  let results := [(hostA, good hostA); (hostB, good hostB); (hostC, good hostC)] in
  let ctx := makeOpEngineExecContext in
  Forall continues []
  ∧ isUnauthorizedRequest (good hostA) = false
  ∧ isPassing (good hostA) = true
  ∧ parseAndCheckResponse
      (HTTPSFindSubclusterOp.base (findOp "sc1" false results)) hostA
      (content (good hostA))
    = inr {| SCInfoList := subclusters |}
  ∧ (∃ d, d ∈ subclusters ∧ IsDefault d = true
          ∧ HTTPSFindSubclusterOp.processResult (findOp "sc1" false results) ctx
            = (None, withDefaultSCName ctx (SCName d),
               [LogResponse hostA; LogParse hostA]))
  ∧ (∃ E ctx',
       HTTPSFindSubclusterOp.processResult (findOp "sc2" false results) ctx
       = (Some E, ctx', [LogResponse hostA; LogParse hostA])
       ∧ occursIn (HTTPSFindSubclusterOp.notExistError
                     (findOp "sc2" false results)) E).
Proof.
  intros good results ctx.
  assert (Hparse : ∀ n,
             parseAndCheckResponse
               (HTTPSFindSubclusterOp.base (findOp n false results)) hostA
               (content (good hostA))
             = inr {| SCInfoList := subclusters |}) by reflexivity.
  split; [constructor |]. split; [reflexivity |]. split; [reflexivity |].
  split; [apply Hparse |]. split.
  - apply (proj1 (findSubcluster_first_answering_host
                    (findOp "sc1" false results) ctx [] hostA (good hostA)
                    [(hostB, good hostB); (hostC, good hostC)] subclusters
                    eq_refl (Forall_nil_2 _) eq_refl eq_refl (Hparse "sc1"))).
    + eexists. split; [left | reflexivity].
    + right. right. eexists. split; [right; left | reflexivity].
  - apply (proj2 (findSubcluster_first_answering_host
                    (findOp "sc2" false results) ctx [] hostA (good hostA)
                    [(hostB, good hostB); (hostC, good hostC)] subclusters
                    eq_refl (Forall_nil_2 _) eq_refl eq_refl (Hparse "sc2"))).
    + discriminate.
    + reflexivity.
    + intros e [->|[->|Hin%elem_of_nil]%elem_of_cons]%elem_of_cons;
        [discriminate | discriminate | done].
Defined.

(** C3 at work: the delete-directories op with a timed-out host and a host
    that answered 503, and the scrutinize op with a timed-out host next to one
    that failed with an internal server error. *)
Lemma host_failures_in_joined_error_witness :
  let unavailable := failingResult hostC 503 "503 Service Unavailable" in
  let del := deleteOp [(hostA, timeoutResult hostA);
                       (hostB, passingResult hostB "/data/db");
                       (hostC, unavailable)] in
  let tar := tarOp [(hostA, internalErrorResult hostA);
                    (hostB, timeoutResult hostB)] in
  let ctx := makeOpEngineExecContext in
  ((hostC, unavailable)
     ∈ ResultCollection (clusterHTTPRequestOf (NMADeleteDirectoriesOp.base del))
   ∧ err unavailable = Some (errorString "503 Service Unavailable")
   ∧ ∃ E, NMADeleteDirectoriesOp.processResult del ctx = Some E
          ∧ occursIn (errorString "503 Service Unavailable") E)
  ∧ ((hostB, timeoutResult hostB)
       ∈ ResultCollection (clusterHTTPRequestOf (NMAGetScrutinizeTarOp.base tar))
     ∧ err (timeoutResult hostB) = Some (errorString "context deadline exceeded")
     ∧ statusCode (timeoutResult hostB) ≠ 500%Z
     ∧ ∃ E, NMAGetScrutinizeTarOp.processResult tar ctx = Some E
            ∧ occursIn (errorString "context deadline exceeded") E).
Proof.
  intros unavailable del tar ctx.
  pose proof (host_failures_in_joined_error
                del tar (profileOp []) (findOp "" false []) ctx)
    as (Hdel & Htar & _).
  assert (Hin1 : (hostC, unavailable)
                   ∈ ResultCollection
                       (clusterHTTPRequestOf (NMADeleteDirectoriesOp.base del)))
    by (right; right; left).
  assert (Hin2 : (hostB, timeoutResult hostB)
                   ∈ ResultCollection
                       (clusterHTTPRequestOf (NMAGetScrutinizeTarOp.base tar)))
    by (right; left).
  assert (Hcode : statusCode (timeoutResult hostB) ≠ 500%Z) by (simpl; lia).
  split.
  - split; [exact Hin1 |]. split; [reflexivity |].
    exact (Hdel hostC unavailable _ Hin1 eq_refl).
  - split; [exact Hin2 |]. split; [reflexivity |]. split; [exact Hcode |].
    exact (Htar hostB (timeoutResult hostB) _ Hin2 eq_refl Hcode).
Defined.

(** C10 at work.  Host B answers with a profile that lacks its netmask: the
    error of [CheckMissingFields] is returned for B and nothing is stored,
    not even the profile of A.  Host B answers with content that is not JSON:
    the error of the decoder is returned for B and nothing is stored.
    Without host B the profile of A is stored and the time-out of C is
    returned. *)
Lemma networkProfiles_all_or_nothing_witness :
  let ctx := makeOpEngineExecContext in
  let partial := [(hostA, passingResult hostA "eth0");
                  (hostB, passingResult hostB "partial");
                  (hostC, timeoutResult hostC)] in
  let garbled := [(hostA, passingResult hostA "eth0");
                  (hostB, passingResult hostB "");
                  (hostC, timeoutResult hostC)] in
  let complete := [(hostA, passingResult hostA "eth0");
                   (hostC, timeoutResult hostC)] in
  let missing := errorString "unexpected or missing fields in response object" in
  (Exists (rejected (profileOp partial)) partial
   ∧ rejectedWith (profileOp partial) (hostB, passingResult hostB "partial")
                  missing
   ∧ NMANetworkProfileOp.processResult (profileOp partial) ctx
     = (Some (NMANetworkProfileOp.parseError (profileOp partial) hostB missing),
        ctx)
   ∧ networkProfiles
       (NMANetworkProfileOp.processResult (profileOp partial) ctx).2 = None)
  ∧ (Exists (rejected (profileOp garbled)) garbled
     ∧ rejectedWith (profileOp garbled) (hostB, passingResult hostB "")
                    (unmarshalError "NMANetworkProfileOp")
     ∧ NMANetworkProfileOp.processResult (profileOp garbled) ctx
       = (Some (NMANetworkProfileOp.parseError (profileOp garbled) hostB
                  (unmarshalError "NMANetworkProfileOp")), ctx)
     ∧ networkProfiles
         (NMANetworkProfileOp.processResult (profileOp garbled) ctx).2 = None)
  ∧ (Forall (λ hr, ¬ rejected (profileOp complete) hr) complete
     ∧ ∃ profiles,
         NMANetworkProfileOp.processResult (profileOp complete) ctx
         = (joinAll None (failingErrors complete),
            withNetworkProfiles ctx (Some profiles))
         ∧ (∃ p, profiles !! hostA = Some p ∧ npName p = "eth0")
         ∧ profiles !! hostC = None
         ∧ ∃ E, (NMANetworkProfileOp.processResult (profileOp complete) ctx).1
                = Some E
                ∧ occursIn (errorString "context deadline exceeded") E).
Proof.
  intros ctx partial garbled complete missing.
  assert (HrejP : rejectedWith (profileOp partial)
                    (hostB, passingResult hostB "partial") missing).
  { split; [reflexivity |]. right. eexists. split; reflexivity. }
  assert (HrejG : rejectedWith (profileOp garbled)
                    (hostB, passingResult hostB "")
                    (unmarshalError "NMANetworkProfileOp")).
  { split; [reflexivity |]. left. reflexivity. }
  assert (HexP : Exists (rejected (profileOp partial)) partial).
  { apply Exists_cons_tl, Exists_cons_hd. by exists missing. }
  assert (HexG : Exists (rejected (profileOp garbled)) garbled).
  { apply Exists_cons_tl, Exists_cons_hd.
    by exists (unmarshalError "NMANetworkProfileOp"). }
  assert (Hall : Forall (λ hr, ¬ rejected (profileOp complete) hr) complete).
  { repeat constructor.
    - intros [e [_ [He|(obj & He & Hc)]]].
      + vm_compute in He. discriminate.
      + vm_compute in He. injection He as <-. vm_compute in Hc. discriminate.
    - intros [e [Hp _]]. vm_compute in Hp. discriminate. }
  split; [| split].
  - split; [exact HexP |]. split; [exact HrejP |].
    destruct (proj1 (proj2 (networkProfiles_all_or_nothing (profileOp partial) ctx))
                HexP)
      as (pre & h & r & rest & e & _ & _ & _ & Hres & Hnp).
    split; [reflexivity | exact Hnp].
  - split; [exact HexG |]. split; [exact HrejG |].
    destruct (proj1 (proj2 (networkProfiles_all_or_nothing (profileOp garbled) ctx))
                HexG)
      as (pre & h & r & rest & e & _ & _ & _ & Hres & Hnp).
    split; [reflexivity | exact Hnp].
  - split; [exact Hall |].
    destruct (proj2 (proj2 (networkProfiles_all_or_nothing (profileOp complete) ctx))
                Hall)
      as (profiles & Hres & Horigin & Hstored & Herr).
    exists profiles. split; [exact Hres |]. split; [| split].
    + assert (Hnd : NoDup complete.*1).
      { repeat constructor; intros Hin;
          repeat (apply elem_of_cons in Hin as [Hin|Hin]; [discriminate |]);
          by apply elem_of_nil in Hin. }
      assert (HinA : (hostA, passingResult hostA "eth0") ∈ complete) by left.
      destruct (Hstored Hnd hostA (passingResult hostA "eth0") HinA eq_refl)
        as (p & (_ & Hdec & _) & Hl).
      exists p. split; [exact Hl |].
      vm_compute in Hdec. injection Hdec as <-. reflexivity.
    + destruct (profiles !! hostC) as [p|] eqn:Hl; [| reflexivity].
      destruct (Horigin hostC p Hl) as (r & Hin & Hp & _).
      exfalso.
      apply elem_of_cons in Hin as [Heq|Hin]; [discriminate Heq |].
      apply list_elem_of_singleton in Hin. injection Hin as ->.
      discriminate Hp.
    + apply (Herr hostC (timeoutResult hostC)); [right; left | reflexivity].
Defined.

(** C9 at work: the parameters of the sample store, masked. *)
Lemma maskSensitiveInfo_idempotent_same_keys_witness :
  let sf := {| Sensitive.DBPassword := "db-secret";
               Sensitive.AWSAccessKeyID := "AKIAEXAMPLE";
               Sensitive.AWSSecretAccessKey := "aws-secret";
               Sensitive.Parameters := Some 1%positive |} in
  let σ1 := (Sensitive.maskSensitiveInfo parameterStore sf).1 in
  let sf1 := (Sensitive.maskSensitiveInfo parameterStore sf).2 in
  Sensitive.maskSensitiveInfo σ1 sf1 = (σ1, sf1)
  ∧ deref σ1 (Some 1%positive) !! "AWSAuth" = Some "******"
  ∧ deref σ1 (Some 1%positive) !! "MaxClientSessions" = Some "100"
  ∧ deref σ1 (Some 1%positive) !! "awsauth" = None.
Proof.
  intros sf σ1 sf1.
  destruct (maskSensitiveInfo_idempotent_same_keys parameterStore sf)
    as (Hidem & _ & _ & _ & _ & _ & Hval & _).
  split; [exact Hidem |].
  split; [| split]; (etransitivity; [apply Hval | reflexivity]).
Defined.

(** The constructors leave the zero request, whose collection is nil. *)
Lemma constructors_leave_zero_request :
  (∀ hs, RequestCollection
           (clusterHTTPRequestOf
              (NMANetworkProfileOp.base
                 (NMANetworkProfileOp.makeNMANetworkProfileOp hs))) = None)
  ∧ (∀ hs usePw user pw sc ign,
       RequestCollection
         (clusterHTTPRequestOf
            (HTTPSFindSubclusterOp.base
               (makeHTTPSFindSubclusterOp hs usePw user pw sc ign).1)) = None)
  ∧ (∀ join db force,
       RequestCollection
         (clusterHTTPRequestOf
            (NMADeleteDirectoriesOp.base
               (NMADeleteDirectoriesOp.makeNMADeleteDirectoriesOp join db force).1))
       = None).
Proof.
  split; [done |]. split; [| done].
  intros hs usePw user pw sc ign. unfold makeHTTPSFindSubclusterOp.
  by destruct (validateAndSetUsernameAndPassword _ _ _ _ _).
Qed.


(** Outside these states [prepare] only adds: an entry that was in the
    collection before, for a host that is not in the list, stays. *)
Remark prepare_keeps_foreign_entries :
  let stale := withRequestCollection
                 (NMANetworkProfileOp.base
                    (NMANetworkProfileOp.makeNMANetworkProfileOp [hostA]))
                 (Some {[ hostC := zeroHostHTTPRequest ]}) in
  ∃ op' ctx',
    NMANetworkProfileOp.prepare {| NMANetworkProfileOp.base := stale |}
                                makeOpEngineExecContext
    = Done (op', ctx', None)
    ∧ hosts (NMANetworkProfileOp.base op') = [hostA]
    ∧ requestFor (NMANetworkProfileOp.base op') hostC = Some zeroHostHTTPRequest.
Proof.
  intros stale. eexists _, _. split; [reflexivity |].
  split; [reflexivity |]. vm_compute. reflexivity.
Qed.

(** C2 at work: two bootstrap hosts that share the configuration parameters
    of the sample store, in which [AWSAuth] holds a credential. *)
Lemma masking_leaves_marshaled_bodies_witness :
  let profiles := map_to_list (default ∅ (networkProfiles contextWithProfiles)) in
  let op := (NMABootstrapCatalogOp.MakeNMABootstrapCatalogOp
               "NMABootstrapCatalogOp" vdb options [hostA; hostB]).1 in
  let st := NMABootstrapCatalogOp.updateRequestBodyOver parameterStore op profiles in
  profiles ≡ₚ map_to_list (default ∅ (networkProfiles contextWithProfiles))
  ∧ st.1.1 = parameterStore
  ∧ NMABootstrapCatalogOp.marshaledRequestBodyMap st.1.2 !! hostA
    = Some (NMABootstrapCatalogOp.marshal parameterStore
              (unmaskedBody op hostA (profileOf hostA)))
  ∧ NMABootstrapCatalogOp.marshaledRequestBodyMap st.1.2 !! hostB
    = Some (NMABootstrapCatalogOp.marshal parameterStore
              (unmaskedBody op hostB (profileOf hostB)))
  ∧ deref st.1.1 (NMABootstrapCatalogOp.Parameters
                    (unmaskedBody op hostB (profileOf hostB))) !! "AWSAuth"
    = Some "key:secret".
Proof.
  intros profiles op st.
  destruct (masking_leaves_marshaled_bodies
              "NMABootstrapCatalogOp" vdb options [hostA; hostB] parameterStore
              contextWithProfiles profiles (reflexivity _))
    as (Hstore & Hbodies & _).
  fold op in Hstore, Hbodies. fold st in Hstore, Hbodies.
  assert (HinA : (hostA, profileOf hostA) ∈ profiles).
  { apply elem_of_map_to_list. reflexivity. }
  assert (HinB : (hostB, profileOf hostB) ∈ profiles).
  { apply elem_of_map_to_list. reflexivity. }
  split; [reflexivity |]. split; [exact Hstore |].
  split; [exact (proj1 (proj2 (Hbodies _ _ HinA))) |].
  split; [exact (proj1 (proj2 (Hbodies _ _ HinB))) |].
  rewrite Hstore. reflexivity.
Defined.

(** The theorem rests on the embedded [Parameters] being nil.  Were the
    embedded field to hold the shared map -- a state the constructor does not
    produce -- the masking pass for host A would write through it, and the
    body of host B, marshalled afterwards, would carry the placeholder. *)
Remark shared_embedded_map_would_be_masked :
  let shared d :=
    NMABootstrapCatalogOp.withSensitiveFields d
      {| Sensitive.DBPassword := "db-secret";
         Sensitive.AWSAccessKeyID := "AKIAEXAMPLE";
         Sensitive.AWSSecretAccessKey := "aws-secret";
         Sensitive.Parameters := Some 1%positive |} in
  let made := (NMABootstrapCatalogOp.MakeNMABootstrapCatalogOp
                 "NMABootstrapCatalogOp" vdb options [hostA; hostB]).1 in
  let op := {| NMABootstrapCatalogOp.base := NMABootstrapCatalogOp.base made;
               NMABootstrapCatalogOp.hostRequestBodyMap :=
                 shared <$> NMABootstrapCatalogOp.hostRequestBodyMap made;
               NMABootstrapCatalogOp.marshaledRequestBodyMap := ∅ |} in
  let st := NMABootstrapCatalogOp.updateRequestBodyOver parameterStore op
              [(hostA, profileOf hostA); (hostB, profileOf hostB)] in
  deref st.1.1 (Some 1%positive) !! "AWSAuth" = Some "******"
  ∧ NMABootstrapCatalogOp.marshaledRequestBodyMap st.1.2 !! hostB
    ≠ Some (NMABootstrapCatalogOp.marshal parameterStore
              (unmaskedBody op hostB (profileOf hostB))).
Proof.
  intros shared made op st. split; [vm_compute; reflexivity |].
  vm_compute. discriminate.
Qed.

End Instances.

(* ===================================================================== *)
(** * Further properties: quorum and status *)
(* ===================================================================== *)

Section QuorumBounds.
Local Open Scope N_scope.

(** X1 -- over the whole range of [uint]: with the largest primary count the
    addition wraps to zero and every host count passes, zero hosts too;
    otherwise the check passes exactly from half the primaries, rounded up.
    A passing host count stays passing when it grows. *)
Theorem hasQuorum_whole_range (hostCount primaryNodeCount : N) :
  primaryNodeCount < uintModulus →
  (hasQuorum hostCount primaryNodeCount = true
   ↔ primaryNodeCount = uintModulus - 1
     ∨ (primaryNodeCount + 1) / 2 ≤ hostCount)
  ∧ (∀ more, hostCount ≤ more →
             hasQuorum hostCount primaryNodeCount = true →
             hasQuorum more primaryNodeCount = true).
Proof.
  intros Hrange.
  assert (Hmax : primaryNodeCount = uintModulus - 1 →
                 ∀ h, hasQuorum h primaryNodeCount = true).
  { intros -> h. unfold hasQuorum, uintAdd.
    replace (uintModulus - 1 + 1) with uintModulus by (vm_compute; reflexivity).
    rewrite N.Div0.mod_same. by destruct h. }
  destruct (decide (primaryNodeCount = uintModulus - 1)) as [Heq|Hne].
  - split; [split; [by left | intros _; by apply Hmax] |].
    intros more _ _. by apply Hmax.
  - assert (Hsmall : primaryNodeCount + 1 < uintModulus).
    { unfold uintModulus in *. lia. }
    split.
    + rewrite hasQuorum_threshold by done. split; [by right |].
      intros [?|?]; done.
    + intros more Hle. rewrite !hasQuorum_threshold by done. lia.
Qed.

Lemma hasQuorum_whole_range_witness :
  18446744073709551615 < uintModulus
  ∧ hasQuorum 0 18446744073709551615 = true
  ∧ hasQuorum 0 18446744073709551614 = false.
Proof.
  split; [reflexivity |].
  split; [| reflexivity].
  apply (proj1 (hasQuorum_whole_range 0 18446744073709551615 eq_refl)).
  left. reflexivity.
Defined.

(** X2 -- with an odd number of primaries two host counts that both pass add
    up to more than the primaries, so two passing groups of primaries share a
    node; with an even number [2k] a group of [k] passes, so the two halves
    of the primaries both pass. *)
Theorem hasQuorum_overlap (k : N) :
  2 * k + 2 < uintModulus →
  (∀ group1 group2,
     hasQuorum group1 (2 * k + 1) = true →
     hasQuorum group2 (2 * k + 1) = true →
     2 * k + 1 < group1 + group2)
  ∧ hasQuorum k (2 * k) = true
  ∧ hasQuorum (2 * k - k) (2 * k) = true.
Proof.
  intros Hrange. split; [| split].
  - intros group1 group2.
    rewrite !hasQuorum_odd by done. unfold documentedQuorumCount.
    replace (2 * k + 1) with (1 + k * 2) by lia.
    rewrite N.div_add by done. change (1 / 2) with 0. lia.
  - apply hasQuorum_even; lia.
  - replace (2 * k - k) with k by lia. apply hasQuorum_even; lia.
Qed.

Lemma hasQuorum_overlap_witness :
  2 * 2 + 2 < uintModulus
  ∧ hasQuorum 2 4 = true
  ∧ (hasQuorum 3 5 = true → hasQuorum 2 5 = true → 5 < 3 + 2).
Proof.
  split; [reflexivity |].
  destruct (hasQuorum_overlap 2 eq_refl) as (Hodd & Heven & _).
  split; [exact Heven | exact (Hodd 3 2)].
Defined.

End QuorumBounds.

Section StatusStrings.

(** X3 -- [getStatusString] has two values: "FAILURE" for the failure status
    and for the exception status alike, "SUCCESS" for every other status
    value, also one that is none of the three named ones. *)
Theorem getStatusString_two_values (st : resultStatus) :
  (getStatusString st = "FAILURE" ↔ st = FAILURE ∨ st = EXCEPTION)
  ∧ (getStatusString st = "SUCCESS" ↔ st ≠ FAILURE ∧ st ≠ EXCEPTION).
Proof.
  unfold getStatusString.
  case_bool_decide as H1; [| case_bool_decide as H2].
  - subst st. split; [by intuition |]. split; [done | by intros [? _]].
  - subst st. split; [by intuition |]. split; [done | by intros [_ ?]].
  - split; [split; [done | by intros [?|?]] | by intuition].
Qed.

End StatusStrings.

(* ===================================================================== *)
(** * Further properties: requests, certificates and the adapter pool *)
(* ===================================================================== *)

Section FreshRequests.

Lemma assignAll_fresh mk b hs :
  ∃ b', assignAll mk (setupBasicInfo b) hs = Done b'
        ∧ hosts b' = hosts b
        ∧ ∀ h, requestFor b' h = if decide (h ∈ hs) then Some (mk h) else None.
Proof.
  destruct (assignAll_total mk (setupBasicInfo b) hs) as [b' Hrun];
    [by eexists |].
  exists b'. split; [done |].
  apply assignAll_spec in Hrun as [Hhosts Hreq]. split; [done |].
  intros h. rewrite Hreq. destruct (decide (h ∈ hs)); [done |].
  apply setupBasicInfo_requestFor.
Qed.

Lemma size_zero_no_request b rc :
  RequestCollection (clusterHTTPRequestOf b) = Some rc →
  size rc = 0 ↔ ∀ h, requestFor b h = None.
Proof.
  intros Hrc. rewrite map_size_empty_iff. unfold requestFor. rewrite Hrc.
  cbn [mbind option_bind]. split.
  - intros -> h. apply lookup_empty.
  - intros Hall. by apply map_empty.
Qed.

(** X4 -- [loadCertsIfNeeded]: without the flag nothing happens; with the
    flag and no request stored (a nil or an empty collection) the op is left
    as it is and the error names the op; with the flag and some request
    stored the error is nil, the host list and the set of hosts with a request
    are the same, and every request keeps its method, endpoint, query
    parameters, body and credentials and gets the certificates. *)
Theorem loadCertsIfNeeded_cases (op : opBase) (certs : httpsCerts) :
  loadCertsIfNeeded op certs false = (op, None)
  ∧ ((∀ h, requestFor op h = None) →
     loadCertsIfNeeded op certs true
     = (op, Some (errorString ("[" ++ name op
                               ++ "] has not set up a http request"))))
  ∧ ((∃ h, is_Some (requestFor op h)) →
     (loadCertsIfNeeded op certs true).2 = None
     ∧ hosts (loadCertsIfNeeded op certs true).1 = hosts op
     ∧ ∀ h,
         match requestFor (loadCertsIfNeeded op certs true).1 h with
         | None => requestFor op h = None
         | Some req' =>
             ∃ req, requestFor op h = Some req
                    ∧ UseCertsInOptions req' = true ∧ Certs req' = certs
                    ∧ Method req' = Method req ∧ Endpoint req' = Endpoint req
                    ∧ QueryParams req' = QueryParams req
                    ∧ RequestData req' = RequestData req
                    ∧ Username req' = Username req
                    ∧ Password req' = Password req
         end).
Proof.
  split; [reflexivity |]. split.
  - intros Hnone. unfold loadCertsIfNeeded. cbn [negb].
    destruct (RequestCollection (clusterHTTPRequestOf op)) as [rc|] eqn:Hrc;
      [| done].
    rewrite bool_decide_eq_true_2; [done |].
    by apply (size_zero_no_request op rc).
  - intros [h0 Hsome]. unfold loadCertsIfNeeded. cbn [negb].
    destruct (RequestCollection (clusterHTTPRequestOf op)) as [rc|] eqn:Hrc.
    + rewrite bool_decide_eq_false_2.
      * cbn [fst snd]. split; [done |]. split; [done |]. intros h.
        rewrite requestFor_withRequestCollection. cbn [mbind option_bind].
        rewrite lookup_fmap. unfold requestFor. rewrite Hrc.
        cbn [mbind option_bind].
        destruct (rc !! h) as [req|]; cbn; [| done].
        exists req. by repeat split.
      * intros Hzero.
        pose proof (proj1 (size_zero_no_request op rc Hrc) Hzero h0) as Hno.
        rewrite Hno in Hsome. by apply is_Some_None in Hsome.
    + unfold requestFor in Hsome. rewrite Hrc in Hsome.
      by apply is_Some_None in Hsome.
Qed.

Lemma loadCertsIfNeeded_cases_witness :
  let rc := {[ Sample.hostA := setMethod zeroHostHTTPRequest GetMethod ]} in
  let op := withRequestCollection (Sample.baseWithResults "Op" []) (Some rc) in
  let certs := {| key := "k"; cert := "c"; caCert := "ca" |} in
  (∃ h, is_Some (requestFor op h))
  ∧ (loadCertsIfNeeded op certs true).2 = None
  ∧ (∀ h, requestFor (withRequestCollection op (Some ∅)) h = None)
  ∧ loadCertsIfNeeded (withRequestCollection op (Some ∅)) certs true
    = (withRequestCollection op (Some ∅),
       Some (errorString "[Op] has not set up a http request")).
Proof.
  intros rc op certs.
  assert (Hsome : ∃ h, is_Some (requestFor op h)).
  { exists Sample.hostA. vm_compute. eauto. }
  assert (Hnone : ∀ h, requestFor (withRequestCollection op (Some ∅)) h = None).
  { intros h. apply lookup_empty. }
  split; [exact Hsome |].
  split; [exact (proj1 (proj2 (proj2 (loadCertsIfNeeded_cases op certs)) Hsome)) |].
  split; [exact Hnone |].
  exact (proj1 (proj2 (loadCertsIfNeeded_cases
                         (withRequestCollection op (Some ∅)) certs)) Hnone).
Defined.

(** X5 -- [Dispatcher.setup] rebuilds the pool from nothing: afterwards there
    is an adapter for a host exactly when the host is in the list, it is a
    plain adapter bound to that host, and whatever adapters the pool held
    before are gone. *)
Theorem setup_one_adapter_per_host (d : requestDispatcher) (hs : list string)
  (h : string) :
  connections (Dispatcher.setup d hs) !! h
  = if decide (h ∈ hs)
    then Some {| adapterHost := h; downloadPath := None |}
    else None.
Proof.
  unfold Dispatcher.setup. cbn [connections].
  assert (Hgen : ∀ conns : gmap string adapter,
             foldl (λ conns host,
                      <[host := {| adapterHost := host; downloadPath := None |}]>
                        conns) conns hs !! h
             = if decide (h ∈ hs)
               then Some {| adapterHost := h; downloadPath := None |}
               else conns !! h).
  { induction hs as [|host rest IH]; intros conns; cbn [foldl].
    - by rewrite decide_False by apply not_elem_of_nil.
    - rewrite IH. destruct (decide (h ∈ rest)) as [Hin|Hnin].
      + by rewrite decide_True by (by right).
      + destruct (decide (h = host)) as [->|Hne].
        * rewrite decide_True by left. apply lookup_insert_eq.
        * rewrite lookup_insert_ne by done. rewrite decide_False; [done |].
          intros [?|?]%elem_of_cons; done. }
  rewrite Hgen. destruct (decide (h ∈ hs)); [done | apply lookup_empty].
Qed.

End FreshRequests.

Section PreparedRequests.

(** The requests of the find-subcluster op after the set-up of the basic
    info and [prepare]. *)
Lemma find_prepare_fresh (op : HTTPSFindSubclusterOp.t)
  (ctx : opEngineExecContext) :
  ∃ op',
    HTTPSFindSubclusterOp.prepare
      (HTTPSFindSubclusterOp.withBase op
         (setupBasicInfo (HTTPSFindSubclusterOp.base op))) ctx
    = Done (op',
            withDispatcher ctx
              (Dispatcher.setup (dispatcher ctx)
                                (hosts (HTTPSFindSubclusterOp.base op))),
            None)
    ∧ hosts (HTTPSFindSubclusterOp.base op')
      = hosts (HTTPSFindSubclusterOp.base op)
    ∧ HTTPSFindSubclusterOp.scName op' = HTTPSFindSubclusterOp.scName op
    ∧ HTTPSFindSubclusterOp.ignoreNotFound op'
      = HTTPSFindSubclusterOp.ignoreNotFound op
    ∧ HTTPSFindSubclusterOp.httpsBase op' = HTTPSFindSubclusterOp.httpsBase op
    ∧ ∀ h,
        match requestFor (HTTPSFindSubclusterOp.base op') h with
        | None => h ∉ hosts (HTTPSFindSubclusterOp.base op)
        | Some req =>
            h ∈ hosts (HTTPSFindSubclusterOp.base op)
            ∧ Method req = "GET" ∧ RequestData req = ""
            ∧ QueryParams req = ∅ ∧ UseCertsInOptions req = false
            ∧ Username req
              = (if useHTTPPassword (HTTPSFindSubclusterOp.httpsBase op)
                 then userName (HTTPSFindSubclusterOp.httpsBase op) else "")
            ∧ Password req
              = (if useHTTPPassword (HTTPSFindSubclusterOp.httpsBase op)
                 then httpsPassword (HTTPSFindSubclusterOp.httpsBase op)
                 else None)
        end.
Proof.
  set (op1 := HTTPSFindSubclusterOp.withBase op
                (setupBasicInfo (HTTPSFindSubclusterOp.base op))).
  destruct (assignAll_fresh (findRequest op1) (HTTPSFindSubclusterOp.base op)
              (hosts (HTTPSFindSubclusterOp.base op)))
    as (b' & Hrun & Hhosts & Hreq).
  exists (HTTPSFindSubclusterOp.withBase op1 b').
  split.
  - unfold HTTPSFindSubclusterOp.prepare. rewrite find_setup_assignAll.
    subst op1. cbn [HTTPSFindSubclusterOp.base HTTPSFindSubclusterOp.withBase].
    cbn [HTTPSFindSubclusterOp.base HTTPSFindSubclusterOp.withBase] in Hrun.
    change (hosts (setupBasicInfo (HTTPSFindSubclusterOp.base op)))
      with (hosts (HTTPSFindSubclusterOp.base op)).
    by rewrite Hrun.
  - split; [exact Hhosts |]. repeat (split; [reflexivity |]).
    intros h. cbn [HTTPSFindSubclusterOp.base HTTPSFindSubclusterOp.withBase].
    rewrite Hreq.
    destruct (decide (h ∈ hosts (HTTPSFindSubclusterOp.base op))); [| done].
    split; [done |]. unfold findRequest. subst op1.
    cbn [HTTPSFindSubclusterOp.httpsBase HTTPSFindSubclusterOp.withBase].
    by destruct (useHTTPPassword (HTTPSFindSubclusterOp.httpsBase op)).
Qed.

(** X6 -- the find-subcluster op, from any state (stale requests and results
    included): once the basic info is set up, [prepare] returns nil, changes
    nothing of the context but the dispatcher's pool, keeps the op's own
    fields, and leaves a request exactly for the listed hosts; each is a GET
    without body, query parameters or certificates, which carries the user
    name and password when password authentication is on and no credentials
    when it is off. *)
Theorem find_prepare_requests (op : HTTPSFindSubclusterOp.t)
  (ctx : opEngineExecContext) :
  ∃ op',
    HTTPSFindSubclusterOp.prepare
      (HTTPSFindSubclusterOp.withBase op
         (setupBasicInfo (HTTPSFindSubclusterOp.base op))) ctx
    = Done (op',
            withDispatcher ctx
              (Dispatcher.setup (dispatcher ctx)
                                (hosts (HTTPSFindSubclusterOp.base op))),
            None)
    ∧ hosts (HTTPSFindSubclusterOp.base op')
      = hosts (HTTPSFindSubclusterOp.base op)
    ∧ HTTPSFindSubclusterOp.scName op' = HTTPSFindSubclusterOp.scName op
    ∧ HTTPSFindSubclusterOp.ignoreNotFound op'
      = HTTPSFindSubclusterOp.ignoreNotFound op
    ∧ HTTPSFindSubclusterOp.httpsBase op' = HTTPSFindSubclusterOp.httpsBase op
    ∧ ∀ h,
        match requestFor (HTTPSFindSubclusterOp.base op') h with
        | None => h ∉ hosts (HTTPSFindSubclusterOp.base op)
        | Some req =>
            h ∈ hosts (HTTPSFindSubclusterOp.base op)
            ∧ Method req = "GET" ∧ RequestData req = ""
            ∧ QueryParams req = ∅ ∧ UseCertsInOptions req = false
            ∧ Username req
              = (if useHTTPPassword (HTTPSFindSubclusterOp.httpsBase op)
                 then userName (HTTPSFindSubclusterOp.httpsBase op) else "")
            ∧ Password req
              = (if useHTTPPassword (HTTPSFindSubclusterOp.httpsBase op)
                 then httpsPassword (HTTPSFindSubclusterOp.httpsBase op)
                 else None)
        end.
Proof. apply find_prepare_fresh. Qed.

(** X7 -- the network-profile op, from any state: once the basic info is set
    up, [prepare] returns nil and leaves a request exactly for the listed
    hosts; the request of a host is a GET whose only query parameter is the
    broadcast hint, set to that host itself, with no body and no credentials. *)
Theorem profile_prepare_requests (op : NMANetworkProfileOp.t)
  (ctx : opEngineExecContext) :
  ∃ op',
    NMANetworkProfileOp.prepare
      (NMANetworkProfileOp.withBase op
         (setupBasicInfo (NMANetworkProfileOp.base op))) ctx
    = Done (op',
            withDispatcher ctx
              (Dispatcher.setup (dispatcher ctx)
                                (hosts (NMANetworkProfileOp.base op))),
            None)
    ∧ hosts (NMANetworkProfileOp.base op') = hosts (NMANetworkProfileOp.base op)
    ∧ ∀ h,
        match requestFor (NMANetworkProfileOp.base op') h with
        | None => h ∉ hosts (NMANetworkProfileOp.base op)
        | Some req =>
            h ∈ hosts (NMANetworkProfileOp.base op)
            ∧ Method req = "GET"
            ∧ QueryParams req = {[ "broadcast-hint" := h ]}
            ∧ RequestData req = "" ∧ Username req = "" ∧ Password req = None
            ∧ UseCertsInOptions req = false
        end.
Proof.
  set (op1 := NMANetworkProfileOp.withBase op
                (setupBasicInfo (NMANetworkProfileOp.base op))).
  destruct (assignAll_fresh (profileRequest op1) (NMANetworkProfileOp.base op)
              (hosts (NMANetworkProfileOp.base op)))
    as (b' & Hrun & Hhosts & Hreq).
  exists (NMANetworkProfileOp.withBase op1 b').
  split.
  - unfold NMANetworkProfileOp.prepare. rewrite np_setup_assignAll.
    subst op1. cbn [NMANetworkProfileOp.base NMANetworkProfileOp.withBase].
    cbn [NMANetworkProfileOp.base NMANetworkProfileOp.withBase] in Hrun.
    change (hosts (setupBasicInfo (NMANetworkProfileOp.base op)))
      with (hosts (NMANetworkProfileOp.base op)).
    by rewrite Hrun.
  - split; [exact Hhosts |].
    intros h. cbn [NMANetworkProfileOp.base NMANetworkProfileOp.withBase].
    rewrite Hreq.
    destruct (decide (h ∈ hosts (NMANetworkProfileOp.base op))); done.
Qed.

Lemma certsNeedHosts_assignAll {Op : Type} (baseOf : Op → opBase)
  (withBaseOf : Op → opBase → Op) prepareOf
  (mk : Op → string → hostHTTPRequest) :
  (∀ op b, baseOf (withBaseOf op b) = b) →
  (∀ op ctx, ∃ ctx1,
     prepareOf op ctx
     = match assignAll (mk op) (baseOf op) (hosts (baseOf op)) with
       | Panic => Panic
       | Done b => Done (withBaseOf op b, ctx1, None)
       end) →
  certsNeedHosts baseOf withBaseOf prepareOf.
Proof.
  intros Hbase Hprep op ctx op' ctx' e certs Hrun. cbv zeta.
  destruct (Hprep (withBaseOf op (setupBasicInfo (baseOf op))) ctx)
    as [ctx1 Heq].
  rewrite Heq in Hrun. clear Heq. rewrite Hbase in Hrun.
  destruct (assignAll_fresh (mk (withBaseOf op (setupBasicInfo (baseOf op))))
              (baseOf op) (hosts (baseOf op))) as (b' & Hassign & Hhosts & Hreq).
  change (hosts (setupBasicInfo (baseOf op))) with (hosts (baseOf op)) in Hrun.
  rewrite Hassign in Hrun. injection Hrun as <- <- <-.
  rewrite Hbase.
  destruct (loadCertsIfNeeded_cases b' certs) as (_ & Hempty & Hfull).
  destruct (hosts (baseOf op)) as [|h0 rest] eqn:Hhs.
  - assert (Hnone : ∀ h, requestFor b' h = None).
    { intros h. rewrite Hreq. by rewrite decide_False by apply not_elem_of_nil. }
    specialize (Hempty Hnone). rewrite Hempty. cbn [fst snd].
    split; [split; [done | by intros []] |].
    split; [done |]. by intros h Hin%elem_of_nil.
  - assert (Hsome : ∃ h, is_Some (requestFor b' h)).
    { exists h0. rewrite Hreq, decide_True by left. by eexists. }
    destruct (Hfull Hsome) as (Hnil & _ & Hall).
    split; [split; [done | by intros _] |].
    split; [by intros [] |].
    intros h Hin. specialize (Hall h).
    destruct (requestFor (loadCertsIfNeeded b' certs true).1 h)
      as [req'|] eqn:Hl.
    + destruct Hall as (req & _ & Hu & Hc & _). by exists req'.
    + rewrite Hreq, decide_True in Hall by done. done.
Qed.

(** X8 -- for the find-subcluster, delete-directories and network-profile
    ops: loading certificates after the basic info was set up and the op
    prepared fails exactly when the op has no host, in which case the op is
    left as prepared; otherwise the request of every listed host uses the
    certificates given. *)
Theorem certs_after_prepare :
  certsNeedHosts HTTPSFindSubclusterOp.base HTTPSFindSubclusterOp.withBase
                 HTTPSFindSubclusterOp.prepare
  ∧ certsNeedHosts NMADeleteDirectoriesOp.base NMADeleteDirectoriesOp.withBase
                   NMADeleteDirectoriesOp.prepare
  ∧ certsNeedHosts NMANetworkProfileOp.base NMANetworkProfileOp.withBase
                   NMANetworkProfileOp.prepare.
Proof.
  split; [| split].
  - apply (certsNeedHosts_assignAll _ _ _ findRequest); [done |].
    intros op ctx. eexists. unfold HTTPSFindSubclusterOp.prepare.
    rewrite find_setup_assignAll. by destruct (assignAll _ _ _).
  - apply (certsNeedHosts_assignAll _ _ _ deleteRequest); [done |].
    intros op ctx. eexists. unfold NMADeleteDirectoriesOp.prepare.
    rewrite delete_setup_assignAll. by destruct (assignAll _ _ _).
  - apply (certsNeedHosts_assignAll _ _ _ profileRequest); [done |].
    intros op ctx. eexists. unfold NMANetworkProfileOp.prepare.
    rewrite np_setup_assignAll. by destruct (assignAll _ _ _).
Qed.

Lemma certs_after_prepare_witness :
  let made := NMANetworkProfileOp.makeNMANetworkProfileOp [] in
  let op := NMANetworkProfileOp.withBase made
              (setupBasicInfo (NMANetworkProfileOp.base made)) in
  let certs := {| key := "k"; cert := "c"; caCert := "ca" |} in
  ∃ op' ctx',
    NMANetworkProfileOp.prepare op makeOpEngineExecContext
    = Done (op', ctx', None)
    ∧ (loadCertsIfNeeded (NMANetworkProfileOp.base op') certs true).2
      = Some (errorString "[NMANetworkProfileOp] has not set up a http request").
Proof.
  intros made op certs. eexists _, _. split; [reflexivity |].
  pose proof (proj2 (proj2 certs_after_prepare) made makeOpEngineExecContext
                _ _ _ certs eq_refl) as (Hiff & _ & _).
  cbv zeta in Hiff.
  destruct (loadCertsIfNeeded _ certs true).2 as [e|] eqn:He.
  - vm_compute in He. by injection He as <-.
  - exfalso. by apply (proj1 Hiff).
Defined.

End PreparedRequests.

Section DeleteRequests.
Context `{GoLib}.
Context (filepathJoin : string → string → string).
Import NMADeleteDirectoriesOp.

Lemma foldl_insert_lookup {A B : Type} (f : A → B) (l : list (string * A))
  (acc : gmap string B) (h : string) :
  NoDup l.*1 →
  foldl (λ m kv, <[kv.1 := f kv.2]> m) acc l !! h
  = match (list_to_map l : gmap string A) !! h with
    | Some v => Some (f v)
    | None => acc !! h
    end.
Proof.
  revert acc. induction l as [|[k v] l IH]; intros acc Hnd; [done |].
  cbn [fmap list_fmap fst] in Hnd. apply NoDup_cons in Hnd as [Hnin Hnd].
  cbn [foldl list_to_map foldr fst snd uncurry]. rewrite IH by done.
  destruct (decide (h = k)) as [->|Hne].
  - rewrite (not_elem_of_list_to_map_1 (M := gmap string) l k Hnin).
    by rewrite !lookup_insert_eq.
  - rewrite !lookup_insert_ne by done. reflexivity.
Qed.

Lemma buildRequestBody_lookup (op : t) vdb forceDelete h :
  hostRequestBodyMap (buildRequestBody filepathJoin op vdb forceDelete).1 !! h
  = (λ vnode, marshalParams (buildParams filepathJoin vdb forceDelete vnode))
      <$> HostNodeMap vdb !! h.
Proof.
  unfold buildRequestBody. cbn [fst hostRequestBodyMap].
  rewrite (foldl_insert_lookup
             (λ vnode, marshalParams
                         (buildParams filepathJoin vdb forceDelete vnode)))
    by apply NoDup_fst_map_to_list.
  rewrite list_to_map_to_list, lookup_empty.
  by destruct (HostNodeMap vdb !! h).
Qed.

(** X9 -- [buildRequestBody] never fails and stores one body per node of the
    database, for exactly the hosts of [HostNodeMap], whatever the map held
    before and whatever order the nodes come in.  The directories of a body
    are the node's catalog path, its storage locations, with a depot the
    node's depot path and the database depot directory, and last the database
    catalog and data directories; the sandbox flag is off. *)
Theorem buildRequestBody_one_body_per_node (op : t)
  (vdb : VCoordinationDatabase) (forceDelete : bool) :
  (buildRequestBody filepathJoin op vdb forceDelete).2 = None
  ∧ base (buildRequestBody filepathJoin op vdb forceDelete).1 = base op
  ∧ (∀ h,
       hostRequestBodyMap (buildRequestBody filepathJoin op vdb forceDelete).1
         !! h
       = (λ vnode, marshalParams (buildParams filepathJoin vdb forceDelete vnode))
           <$> HostNodeMap vdb !! h)
  ∧ (∀ vnode,
       Directories (buildParams filepathJoin vdb forceDelete vnode)
       = (vnCatalogPath vnode :: vnStorageLocations vnode
          ++ (if UseDepot vdb
              then [vnDepotPath vnode;
                    filepathJoin (DepotPrefix vdb) (vdbName vdb)]
              else [])
          ++ [filepathJoin (CatalogPrefix vdb) (vdbName vdb);
              filepathJoin (DataPrefix vdb) (vdbName vdb)])%list
       ∧ ForceDelete (buildParams filepathJoin vdb forceDelete vnode)
         = forceDelete
       ∧ Sandbox (buildParams filepathJoin vdb forceDelete vnode) = false).
Proof.
  split; [reflexivity |]. split; [reflexivity |].
  split; [apply buildRequestBody_lookup |].
  intros vnode. unfold buildParams. cbn [Directories ForceDelete Sandbox].
  split; [| done].
  destruct (UseDepot vdb); cbn [app]; by rewrite <- ?app_assoc.
Qed.

(** X10 -- the delete-directories op made from a database, its basic info set
    up, prepared: the op is made without error, [prepare] returns nil, and
    there is a request exactly for the hosts of the database's host list.
    Each is a POST without credentials; its body is the marshalled
    directories of the host's node, and the empty string for a host of the
    list that [HostNodeMap] does not hold.  A node whose host is not in the
    list gets no request. *)
Theorem delete_requests_from_database (vdb : VCoordinationDatabase)
  (forceDelete : bool) (ctx : opEngineExecContext) :
  let made := (makeNMADeleteDirectoriesOp filepathJoin vdb forceDelete).1 in
  (makeNMADeleteDirectoriesOp filepathJoin vdb forceDelete).2 = None
  ∧ ∃ op',
      prepare (withBase made (setupBasicInfo (base made))) ctx
      = Done (op',
              withDispatcher ctx
                (Dispatcher.setup (dispatcher ctx) (HostList vdb)),
              None)
      ∧ ∀ h,
          match requestFor (base op') h with
          | None => h ∉ HostList vdb
          | Some req =>
              h ∈ HostList vdb
              ∧ Method req = "POST"
              ∧ RequestData req
                = match HostNodeMap vdb !! h with
                  | Some vnode =>
                      marshalParams
                        (buildParams filepathJoin vdb forceDelete vnode)
                  | None => ""
                  end
              ∧ QueryParams req = ∅ ∧ Username req = ""
              ∧ Password req = None ∧ UseCertsInOptions req = false
          end.
Proof.
  intros made. split; [reflexivity |].
  set (op1 := withBase made (setupBasicInfo (base made))).
  assert (Hhs : hosts (base made) = HostList vdb) by reflexivity.
  destruct (assignAll_fresh (deleteRequest op1) (base made) (HostList vdb))
    as (b' & Hrun & Hhosts & Hreq).
  exists (withBase op1 b'). split.
  - unfold prepare. rewrite delete_setup_assignAll.
    subst op1. cbn [base withBase]. cbn [base withBase] in Hrun.
    change (hosts (setupBasicInfo (base made))) with (HostList vdb).
    by rewrite Hrun.
  - intros h. cbn [base withBase]. rewrite Hreq.
    destruct (decide (h ∈ HostList vdb)); [| done].
    split; [done |]. split; [done |]. split; [| done].
    unfold deleteRequest. cbn [RequestData setRequestData].
    subst op1. cbn [hostRequestBodyMap withBase]. subst made.
    unfold makeNMADeleteDirectoriesOp. rewrite buildRequestBody_lookup.
    by destruct (HostNodeMap vdb !! h).
Qed.

End DeleteRequests.

Section FindCredentials.
Context `{UtilPkg}.

(** X11 -- the find-subcluster op from its constructor to its requests.  The
    constructor's error is the one of the user-name validation, which is only
    run with password authentication on; the flag is stored as given.  After
    the set-up of the basic info and [prepare], with authentication on and a
    valid user name every request carries the user name and password given;
    with authentication off, or when validation failed, every request
    carries an empty user name and no password. *)
Theorem find_credentials_follow_flag (hs : list string) (usePw : bool)
  (user : string) (pw : option string) (sc : string) (ign : bool)
  (ctx : opEngineExecContext) :
  let made := makeHTTPSFindSubclusterOp hs usePw user pw sc ign in
  made.2 = (if usePw
            then ValidateUsernameAndPassword "HTTPSFindSubclusterOp" true user
            else None)
  ∧ useHTTPPassword (HTTPSFindSubclusterOp.httpsBase made.1) = usePw
  ∧ ∃ op',
      HTTPSFindSubclusterOp.prepare
        (HTTPSFindSubclusterOp.withBase made.1
           (setupBasicInfo (HTTPSFindSubclusterOp.base made.1))) ctx
      = Done (op',
              withDispatcher ctx (Dispatcher.setup (dispatcher ctx) hs), None)
      ∧ (∀ h, is_Some (requestFor (HTTPSFindSubclusterOp.base op') h) ↔ h ∈ hs)
      ∧ ∀ h req,
          requestFor (HTTPSFindSubclusterOp.base op') h = Some req →
          if usePw && bool_decide (made.2 = None)
          then Username req = user ∧ Password req = pw
          else Username req = "" ∧ Password req = None.
Proof.
  intros made.
  assert (Hmade : made.2 = (if usePw
                            then ValidateUsernameAndPassword
                                   "HTTPSFindSubclusterOp" true user
                            else None)
                  ∧ HTTPSFindSubclusterOp.base made.1
                    = {| name := "HTTPSFindSubclusterOp"; hosts := hs;
                         clusterHTTPRequestOf := zeroClusterHTTPRequest;
                         skipExecute := false |}
                  ∧ HTTPSFindSubclusterOp.httpsBase made.1
                    = if usePw && bool_decide (made.2 = None)
                      then {| useHTTPPassword := true; httpsPassword := pw;
                              userName := user |}
                      else {| useHTTPPassword := usePw; httpsPassword := None;
                              userName := "" |}).
  { subst made. unfold makeHTTPSFindSubclusterOp,
      validateAndSetUsernameAndPassword.
    cbn [useHTTPPassword httpsPassword userName name].
    destruct usePw; [| done].
    by destruct (ValidateUsernameAndPassword "HTTPSFindSubclusterOp" true user). }
  destruct Hmade as (Herr & Hbase & Hhttps).
  split; [exact Herr |]. split.
  { rewrite Hhttps. by destruct usePw, (bool_decide (made.2 = None)). }
  destruct (find_prepare_fresh made.1 ctx) as (op' & Hrun & _ & _ & _ & _ & Hreq).
  exists op'. rewrite Hbase in Hrun, Hreq. cbn [hosts] in Hrun, Hreq.
  rewrite <- Hbase in Hrun.
  split; [exact Hrun |]. split.
  - intros h. specialize (Hreq h).
    destruct (requestFor (HTTPSFindSubclusterOp.base op') h) as [req|].
    + split; [by intros _; apply Hreq | by eexists].
    + split; [by intros []%is_Some_None | done].
  - intros h req Hl. specialize (Hreq h). rewrite Hl in Hreq.
    destruct Hreq as (_ & _ & _ & _ & _ & Hu & Hp).
    rewrite Hhttps in Hu, Hp.
    destruct (usePw && bool_decide (made.2 = None)) eqn:Hb.
    + done.
    + destruct usePw; done.
Qed.

End FindCredentials.

(* ===================================================================== *)
(** * Further properties: when [processResult] returns nil *)
(* ===================================================================== *)

Section NilResults.
Context `{JSONTarget opResponseMap} `{JSONTarget SCResp}.

Lemma concat_nil_Forall {A B : Type} (f : A → list B) (l : list A) :
  concat (map f l) = [] ↔ Forall (λ x, f x = []) l.
Proof.
  induction l as [|x l IH]; cbn [map concat].
  - split; [constructor | done].
  - split.
    + intros [Hx Hl]%app_eq_nil. constructor; [done | by apply IH].
    + intros [Hx Hl]%Forall_cons. rewrite Hx. by apply IH.
Qed.

Lemma joinAll_None_iff (es : list errorValue) : joinAll None es = None ↔ es = [].
Proof.
  split; [by intros [_ ?]%joinAll_nil_inv | by intros ->].
Qed.

(** X12 -- the delete-directories op returns nil exactly when every host
    passed and every content was decoded; one failing host or one content
    that is not decodable makes the result non-nil. *)
Theorem delete_processResult_nil_iff (op : NMADeleteDirectoriesOp.t)
  (ctx : opEngineExecContext) :
  NMADeleteDirectoriesOp.processResult op ctx = None
  ↔ Forall (λ hr, isPassing hr.2 = true
                  ∧ ∃ m, parseAndCheckMapResponse
                           (NMADeleteDirectoriesOp.base op) hr.1 (content hr.2)
                         = inr m)
           (ResultCollection
              (clusterHTTPRequestOf (NMADeleteDirectoriesOp.base op))).
Proof.
  unfold NMADeleteDirectoriesOp.processResult.
  rewrite delete_processResultFrom, joinAll_None_iff, concat_nil_Forall.
  apply Forall_proper; [| done]. intros [host r].
  unfold deleteContribution. cbn [fst snd].
  destruct (isPassing r) eqn:Hp.
  - destruct (parseAndCheckMapResponse _ host (content r)) as [e|m].
    + split; [done | by intros [_ [? ?]]].
    + split; [by eauto | done].
  - apply isPassing_false_iff in Hp as [e He]. rewrite He. cbn.
    split; [done | by intros [? _]].
Qed.

(** X13 -- the scrutinize op returns nil exactly when every host either
    passed or failed with status code 500. *)
Theorem tar_processResult_nil_iff (op : NMAGetScrutinizeTarOp.t)
  (ctx : opEngineExecContext) :
  NMAGetScrutinizeTarOp.processResult op ctx = None
  ↔ Forall (λ hr, isPassing hr.2 = true ∨ statusCode hr.2 = 500%Z)
           (ResultCollection
              (clusterHTTPRequestOf (NMAGetScrutinizeTarOp.base op))).
Proof.
  unfold NMAGetScrutinizeTarOp.processResult.
  rewrite tar_processResultFrom, joinAll_None_iff, concat_nil_Forall.
  apply Forall_proper; [| done]. intros [host r].
  unfold tarContribution. cbn [fst snd]. rewrite <- isInternalError_iff.
  destruct (isPassing r) eqn:Hp; [by intuition |].
  destruct (isInternalError r); [by intuition |].
  apply isPassing_false_iff in Hp as [e He]. rewrite He.
  split; [done | by intros [?|?]].
Qed.

End NilResults.

(* ===================================================================== *)
(** * Further properties: the find-subcluster op beyond its first answer *)
(* ===================================================================== *)

Section FindSubclusterOutcomes.
Context `{JSONTarget SCResp}.
Import HTTPSFindSubclusterOp.

Lemma scan_no_default (op : t) l fn ctx :
  (∀ d, d ∈ l → IsDefault d = false) →
  (scanSubclusters op l fn false ctx).1.2 = false
  ∧ (scanSubclusters op l fn false ctx).2 = ctx.
Proof.
  intros Hnone. split.
  - apply not_true_iff_false. rewrite scan_foundDefault.
    intros [?|(d & Hin & Hd)]; [done |]. by rewrite (Hnone d Hin) in Hd.
  - destruct (scan_context op l fn false ctx) as [?|(d & Hin & Hd & _)];
      [done |].
    by rewrite (Hnone d Hin) in Hd.
Qed.

Lemma processResultFrom_nil (op : t) acc ctx log rs ctx' log' :
  processResultFrom op acc ctx log rs = (None, ctx', log') →
  (acc = None ∧ rs = [] ∧ ctx' = ctx)
  ∨ (ctx' = ctx ∧ ∃ h r, (h, r) ∈ rs ∧ statusCode r = 401%Z ∧ err r = None)
  ∨ (∃ h r L d,
       (h, r) ∈ rs ∧ isPassing r = true
       ∧ parseAndCheckResponse (base op) h (content r) = inr {| SCInfoList := L |}
       ∧ d ∈ L ∧ IsDefault d = true
       ∧ ctx' = withDefaultSCName ctx (SCName d)
       ∧ (scName op = "" ∨ ignoreNotFound op = true
          ∨ ∃ e, e ∈ L ∧ SCName e = scName op)).
Proof.
  revert acc log. induction rs as [|[h r] rest IH]; intros acc log Hrun.
  - left. cbn in Hrun. by injection Hrun as -> -> _.
  - right. cbn [processResultFrom] in Hrun.
    destruct (isUnauthorizedRequest r) eqn:Hu.
    { injection Hrun as He <- _. left. split; [done |].
      exists h, r. split; [left |]. by apply isUnauthorizedRequest_iff in Hu. }
    destruct (isPassing r) eqn:Hp; cbn [negb] in Hrun.
    + destruct (parseAndCheckResponse (base op) h (content r)) as [e|[L]] eqn:Hparse.
      { exfalso. destruct (Join_is_Some acc (parseError op h e)) as [E HE].
        rewrite HE in Hrun. done. }
      cbn [SCInfoList] in Hrun.
      pose proof (scan_foundNamed op L false false ctx) as Hn.
      pose proof (scan_foundDefault op L false false ctx) as Hd.
      pose proof (scan_default_stored op L false ctx) as Hs.
      destruct (scanSubclusters op L false false ctx) as [[fn fd] ctx1].
      cbn [fst snd] in Hn, Hd, Hs.
      destruct (negb (bool_decide (scName op = "")) && negb (ignoreNotFound op)
                && negb fn) eqn:Hcond.
      { exfalso. destruct (Join_is_Some acc (notExistError op)) as [E HE].
        rewrite HE in Hrun. done. }
      destruct fd; cbn [negb] in Hrun.
      * injection Hrun as <- _. right.
        destruct (Hs eq_refl) as (d & Hin & Hdd & ->).
        exists h, r, L, d. split; [left |]. repeat (split; [done |]).
        apply andb_false_iff in Hcond as [[Hc|Hc]%andb_false_iff|Hc].
        -- left. apply negb_false_iff in Hc. by apply bool_decide_eq_true in Hc.
        -- right. left. by apply negb_false_iff in Hc.
        -- right. right. apply negb_false_iff in Hc.
           apply Hn in Hc as [?|?]; done.
      * exfalso. destruct (Join_is_Some acc (noDefaultError op)) as [E HE].
        rewrite HE in Hrun. done.
    + apply isPassing_false_iff in Hp as [e He]. rewrite He in Hrun.
      destruct (Join_is_Some acc e) as [E HE]. rewrite HE in Hrun.
      apply IH in Hrun as [(? & _)|[(-> & h' & r' & Hin & ?)|Hgood]]; [done | |].
      * left. split; [done |]. exists h', r'. split; [by right | done].
      * right. destruct Hgood as (h' & r' & L & d & Hin & Hrest).
        exists h', r', L, d. split; [by right | done].
Qed.

(** X14 -- what a nil result of the find-subcluster op means.  Either there
    was no result at all, or the loop came to a host with status code 401
    whose error is nil (in both cases the context is as before), or a passing
    host's content was decoded to a list with a default entry whose name is
    now the context's default subcluster name, and the name looked for was
    empty, ignored or in that list. *)
Theorem findSubcluster_nil_result (op : t) (ctx ctx' : opEngineExecContext)
  (log : list logEvent) :
  processResult op ctx = (None, ctx', log) →
  let results := ResultCollection (clusterHTTPRequestOf (base op)) in
  (results = [] ∧ ctx' = ctx)
  ∨ (ctx' = ctx
     ∧ ∃ h r, (h, r) ∈ results ∧ statusCode r = 401%Z ∧ err r = None)
  ∨ (∃ h r L d,
       (h, r) ∈ results ∧ isPassing r = true
       ∧ parseAndCheckResponse (base op) h (content r) = inr {| SCInfoList := L |}
       ∧ d ∈ L ∧ IsDefault d = true
       ∧ ctx' = withDefaultSCName ctx (SCName d)
       ∧ (scName op = "" ∨ ignoreNotFound op = true
          ∨ ∃ e, e ∈ L ∧ SCName e = scName op)).
Proof.
  intros Hrun results. unfold processResult in Hrun. fold results in Hrun.
  apply processResultFrom_nil in Hrun as [(_ & ? & ?)|[?|?]]; eauto.
Qed.

(** X15 -- a passing host whose content cannot be decoded ends the loop: the
    op returns the errors joined so far together with the parse error of that
    host, which wraps the decoder's error; the context is as before, and the
    hosts that remain are not examined, whatever they answered. *)
Theorem findSubcluster_parse_failure (op : t) (ctx : opEngineExecContext)
  (pre : list (string * hostHTTPResult)) (host : string)
  (result : hostHTTPResult) (rest : list (string * hostHTTPResult))
  (e : errorValue) :
  ResultCollection (clusterHTTPRequestOf (base op))
  = (pre ++ (host, result) :: rest)%list →
  Forall continues pre →
  isUnauthorizedRequest result = false →
  isPassing result = true →
  @parseAndCheckResponse SCResp _ (base op) host (content result) = inl e →
  ∃ E,
    processResult op ctx
    = (Some E, ctx,
       (map LogResponse pre.*1 ++ [LogResponse host; LogParse host])%list)
    ∧ occursIn e E
    ∧ occursIn (parseError op host e) E
    ∧ (∀ x, x ∈ failingErrors pre → occursIn x E).
Proof.
  intros Hrc Hpre Hu Hp Hparse.
  unfold processResult. rewrite Hrc.
  rewrite processResultFrom_continues by done.
  cbn [processResultFrom]. rewrite Hu, Hp. cbn [negb]. rewrite Hparse.
  cbn [app]. rewrite <- app_assoc. cbn [app].
  destruct (joinAll None (failingErrors pre)) as [A|] eqn:HA.
  - exists (joinError [A; parseError op host e]). split; [done |].
    split; [| split].
    + apply (occurs_join _ _ (parseError op host e)); [right; left |].
      apply occurs_wrap, occurs_here.
    + apply (occurs_join _ _ (parseError op host e)); [right; left |].
      apply occurs_here.
    + intros x Hx.
      destruct (joinAll_occurs (failingErrors pre) None x Hx) as (A' & HA' & Hocc).
      rewrite HA in HA'. injection HA' as <-.
      apply (occurs_join _ _ A); [left | exact Hocc].
  - exists (joinError [parseError op host e]). split; [done |].
    split; [| split].
    + apply (occurs_join _ _ (parseError op host e)); [left |].
      apply occurs_wrap, occurs_here.
    + apply (occurs_join _ _ (parseError op host e)); [left |].
      apply occurs_here.
    + intros x Hx. apply joinAll_None_iff in HA. rewrite HA in Hx.
      by apply elem_of_nil in Hx.
Qed.

(** X16 -- the first answering host's list has no default entry, and the
    name looked for is empty, ignored or in the list: the op returns the
    errors joined so far together with the cannot-find-a-default error, the
    context is as before, and no later host is examined, not even one whose
    list has a default entry. *)
Theorem findSubcluster_no_default (op : t) (ctx : opEngineExecContext)
  (pre : list (string * hostHTTPResult)) (host : string)
  (result : hostHTTPResult) (rest : list (string * hostHTTPResult))
  (L : list SubclusterInfo) :
  ResultCollection (clusterHTTPRequestOf (base op))
  = (pre ++ (host, result) :: rest)%list →
  Forall continues pre →
  isUnauthorizedRequest result = false →
  isPassing result = true →
  parseAndCheckResponse (base op) host (content result)
  = inr {| SCInfoList := L |} →
  (∀ d, d ∈ L → IsDefault d = false) →
  (scName op = "" ∨ ignoreNotFound op = true
   ∨ ∃ e, e ∈ L ∧ SCName e = scName op) →
  processResult op ctx
  = (Join [joinAll None (failingErrors pre); Some (noDefaultError op)], ctx,
     (map LogResponse pre.*1 ++ [LogResponse host; LogParse host])%list).
Proof.
  intros Hrc Hpre Hu Hp Hparse Hnone Hname.
  unfold processResult. rewrite Hrc.
  rewrite processResultFrom_continues by done.
  cbn [processResultFrom]. rewrite Hu, Hp. cbn [negb]. rewrite Hparse.
  cbn [SCInfoList app]. rewrite <- app_assoc. cbn [app].
  pose proof (scan_foundNamed op L false false ctx) as Hn.
  destruct (scan_no_default op L false ctx Hnone) as [Hfd Hctx].
  destruct (scanSubclusters op L false false ctx) as [[fn fd] ctx1].
  cbn [fst snd] in Hn, Hfd, Hctx. subst fd ctx1.
  assert (negb (bool_decide (scName op = "")) && negb (ignoreNotFound op)
          && negb fn = false) as ->.
  { destruct Hname as [Hempty|[Hign|Hfound]].
    - by rewrite bool_decide_eq_true_2.
    - rewrite Hign. by rewrite andb_false_r.
    - assert (fn = true) as -> by (apply Hn; by right).
      by rewrite andb_false_r. }
  done.
Qed.

(** X17 -- a failing op can still write to the context: when the first
    answering host's list lacks the name looked for (not empty, not ignored)
    but has a default entry, the op returns the does-not-exist error and the
    context already holds the name of a default entry of that list. *)
Theorem findSubcluster_not_found_keeps_default (op : t)
  (ctx : opEngineExecContext)
  (pre : list (string * hostHTTPResult)) (host : string)
  (result : hostHTTPResult) (rest : list (string * hostHTTPResult))
  (L : list SubclusterInfo) :
  ResultCollection (clusterHTTPRequestOf (base op))
  = (pre ++ (host, result) :: rest)%list →
  Forall continues pre →
  isUnauthorizedRequest result = false →
  isPassing result = true →
  parseAndCheckResponse (base op) host (content result)
  = inr {| SCInfoList := L |} →
  scName op ≠ "" → ignoreNotFound op = false →
  (∀ e, e ∈ L → SCName e ≠ scName op) →
  (∃ d, d ∈ L ∧ IsDefault d = true) →
  ∃ d, d ∈ L ∧ IsDefault d = true
       ∧ processResult op ctx
         = (Join [joinAll None (failingErrors pre); Some (notExistError op)],
            withDefaultSCName ctx (SCName d),
            (map LogResponse pre.*1 ++ [LogResponse host; LogParse host])%list).
Proof.
  intros Hrc Hpre Hu Hp Hparse Hne Hign Habsent Hdef.
  unfold processResult. rewrite Hrc.
  rewrite processResultFrom_continues by done.
  cbn [processResultFrom]. rewrite Hu, Hp. cbn [negb]. rewrite Hparse.
  cbn [SCInfoList app]. rewrite <- app_assoc. cbn [app].
  pose proof (scan_foundNamed op L false false ctx) as Hn.
  pose proof (scan_foundDefault op L false false ctx) as Hd.
  pose proof (scan_default_stored op L false ctx) as Hs.
  destruct (scanSubclusters op L false false ctx) as [[fn fd] ctx1].
  cbn [fst snd] in Hn, Hd, Hs.
  assert (fd = true) as -> by (apply Hd; by right).
  destruct (Hs eq_refl) as (d & Hin & Hdd & ->).
  assert (fn = false) as ->.
  { apply not_true_iff_false. rewrite Hn.
    intros [?|(e & Hine & He)]; [done |]. by apply (Habsent e). }
  rewrite bool_decide_eq_false_2 by done. rewrite Hign. cbn [negb andb].
  by exists d.
Qed.

(** X18 -- the only thing the op ever writes to the context is the default
    subcluster name, and only a name that the decoded content of a passing
    host flags as default: the context after [processResult] is the one
    before, or the one before with such a name stored. *)
Theorem findSubcluster_writes_default_only (op : t)
  (ctx : opEngineExecContext) :
  (processResult op ctx).1.2 = ctx
  ∨ ∃ h r L d,
      (h, r) ∈ ResultCollection (clusterHTTPRequestOf (base op))
      ∧ isPassing r = true
      ∧ parseAndCheckResponse (base op) h (content r) = inr {| SCInfoList := L |}
      ∧ d ∈ L ∧ IsDefault d = true
      ∧ (processResult op ctx).1.2 = withDefaultSCName ctx (SCName d).
Proof.
  unfold processResult.
  generalize (@nil logEvent) as log. generalize (@None errorValue) as acc.
  induction (ResultCollection (clusterHTTPRequestOf (base op)))
    as [|[h r] rest IH]; intros acc log; [by left |].
  cbn [processResultFrom].
  destruct (isUnauthorizedRequest r); [by left |].
  destruct (isPassing r) eqn:Hp; cbn [negb].
  - destruct (parseAndCheckResponse (base op) h (content r)) as [e|[L]] eqn:Hparse;
      [by left |].
    cbn [SCInfoList].
    pose proof (scan_context op L false false ctx) as Hc.
    destruct (scanSubclusters op L false false ctx) as [[fn fd] ctx1].
    cbn [snd] in Hc.
    assert (Hgoal : ctx1 = ctx
                    ∨ ∃ h0 r0 L0 d,
                        (h0, r0) ∈ (h, r) :: rest ∧ isPassing r0 = true
                        ∧ parseAndCheckResponse (base op) h0 (content r0)
                          = inr {| SCInfoList := L0 |}
                        ∧ d ∈ L0 ∧ IsDefault d = true
                        ∧ ctx1 = withDefaultSCName ctx (SCName d)).
    { destruct Hc as [?|(d & Hin & Hd & ?)]; [by left | right].
      exists h, r, L, d. split; [left | done]. }
    destruct (negb (bool_decide (scName op = "")) && negb (ignoreNotFound op)
              && negb fn); [exact Hgoal |].
    destruct (negb fd); exact Hgoal.
  - destruct (IH (Join [acc; err r]) (log ++ [LogResponse h])%list)
      as [?|(h0 & r0 & L0 & d & Hin & Hrest)]; [by left | right].
    exists h0, r0, L0, d. split; [by right | done].
Qed.

End FindSubclusterOutcomes.

(* ===================================================================== *)
(** * Further properties: the catalog bootstrap op *)
(* ===================================================================== *)

Section BootstrapBodies.
Context `{GoLib}.
Import NMABootstrapCatalogOp.

(** X19 -- [MakeNMABootstrapCatalogOp] returns nil exactly when every
    bootstrap host has a node with a storage location in the database (a
    host the database does not know has none).  Then there is one body per
    bootstrap host, built from its node with the first storage location and
    the shared configuration parameters.  Otherwise the error names the op,
    and the op returned holds the bodies of the hosts that come before the
    first host without storage and no other. *)
Theorem bootstrap_bodies_need_storage (name' : string)
  (vdb : VCoordinationDatabase) (options : VCreateDatabaseOptions)
  (hs : list string) :
  let made := MakeNMABootstrapCatalogOp name' vdb options hs in
  let nodeOf h := default zeroVCoordinationNode (HostNodeMap vdb !! h) in
  let body h :=
    bootstrapDataFor vdb options h (nodeOf h)
                     (default "" (head (vnStorageLocations (nodeOf h)))) in
  hosts (base made.1) = hs
  ∧ (made.2 = None ↔ ∀ h, h ∈ hs → vnStorageLocations (nodeOf h) ≠ [])
  ∧ (made.2 = None →
     ∀ h, hostRequestBodyMap made.1 !! h
          = if decide (h ∈ hs) then Some (body h) else None)
  ∧ (∀ e, made.2 = Some e →
          e = errorString ("[" ++ name' ++ "] the storage locations is empty")
          ∧ ∃ before failing after,
              hs = (before ++ failing :: after)%list
              ∧ vnStorageLocations (nodeOf failing) = []
              ∧ (∀ h, h ∈ before → vnStorageLocations (nodeOf h) ≠ [])
              ∧ ∀ h, hostRequestBodyMap made.1 !! h
                     = if decide (h ∈ before) then Some (body h) else None).
Proof.
  intros made nodeOf body.
  subst made. unfold MakeNMABootstrapCatalogOp, setupRequestBody.
  cbn [base hosts name marshaledRequestBodyMap].
  match goal with
  | |- context [?F ∅ hs] => set (loop := F)
  end.
  assert (Hnil : ∀ acc,
             loop acc []
             = ({| base := {| name := name'; hosts := hs;
                              clusterHTTPRequestOf := zeroClusterHTTPRequest;
                              skipExecute := false |};
                   hostRequestBodyMap := acc;
                   marshaledRequestBodyMap := ∅ |}, None)) by reflexivity.
  assert (Hcons : ∀ acc h rest,
             loop acc (h :: rest)
             = match vnStorageLocations (nodeOf h) with
               | [] =>
                   ({| base := {| name := name'; hosts := hs;
                                  clusterHTTPRequestOf := zeroClusterHTTPRequest;
                                  skipExecute := false |};
                       hostRequestBodyMap := acc;
                       marshaledRequestBodyMap := ∅ |},
                    Some (errorString ("[" ++ name'
                                       ++ "] the storage locations is empty")))
               | storageLocation :: _ =>
                   loop (<[h := bootstrapDataFor vdb options h (nodeOf h)
                                                 storageLocation]> acc) rest
               end) by reflexivity.
  clearbody loop.
  assert (Hloop : ∀ l acc,
             hosts (base (loop acc l).1) = hs
             ∧ ((loop acc l).2 = None
                ↔ ∀ h, h ∈ l → vnStorageLocations (nodeOf h) ≠ [])
             ∧ ((loop acc l).2 = None →
                ∀ h, hostRequestBodyMap (loop acc l).1 !! h
                     = if decide (h ∈ l) then Some (body h) else acc !! h)
             ∧ (∀ e, (loop acc l).2 = Some e →
                     e = errorString ("[" ++ name'
                                      ++ "] the storage locations is empty")
                     ∧ ∃ before failing after,
                         l = (before ++ failing :: after)%list
                         ∧ vnStorageLocations (nodeOf failing) = []
                         ∧ (∀ h, h ∈ before →
                                 vnStorageLocations (nodeOf h) ≠ [])
                         ∧ ∀ h, hostRequestBodyMap (loop acc l).1 !! h
                                = if decide (h ∈ before) then Some (body h)
                                  else acc !! h)).
  { induction l as [|h0 rest IH]; intros acc.
    - rewrite Hnil. cbn [fst snd base hosts hostRequestBodyMap].
      split; [done |]. split; [split; [by intros _ h Hin%elem_of_nil | done] |].
      split; [| done]. intros _ h.
      by rewrite decide_False by apply not_elem_of_nil.
    - rewrite Hcons.
      destruct (vnStorageLocations (nodeOf h0)) as [|sl others] eqn:Hsl.
      + cbn [fst snd base hosts hostRequestBodyMap].
        split; [done |]. split.
        { split; [done |]. intros Hall. exfalso.
          apply (Hall h0); [left | done]. }
        split; [done |]. intros e [= <-]. split; [done |].
        exists [], h0, rest. split; [done |]. split; [done |].
        split; [by intros h Hin%elem_of_nil |]. intros h.
        by rewrite decide_False by apply not_elem_of_nil.
      + assert (Hbody : bootstrapDataFor vdb options h0 (nodeOf h0) sl = body h0).
        { subst body. cbn beta. by rewrite Hsl. }
        rewrite Hbody.
        destruct (IH (<[h0 := body h0]> acc)) as (Hh & Hiff & Hok & Herr).
        split; [done |]. split; [| split].
        * rewrite Hiff. split.
          -- intros Hall h [->|Hin]%elem_of_cons; [by rewrite Hsl | by apply Hall].
          -- intros Hall h Hin. apply Hall. by right.
        * intros Hnone h. rewrite (Hok Hnone).
          destruct (decide (h ∈ rest)) as [Hin|Hnin].
          -- by rewrite decide_True by (by right).
          -- destruct (decide (h = h0)) as [->|Hne].
             ++ rewrite decide_True by left. apply lookup_insert_eq.
             ++ rewrite lookup_insert_ne by done.
                rewrite decide_False; [done |].
                intros [?|?]%elem_of_cons; done.
        * intros e He. destruct (Herr e He)
            as (-> & before & failing & after & -> & Hf & Hb & Hmap).
          split; [done |]. exists (h0 :: before), failing, after.
          split; [done |]. split; [done |]. split.
          -- intros h [->|Hin]%elem_of_cons; [by rewrite Hsl | by apply Hb].
          -- intros h. rewrite Hmap.
             destruct (decide (h ∈ before)) as [Hin|Hnin].
             ++ by rewrite decide_True by (by right).
             ++ destruct (decide (h = h0)) as [->|Hne].
                ** rewrite decide_True by left. apply lookup_insert_eq.
                ** rewrite lookup_insert_ne by done.
                   rewrite decide_False; [done |].
                   intros [?|?]%elem_of_cons; done. }
  destruct (Hloop hs ∅) as (Hh & Hiff & Hok & Herr).
  split; [done |]. split; [done |]. split.
  - intros Hnone h. rewrite (Hok Hnone).
    destruct (decide (h ∈ hs)); [done | apply lookup_empty].
  - intros e He. destruct (Herr e He)
      as (-> & before & failing & after & Hl & Hf & Hb & Hmap).
    split; [done |]. exists before, failing, after.
    repeat (split; [done |]). intros h. rewrite Hmap.
    destruct (decide (h ∈ before)); [done | apply lookup_empty].
Qed.

Lemma setupRequestBody_parameters (op : t) vdb options :
  ∀ host d, hostRequestBodyMap (setupRequestBody op vdb options).1 !! host
            = Some d →
            Parameters d = ConfigurationParameters options.
Proof.
  unfold setupRequestBody.
  assert (Hinit : ∀ host d,
             (∅ : gmap string bootstrapCatalogRequestData) !! host = Some d →
             Parameters d = ConfigurationParameters options)
    by (intros host d Hl; by rewrite lookup_empty in Hl).
  revert Hinit.
  generalize (∅ : gmap string bootstrapCatalogRequestData) as bodies.
  generalize (hosts (base op)) as hs.
  induction hs as [|host rest IH]; intros bodies Hinv; [done |].
  destruct (vnStorageLocations
              (default zeroVCoordinationNode (HostNodeMap vdb !! host)))
    as [|storageLocation others] eqn:Hsl.
  - exact Hinv.
  - apply IH. intros h d Hl.
    destruct (decide (h = host)) as [->|Hne].
    + rewrite lookup_insert_eq in Hl. by injection Hl as <-.
    + rewrite lookup_insert_ne in Hl by done. by eapply Hinv.
Qed.

Lemma setupRequestBody_base (op : t) vdb options :
  base (setupRequestBody op vdb options).1 = base op.
Proof.
  unfold setupRequestBody.
  generalize (∅ : gmap string bootstrapCatalogRequestData) as bodies.
  generalize (hosts (base op)) as hs.
  induction hs as [|host rest IH]; intros bodies; [done |].
  destruct (vnStorageLocations
              (default zeroVCoordinationNode (HostNodeMap vdb !! host)));
    [done | apply IH].
Qed.

Lemma bootstrap_setup_lookup (op : t) (hs : list string) (h : string) :
  requestFor (base (setupClusterHTTPRequest op hs)) h
  = if decide (h ∈ hs)
    then Some (setRequestData
                 (buildNMAEndpoint (setMethod zeroHostHTTPRequest PostMethod)
                                   "catalog/bootstrap")
                 (default "" (marshaledRequestBodyMap op !! h)))
    else None.
Proof.
  unfold setupClusterHTTPRequest. cbn [base withBase].
  set (step := λ (b : opBase) (host : string), _).
  assert (Hgen : ∀ b,
             is_Some (RequestCollection (clusterHTTPRequestOf b)) →
             requestFor (foldl step b hs) h
             = if decide (h ∈ hs)
               then Some (setRequestData
                            (buildNMAEndpoint
                               (setMethod zeroHostHTTPRequest PostMethod)
                               "catalog/bootstrap")
                            (default "" (marshaledRequestBodyMap op !! h)))
               else requestFor b h).
  { induction hs as [|host rest IH]; intros b Hrc; cbn [foldl].
    - by rewrite decide_False by apply not_elem_of_nil.
    - rewrite IH by (subst step; cbn; by eexists).
      destruct (decide (h ∈ rest)) as [Hin|Hnin].
      + by rewrite decide_True by (by right).
      + subst step. cbn beta. rewrite requestFor_withRequestCollection.
        cbn [mbind option_bind].
        destruct Hrc as [rc Hrc]. unfold requestFor. rewrite Hrc.
        cbn [default mbind option_bind].
        destruct (decide (h = host)) as [->|Hne].
        * rewrite decide_True by left. apply lookup_insert_eq.
        * rewrite lookup_insert_ne by done. rewrite decide_False; [done |].
          intros [?|?]%elem_of_cons; done. }
  rewrite Hgen by (cbn; by eexists).
  destruct (decide (h ∈ hs)); [done | apply lookup_empty].
Qed.

(** X20 -- [Prepare] of the op [MakeNMABootstrapCatalogOp] builds never
    reports a failure and leaves the store of shared maps as it was.  It
    leaves a POST request exactly for the bootstrap hosts; the body of a host
    with a network profile in the context is the marshalling of its body with
    the broadcast address of that profile, and the body of a bootstrap host
    without a network profile is the empty string. *)
Theorem bootstrap_prepare_requests (name' : string)
  (vdb : VCoordinationDatabase) (options : VCreateDatabaseOptions)
  (hs : list string) (σ : store) (ctx : opEngineExecContext) :
  let op := (MakeNMABootstrapCatalogOp name' vdb options hs).1 in
  let prepared := Prepare σ op ctx in
  prepared.2 = ResultPass
  ∧ prepared.1.1.1 = σ
  ∧ prepared.1.2 = withDispatcher ctx (Dispatcher.setup (dispatcher ctx) hs)
  ∧ ∀ h,
      match requestFor (base prepared.1.1.2) h with
      | None => h ∉ hs
      | Some req =>
          h ∈ hs ∧ Method req = "POST"
          ∧ RequestData req
            = match default ∅ (networkProfiles ctx) !! h with
              | Some profile => marshal σ (unmaskedBody op h profile)
              | None => ""
              end
      end.
Proof.
  intros op prepared.
  assert (Hhosts : hosts (base op) = hs).
  { subst op. unfold MakeNMABootstrapCatalogOp.
    by rewrite setupRequestBody_base. }
  assert (Hinv : embeddedNil (hostRequestBodyMap op)).
  { subst op. unfold MakeNMABootstrapCatalogOp.
    apply setupRequestBody_embeddedNil. }
  set (profiles := map_to_list (default ∅ (networkProfiles ctx))).
  set (op0 := {| base := base op; hostRequestBodyMap := hostRequestBodyMap op;
                 marshaledRequestBodyMap := ∅ |}).
  destruct (update_loop_embeddedNil σ op0 ∅ profiles Hinv
              (NoDup_fst_map_to_list _))
    as (op' & masked' & Hrun & Hbase & Hin & Hout).
  assert (Hprep : prepared
                  = (σ, setupClusterHTTPRequest op' (hosts (base op')),
                     withDispatcher ctx
                       (Dispatcher.setup (dispatcher ctx) (hosts (base op'))),
                     ResultPass)).
  { subst prepared. unfold Prepare, updateRequestBody, updateRequestBodyOver.
    fold profiles. fold op0. by rewrite Hrun. }
  rewrite Hprep. cbn [fst snd]. rewrite Hbase. subst op0. cbn [base].
  rewrite Hhosts. split; [done |]. split; [done |]. split; [done |].
  intros h. rewrite bootstrap_setup_lookup.
  destruct (decide (h ∈ hs)); [| done].
  split; [done |]. split; [done |]. cbn [RequestData setRequestData].
  destruct (default ∅ (networkProfiles ctx) !! h) as [profile|] eqn:Hl.
  - assert (Hmem : (h, profile) ∈ profiles) by by apply elem_of_map_to_list.
    destruct (Hin h profile Hmem) as (_ & -> & _). done.
  - assert (Hnot : h ∉ profiles.*1).
    { intros [[h' p] [-> Hmem]]%list_elem_of_fmap.
      apply elem_of_map_to_list in Hmem. cbn [fst] in Hl. congruence. }
    destruct (Hout h Hnot) as (_ & -> & _).
    cbn [marshaledRequestBodyMap]. by rewrite lookup_empty.
Qed.

(** X21 -- masking does not reach the configuration parameters that the
    logged copy of a bootstrap body shows.  For a host with a body from the
    constructor and a network profile, the copy kept for the log has the
    placeholder in its three credential fields, and its [Parameters] is the
    options' map, which reads in the store afterwards exactly as before: the
    value under every key, deny-listed or not, is the one given. *)
Theorem bootstrap_logged_copy_keeps_parameters (name' : string)
  (vdb : VCoordinationDatabase) (options : VCreateDatabaseOptions)
  (hs : list string) (σ : store) (ctx : opEngineExecContext)
  (h : string) (profile : NetworkProfile) :
  let op := (MakeNMABootstrapCatalogOp name' vdb options hs).1 in
  let st := updateRequestBody σ op ctx in
  is_Some (hostRequestBodyMap op !! h) →
  default ∅ (networkProfiles ctx) !! h = Some profile →
  ∃ logged,
    st.2 !! h = Some logged
    ∧ Sensitive.DBPassword (SensitiveFields logged) = "******"
    ∧ Sensitive.AWSAccessKeyID (SensitiveFields logged) = "******"
    ∧ Sensitive.AWSSecretAccessKey (SensitiveFields logged) = "******"
    ∧ Parameters logged = ConfigurationParameters options
    ∧ ∀ k, deref st.1.1 (Parameters logged) !! k
           = deref σ (ConfigurationParameters options) !! k.
Proof.
  intros op st [d Hd] Hl.
  assert (Hinv : embeddedNil (hostRequestBodyMap op)).
  { subst op. unfold MakeNMABootstrapCatalogOp.
    apply setupRequestBody_embeddedNil. }
  assert (Hpar : Parameters d = ConfigurationParameters options).
  { subst op. unfold MakeNMABootstrapCatalogOp in Hd.
    by eapply setupRequestBody_parameters. }
  set (profiles := map_to_list (default ∅ (networkProfiles ctx))).
  set (op0 := {| base := base op; hostRequestBodyMap := hostRequestBodyMap op;
                 marshaledRequestBodyMap := ∅ |}).
  destruct (update_loop_embeddedNil σ op0 ∅ profiles Hinv
              (NoDup_fst_map_to_list _))
    as (op' & masked' & Hrun & _ & Hin & _).
  assert (Hst : st = (σ, op', masked')) by exact Hrun.
  assert (Hmem : (h, profile) ∈ profiles) by by apply elem_of_map_to_list.
  destruct (Hin h profile Hmem) as (_ & _ & Hk).
  rewrite Hst. cbn [fst snd]. eexists. split; [exact Hk |].
  assert (Hbody : Parameters (unmaskedBody op0 h profile)
                  = ConfigurationParameters options).
  { unfold unmaskedBody. subst op0. cbn [hostRequestBodyMap].
    rewrite Hd. cbn. exact Hpar. }
  cbn [SensitiveFields withSensitiveFields maskedFields Parameters
       Sensitive.DBPassword Sensitive.AWSAccessKeyID
       Sensitive.AWSSecretAccessKey].
  repeat (split; [reflexivity |]).
  split; [exact Hbody |]. intros k. by rewrite Hbody.
Qed.

End BootstrapBodies.

Section BootstrapResults.
Context `{GoLib} `{JSONTarget opResponseMap} `{JSONTarget NetworkProfile}
        `{UtilPkg}.
Import NMABootstrapCatalogOp.

(** A host whose answer lets the bootstrap succeed. *)
Lemma checkHost_true (op : t) (success : bool) (hr : string * hostHTTPResult) :
  checkHost op success hr = true
  ↔ success = true
    ∧ isPassing hr.2 = true
    ∧ ∃ m, parseAndCheckMapResponse (base op) hr.1 (content hr.2) = inr m
           ∧ m !! "bootstrap_catalog_return_code" = Some "0".
Proof.
  destruct hr as [host r]. unfold checkHost. cbn [fst snd].
  destruct (isPassing r); [| by split; [| intros (_ & ? & _)]].
  destruct (parseAndCheckMapResponse (base op) host (content r)) as [e|m].
  { split; [done | by intros (_ & _ & m & ? & _)]. }
  destruct (m !! "bootstrap_catalog_return_code") as [code|] eqn:Hcode;
    cbn [default].
  - case_bool_decide as Hzero; unfold id in Hzero.
    + subst code. split; [by eauto 6 | by intros (? & _)].
    + split; [done |]. intros (_ & _ & m' & [= <-] & Hc). congruence.
  - rewrite bool_decide_eq_false_2 by done.
    split; [done |]. intros (_ & _ & m' & [= <-] & Hc). congruence.
Qed.

(** X22 -- [processResult] of the bootstrap op passes exactly when every host
    passed, its content was decoded to a map, and the map holds the return
    code "0"; in every other case it fails -- a failing host, content that is
    not decodable, a missing return code and a return code other than "0" are
    not told apart -- and it never reports an exception. *)
Theorem bootstrap_processResult_pass_iff (op : t) (ctx : opEngineExecContext) :
  (processResult op ctx = ResultPass
   ↔ Forall (λ hr, isPassing hr.2 = true
                   ∧ ∃ m, parseAndCheckMapResponse (base op) hr.1 (content hr.2)
                          = inr m
                          ∧ m !! "bootstrap_catalog_return_code" = Some "0")
            (ResultCollection (clusterHTTPRequestOf (base op))))
  ∧ (processResult op ctx = ResultPass ∨ processResult op ctx = ResultFail).
Proof.
  unfold processResult.
  assert (Hfold : ∀ rs b,
             foldl (checkHost op) b rs = true
             ↔ b = true
               ∧ Forall (λ hr, isPassing hr.2 = true
                               ∧ ∃ m, parseAndCheckMapResponse (base op) hr.1
                                        (content hr.2) = inr m
                                      ∧ m !! "bootstrap_catalog_return_code"
                                        = Some "0") rs).
  { induction rs as [|hr rs IH]; intros b; cbn [foldl].
    - split; [by split | by intros [? _]].
    - rewrite IH, checkHost_true, Forall_cons. by intuition. }
  split.
  - destruct (foldl (checkHost op) true _) eqn:Hf.
    + apply Hfold in Hf as [_ Hall]. by split.
    + split; [done |]. intros Hall. exfalso.
      assert (foldl (checkHost op) true
                    (ResultCollection (clusterHTTPRequestOf (base op))) = true)
        by by apply Hfold.
      congruence.
  - destruct (foldl (checkHost op) true _); [by left | by right].
Qed.

Lemma NoDup_fst_unique {A : Type} (l : list (string * A)) (k : string) (x y : A) :
  NoDup l.*1 → (k, x) ∈ l → (k, y) ∈ l → x = y.
Proof.
  induction l as [|[k' z] l IH]; intros Hnd Hx Hy.
  - by apply elem_of_nil in Hx.
  - cbn [fmap list_fmap fst] in Hnd. apply NoDup_cons in Hnd as [Hnin Hnd].
    apply elem_of_cons in Hx as [Hx|Hx];
      apply elem_of_cons in Hy as [Hy|Hy]; simplify_eq.
    + done.
    + exfalso. apply Hnin. apply list_elem_of_fmap. by exists (k', y).
    + exfalso. apply Hnin. apply list_elem_of_fmap. by exists (k', x).
    + by apply IH.
Qed.

(** X23 -- from the network-profile op to the bootstrap op through the
    context.  When every passing host of the network-profile op gave a
    complete profile, [updateRequestBody] run on the context that
    [processResult] leaves stores, for each such host, the bootstrap body
    with the broadcast address taken from that host's profile, and marshals
    it; a host that did not pass gets no marshalled body. *)
Theorem profiles_reach_bootstrap_bodies (np : NMANetworkProfileOp.t)
  (ctx : opEngineExecContext) (name' : string) (vdb : VCoordinationDatabase)
  (options : VCreateDatabaseOptions) (hs : list string) (σ : store) :
  let results := ResultCollection
                   (clusterHTTPRequestOf (NMANetworkProfileOp.base np)) in
  let ctx' := (NMANetworkProfileOp.processResult np ctx).2 in
  let op := (MakeNMABootstrapCatalogOp name' vdb options hs).1 in
  let st := updateRequestBody σ op ctx' in
  Forall (λ hr, ¬ failsToParse np hr) results →
  NoDup results.*1 →
  (∀ h r profile,
     (h, r) ∈ results → isPassing r = true →
     NMANetworkProfileOp.parseResponse np h (content r) = inr profile →
     ∃ body,
       hostRequestBodyMap st.1.2 !! h = Some body
       ∧ BroadcastAddr body = Broadcast profile
       ∧ body = unmaskedBody op h profile
       ∧ marshaledRequestBodyMap st.1.2 !! h = Some (marshal σ body))
  ∧ (∀ h r,
       (h, r) ∈ results → isPassing r = false →
       marshaledRequestBodyMap st.1.2 !! h = None).
Proof.
  intros results ctx' op st Hall Hnd.
  assert (Hctx : networkProfiles ctx'
                 = Some (collectProfiles np ∅ results)).
  { subst ctx'. unfold NMANetworkProfileOp.processResult. fold results.
    by rewrite np_all_parse. }
  assert (Hinv : embeddedNil (hostRequestBodyMap op)).
  { subst op. unfold MakeNMABootstrapCatalogOp.
    apply setupRequestBody_embeddedNil. }
  set (profiles := map_to_list (collectProfiles np ∅ results)).
  set (op0 := {| base := base op; hostRequestBodyMap := hostRequestBodyMap op;
                 marshaledRequestBodyMap := ∅ |}).
  destruct (update_loop_embeddedNil σ op0 ∅ profiles Hinv
              (NoDup_fst_map_to_list _))
    as (op' & masked' & Hrun & _ & Hin & Hout).
  assert (Hst : st = (σ, op', masked')).
  { subst st. unfold updateRequestBody, updateRequestBodyOver.
    rewrite Hctx. cbn [default]. exact Hrun. }
  rewrite Hst. cbn [fst snd]. split.
  - intros h r profile Hmem Hp Hparse.
    assert (Hl : collectProfiles np ∅ results !! h = Some profile)
      by by eapply collectProfiles_present.
    apply elem_of_map_to_list in Hl.
    destruct (Hin h profile Hl) as (Hb & Hm & _).
    exists (unmaskedBody op0 h profile). by repeat split.
  - intros h r Hmem Hp.
    assert (Hnot : h ∉ profiles.*1).
    { intros [[h' p] [-> Hmem']]%list_elem_of_fmap.
      apply elem_of_map_to_list in Hmem'. cbn [fst] in *.
      apply collectProfiles_origin in Hmem' as [Hl|(r' & Hmem' & Hp' & _)].
      - by rewrite lookup_empty in Hl.
      - assert (r = r') by by eapply NoDup_fst_unique. congruence. }
    destruct (Hout h Hnot) as (_ & -> & _). apply lookup_empty.
Qed.

End BootstrapResults.

(* ===================================================================== *)
(** * Further properties: the subcluster commands *)
(* ===================================================================== *)

Section CommandValidation.
Context {Cmd : Type}.
Context (getCertFilesFromCertPaths ValidateParseBaseOptions setDBPassword
         : Cmd → Cmd * error).

(** X24 -- when the certificate files are found and the validation of the base
    options fails, [validateParse] of the stop-subcluster command returns that
    error, while [validateParse] of the remove-subcluster command returns nil;
    neither goes on to set the database password.  In every other case the
    two return the same. *)
Theorem remove_validateParse_drops_option_error (c : Cmd) :
  let afterCerts := getCertFilesFromCertPaths c in
  let afterOptions := ValidateParseBaseOptions afterCerts.1 in
  (afterCerts.2 = None → afterOptions.2 ≠ None →
   Commands.stopValidateParse getCertFilesFromCertPaths
     ValidateParseBaseOptions setDBPassword c = afterOptions
   ∧ Commands.removeValidateParse getCertFilesFromCertPaths
       ValidateParseBaseOptions setDBPassword c = (afterOptions.1, None))
  ∧ (afterCerts.2 ≠ None ∨ afterOptions.2 = None →
     Commands.removeValidateParse getCertFilesFromCertPaths
       ValidateParseBaseOptions setDBPassword c
     = Commands.stopValidateParse getCertFilesFromCertPaths
         ValidateParseBaseOptions setDBPassword c).
Proof.
  intros afterCerts afterOptions.
  unfold Commands.stopValidateParse, Commands.removeValidateParse.
  subst afterOptions afterCerts.
  destruct (getCertFilesFromCertPaths c) as [c1 [e1|]]; cbn [fst snd].
  - split; [done | done].
  - destruct (ValidateParseBaseOptions c1) as [c2 [e2|]]; cbn [fst snd].
    + split; [done |]. intros [?|?]; done.
    + split; [done | done].
Qed.

End CommandValidation.

(* ===================================================================== *)
(** * Instances of the further properties *)
(* ===================================================================== *)

Section FurtherInstances.
Import Sample.
#[local] Existing Instance goLib.
#[local] Existing Instance utilPkg.
#[local] Existing Instance decodeSCResp.
#[local] Existing Instance decodeNetworkProfile.
#[local] Existing Instance decodeMap.

(** X14 at one passing host whose list has the default subcluster and the
    name looked for: the nil result is of the third kind. *)
Lemma findSubcluster_nil_result_witness :
  let good h := passingResult h "d:default_subcluster" in
  let op := findOp "sc1" false [(hostA, good hostA)] in
  let ctx := makeOpEngineExecContext in
  let ctx' := withDefaultSCName ctx "default_subcluster" in
  HTTPSFindSubclusterOp.processResult op ctx
  = (None, ctx', [LogResponse hostA; LogParse hostA])
  ∧ ∃ h r L d,
      (h, r) ∈ [(hostA, good hostA)] ∧ isPassing r = true
      ∧ parseAndCheckResponse (HTTPSFindSubclusterOp.base op) h (content r)
        = inr {| SCInfoList := L |}
      ∧ d ∈ L ∧ IsDefault d = true
      ∧ ctx' = withDefaultSCName ctx (SCName d).
Proof.
  intros good op ctx ctx'.
  assert (Hrun : HTTPSFindSubclusterOp.processResult op ctx
                 = (None, ctx', [LogResponse hostA; LogParse hostA]))
    by reflexivity.
  split; [exact Hrun |].
  destruct (findSubcluster_nil_result op ctx ctx' _ Hrun)
    as [[Hnil _]|[[Hsame _]|(h & r & L & d & Hin & Hp & Hparse & Hd & Hdef & Hctx & _)]].
  - discriminate Hnil.
  - discriminate Hsame.
  - exists h, r, L, d. repeat (split; [assumption |]). assumption.
Defined.

(** X15 at three hosts: A timed out, B passed with content that is not a
    subcluster list, C passed with a good list and is not examined. *)
Lemma findSubcluster_parse_failure_witness :
  let results := [(hostA, timeoutResult hostA);
                  (hostB, passingResult hostB "garbage");
                  (hostC, passingResult hostC "d:default_subcluster")] in
  let op := findOp "sc1" false results in
  let ctx := makeOpEngineExecContext in
  Forall continues [(hostA, timeoutResult hostA)]
  ∧ parseAndCheckResponse (T := SCResp) (HTTPSFindSubclusterOp.base op) hostB
      "garbage"
    = inl (unmarshalError "HTTPSFindSubclusterOp")
  ∧ ∃ E,
      HTTPSFindSubclusterOp.processResult op ctx
      = (Some E, ctx, [LogResponse hostA; LogResponse hostB; LogParse hostB])
      ∧ occursIn (unmarshalError "HTTPSFindSubclusterOp") E
      ∧ occursIn (errorString "context deadline exceeded") E.
Proof.
  intros results op ctx.
  assert (Hpre : Forall continues [(hostA, timeoutResult hostA)]).
  { repeat constructor. }
  assert (Hparse : parseAndCheckResponse (T := SCResp)
                     (HTTPSFindSubclusterOp.base op) hostB
                     (content (passingResult hostB "garbage"))
                   = inl (unmarshalError "HTTPSFindSubclusterOp"))
    by reflexivity.
  split; [exact Hpre |]. split; [exact Hparse |].
  destruct (findSubcluster_parse_failure op ctx
              [(hostA, timeoutResult hostA)] hostB
              (passingResult hostB "garbage")
              [(hostC, passingResult hostC "d:default_subcluster")]
              (unmarshalError "HTTPSFindSubclusterOp")
              eq_refl Hpre eq_refl eq_refl Hparse)
    as (E & Hrun & He & _ & Hprev).
  exists E. split; [exact Hrun |]. split; [exact He |].
  apply Hprev. left.
Defined.

(** X16 at two hosts: A's list holds the name looked for and no default
    entry; B's list, which has one, is not examined. *)
Lemma findSubcluster_no_default_witness :
  let results := [(hostA, passingResult hostA "n:sc1");
                  (hostB, passingResult hostB "d:default_subcluster")] in
  let op := findOp "sc1" false results in
  let ctx := makeOpEngineExecContext in
  let L := [ {| SCName := "sc1"; IsDefault := false |} ] in
  (∀ d, d ∈ L → IsDefault d = false)
  ∧ (∃ e, e ∈ L ∧ SCName e = "sc1")
  ∧ HTTPSFindSubclusterOp.processResult op ctx
    = (Some (joinError [HTTPSFindSubclusterOp.noDefaultError op]), ctx,
       [LogResponse hostA; LogParse hostA]).
Proof.
  intros results op ctx L.
  assert (Hnone : ∀ d, d ∈ L → IsDefault d = false).
  { intros d Hd. apply list_elem_of_singleton in Hd. by rewrite Hd. }
  assert (Hname : ∃ e, e ∈ L ∧ SCName e = "sc1").
  { eexists. split; [left | reflexivity]. }
  assert (Hparse : parseAndCheckResponse (HTTPSFindSubclusterOp.base op) hostA
                     (content (passingResult hostA "n:sc1"))
                   = inr {| SCInfoList := L |}) by reflexivity.
  split; [exact Hnone |]. split; [exact Hname |].
  exact (findSubcluster_no_default op ctx [] hostA
           (passingResult hostA "n:sc1")
           [(hostB, passingResult hostB "d:default_subcluster")] L
           eq_refl (Forall_nil_2 _) eq_refl eq_refl Hparse Hnone
           (or_intror (or_intror Hname))).
Defined.

(** X17 at one host whose list has a default entry and lacks [sc2]. *)
Lemma findSubcluster_not_found_keeps_default_witness :
  let results := [(hostA, passingResult hostA "d:default_subcluster")] in
  let op := findOp "sc2" false results in
  let ctx := makeOpEngineExecContext in
  (∀ e, e ∈ subclusters → SCName e ≠ "sc2")
  ∧ ∃ d, d ∈ subclusters ∧ IsDefault d = true
         ∧ HTTPSFindSubclusterOp.processResult op ctx
           = (Some (joinError [HTTPSFindSubclusterOp.notExistError op]),
              withDefaultSCName ctx (SCName d),
              [LogResponse hostA; LogParse hostA]).
Proof.
  intros results op ctx.
  assert (Hlack : ∀ e, e ∈ subclusters → SCName e ≠ "sc2").
  { intros e He.
    apply elem_of_cons in He as [->|He]; [discriminate |].
    apply list_elem_of_singleton in He as ->. discriminate. }
  assert (Hdef : ∃ d, d ∈ subclusters ∧ IsDefault d = true).
  { eexists. split; [left | reflexivity]. }
  assert (Hparse : parseAndCheckResponse (HTTPSFindSubclusterOp.base op) hostA
                     (content (passingResult hostA "d:default_subcluster"))
                   = inr {| SCInfoList := subclusters |}) by reflexivity.
  assert (Hne : HTTPSFindSubclusterOp.scName op ≠ "") by discriminate.
  split; [exact Hlack |].
  exact (findSubcluster_not_found_keeps_default op ctx [] hostA
           (passingResult hostA "d:default_subcluster") [] subclusters
           eq_refl (Forall_nil_2 _) eq_refl eq_refl Hparse Hne eq_refl
           Hlack Hdef).
Defined.

(** X21 at the two-node database whose configuration parameters hold a
    credential: the copy logged for host A has the three fields masked, and
    the credential is still to be read through its parameters. *)
Lemma bootstrap_logged_copy_keeps_parameters_witness :
  let op := (NMABootstrapCatalogOp.MakeNMABootstrapCatalogOp
               "NMABootstrapCatalogOp" vdb options [hostA; hostB]).1 in
  let st := NMABootstrapCatalogOp.updateRequestBody parameterStore op
              contextWithProfiles in
  is_Some (NMABootstrapCatalogOp.hostRequestBodyMap op !! hostA)
  ∧ ∃ logged,
      st.2 !! hostA = Some logged
      ∧ Sensitive.DBPassword (NMABootstrapCatalogOp.SensitiveFields logged)
        = "******"
      ∧ deref st.1.1 (NMABootstrapCatalogOp.Parameters logged) !! "AWSAuth"
        = Some "key:secret".
Proof.
  intros op st.
  assert (Hbody : is_Some (NMABootstrapCatalogOp.hostRequestBodyMap op !! hostA)).
  { eexists. reflexivity. }
  assert (Hprofile : default ∅ (networkProfiles contextWithProfiles) !! hostA
                     = Some (profileOf hostA)) by reflexivity.
  split; [exact Hbody |].
  destruct (bootstrap_logged_copy_keeps_parameters
              "NMABootstrapCatalogOp" vdb options [hostA; hostB] parameterStore
              contextWithProfiles hostA (profileOf hostA) Hbody Hprofile)
    as (logged & Hl & Hpw & _ & _ & _ & Hparams).
  exists logged. split; [exact Hl |]. split; [exact Hpw |].
  fold op in Hparams. fold st in Hparams.
  rewrite Hparams. reflexivity.
Defined.

(** X23 at two hosts: A answered with a profile, B timed out.  The bootstrap
    body of A carries A's broadcast address and is marshalled; B gets no
    marshalled body. *)
Lemma profiles_reach_bootstrap_bodies_witness :
  let results := [(hostA, passingResult hostA "10.20.30.255");
                  (hostB, timeoutResult hostB)] in
  let np := profileOp results in
  let ctx' := (NMANetworkProfileOp.processResult np makeOpEngineExecContext).2 in
  let op := (NMABootstrapCatalogOp.MakeNMABootstrapCatalogOp
               "NMABootstrapCatalogOp" vdb options [hostA; hostB]).1 in
  let st := NMABootstrapCatalogOp.updateRequestBody parameterStore op ctx' in
  Forall (λ hr, ¬ failsToParse np hr) results
  ∧ NoDup results.*1
  ∧ (∃ body,
       NMABootstrapCatalogOp.hostRequestBodyMap st.1.2 !! hostA = Some body
       ∧ NMABootstrapCatalogOp.BroadcastAddr body = "10.20.30.255"
       ∧ NMABootstrapCatalogOp.marshaledRequestBodyMap st.1.2 !! hostA
         = Some (NMABootstrapCatalogOp.marshal parameterStore body))
  ∧ NMABootstrapCatalogOp.marshaledRequestBodyMap st.1.2 !! hostB = None.
Proof.
  intros results np ctx' op st.
  assert (Hall : Forall (λ hr, ¬ failsToParse np hr) results).
  { repeat constructor.
    - intros [_ [e He]]. vm_compute in He. discriminate.
    - intros [Hp _]. vm_compute in Hp. discriminate. }
  assert (Hnd : NoDup results.*1).
  { repeat constructor; intros Hin;
      repeat (apply elem_of_cons in Hin as [Hin|Hin]; [discriminate |]);
      by apply elem_of_nil in Hin. }
  split; [exact Hall |]. split; [exact Hnd |].
  destruct (profiles_reach_bootstrap_bodies np makeOpEngineExecContext
              "NMABootstrapCatalogOp" vdb options [hostA; hostB] parameterStore
              Hall Hnd) as [Hgood Hbad].
  split.
  - destruct (Hgood hostA (passingResult hostA "10.20.30.255")
                {| npName := "10.20.30.255"; Address := "192.168.100.1";
                   Subnet := "192.168.0.0/16"; Netmask := "255.255.0.0";
                   Broadcast := "10.20.30.255" |})
      as (body & Hb & Hbc & _ & Hm);
      [left | reflexivity | reflexivity |].
    exists body. split; [exact Hb |]. split; [exact Hbc |]. exact Hm.
  - apply (Hbad hostB (timeoutResult hostB)); [right; left | reflexivity].
Defined.

(** X24 at a command whose certificate files are found and whose base options
    lack the database name: the stop command reports it, the remove command
    returns nil. *)
Lemma remove_validateParse_drops_option_error_witness :
  let found (c : list string) : list string * error := (c, None) in
  let noName (c : list string) : list string * error :=
    (c, Some (errorString "must specify a database name")) in
  let setPw (c : list string) : list string * error :=
    (("password" :: c)%list, None) in
  (found []).2 = None
  ∧ (noName (found []).1).2 ≠ None
  ∧ Commands.stopValidateParse found noName setPw []
    = ([], Some (errorString "must specify a database name"))
  ∧ Commands.removeValidateParse found noName setPw [] = ([], None).
Proof.
  intros found noName setPw.
  assert (Hcerts : (found []).2 = None) by reflexivity.
  assert (Hopts : (noName (found []).1).2 ≠ None) by discriminate.
  split; [exact Hcerts |]. split; [exact Hopts |].
  exact (proj1 (remove_validateParse_drops_option_error found noName setPw [])
           Hcerts Hopts).
Defined.

End FurtherInstances.
